(** * Config-file monitors: the reconciliation engine of
      [server/config-file-monitors.js]

    The module reads a YAML document that declares monitors, validates every
    declared definition, and converges the [monitor] table and the server's
    live [monitorList] to the declared set.  This file embeds the module's
    functions ([getConfigFilePath], [readConfigFile], [validateMonitorConfig],
    [configToMonitorBean], [findOrCreateMonitor], [syncConfigMonitors]) and
    proves the properties its specification states about them. *)

From Stdlib Require Import ZArith String Ascii List Lia DecimalString.
From stdpp Require Import gmap strings list fin_maps.

Local Open Scope string_scope.
Local Open Scope Z_scope.

Set Warnings "-register-all".

(** ** JavaScript values

    What [yaml.load] can return, plus [undefined], which a property read of
    an absent key yields.  Numbers are the integers (YAML integer scalars);
    an object keeps its keys in insertion order, as [JSON.stringify] prints
    them. *)

Module JS.

Inductive value : Type :=
| VUndef
| VNull
| VBool (b : bool)
| VNum (n : Z)
| VStr (s : string)
| VArr (items : list value)
| VObj (fields : list (string * value)).

(** The double-quote character and the one-character string holding it. *)
Definition dquote : ascii := Eval cbv in ascii_of_nat 34.
Definition q : string := String dquote EmptyString.

Definition string_of_Z (n : Z) : string := NilZero.string_of_int (Z.to_int n).
Definition string_of_nat (n : nat) : string := NilZero.string_of_uint (Nat.to_uint n).

(** [!v] is [negb (truthy v)]. *)
Definition truthy (v : value) : bool :=
  match v with
  | VUndef | VNull => false
  | VBool b => b
  | VNum n => negb (n =? 0)
  | VStr s => negb (String.eqb s EmptyString)
  | VArr _ | VObj _ => true
  end.

(** [ToString], as a template literal applies it. *)
Fixpoint to_string (v : value) : string :=
  match v with
  | VUndef => "undefined"
  | VNull => "null"
  | VBool true => "true"
  | VBool false => "false"
  | VNum n => string_of_Z n
  | VStr s => s
  | VArr items =>
      (fix join (l : list value) : string :=
         match l with
         | [] => EmptyString
         | x :: rest =>
             let sx := match x with VUndef | VNull => EmptyString | _ => to_string x end in
             match rest with
             | [] => sx
             | _ :: _ => sx +:+ "," +:+ join rest
             end
         end) items
  | VObj _ => "[object Object]"
  end.

(** Own data properties, as the spread [{...v}] copies them. *)
Definition chars (s : string) : list value :=
  map (fun c => VStr (String c EmptyString)) (list_ascii_of_string s).

Definition indexed (l : list value) : list (string * value) :=
  imap (fun i x => (string_of_nat i, x)) l.

Definition own_props (v : value) : gmap string value :=
  match v with
  | VObj fields => list_to_map fields
  | VArr items => list_to_map (indexed items)
  | VStr s => list_to_map (indexed (chars s))
  | _ => ∅
  end.

(** [v[k]] for the property names this module reads from a parsed value
    ([name], [type], [interval], [retryInterval], [monitors] and the
    required-field names): none of them is an index, [length] or a member of
    a built-in prototype, so only an object's own keys can answer. *)
Definition get_prop (v : value) (k : string) : value :=
  match v with
  | VObj fields => default VUndef (list_to_map (M:=gmap string value) fields !! k)
  | _ => VUndef
  end.

(** [StringToNumber] on its integer fragment: surrounding blanks, an optional
    sign and decimal digits; the empty string is 0, anything else is NaN
    ([None]). *)
Definition digit_of (c : ascii) : option Z :=
  let n := Z.of_nat (nat_of_ascii c) in
  if (48 <=? n) && (n <=? 57) then Some (n - 48) else None.

Fixpoint parse_digits (acc : Z) (l : list ascii) : option Z :=
  match l with
  | [] => Some acc
  | c :: rest =>
      match digit_of c with
      | Some d => parse_digits (10 * acc + d) rest
      | None => None
      end
  end.

Definition is_blank (c : ascii) : bool :=
  let n := nat_of_ascii c in
  (Nat.eqb n 32 || Nat.eqb n 9 || Nat.eqb n 10 || Nat.eqb n 13)%bool.

Fixpoint drop_blanks (l : list ascii) : list ascii :=
  match l with
  | c :: rest => if is_blank c then drop_blanks rest else l
  | [] => []
  end.

Definition trim (l : list ascii) : list ascii :=
  rev (drop_blanks (rev (drop_blanks l))).

Definition string_to_number (s : string) : option Z :=
  match trim (list_ascii_of_string s) with
  | [] => Some 0
  | c :: rest =>
      if Nat.eqb (nat_of_ascii c) 45 then
        match rest with [] => None | _ => Z.opp <$> parse_digits 0 rest end
      else if Nat.eqb (nat_of_ascii c) 43 then
        match rest with [] => None | _ => parse_digits 0 rest end
      else parse_digits 0 (c :: rest)
  end.

(** [ToNumber]; [None] is NaN. *)
Definition to_number (v : value) : option Z :=
  match v with
  | VUndef => None
  | VNull => Some 0
  | VBool b => Some (if b then 1 else 0)
  | VNum n => Some n
  | VStr s => string_to_number s
  | VArr _ | VObj _ => string_to_number (to_string v)
  end.

(** [v < k] and [v > k] against a number literal: a comparison with NaN is
    false. *)
Definition lt_num (v : value) (k : Z) : bool :=
  match to_number v with Some n => n <? k | None => false end.

Definition gt_num (v : value) (k : Z) : bool :=
  match to_number v with Some n => k <? n | None => false end.

(** [a === b] against [undefined], [null] or a string literal, and the
    SameValueZero of [Set.prototype.has]: primitives compare by value, two
    distinct arrays or objects are never the same. *)
Definition strict_eq (a b : value) : bool :=
  match a, b with
  | VUndef, VUndef | VNull, VNull => true
  | VBool x, VBool y => Bool.eqb x y
  | VNum x, VNum y => x =? y
  | VStr x, VStr y => String.eqb x y
  | _, _ => false
  end.

Definition is_string (v : value) : bool :=
  match v with VStr _ => true | _ => false end.

Definition is_array (v : value) : bool :=
  match v with VArr _ => true | _ => false end.

(** [JSON.stringify]. *)
Definition hex_digit (n : nat) : ascii :=
  ascii_of_nat (if Nat.ltb n 10 then 48 + n else 87 + n)%nat.

Definition json_escape_char (c : ascii) : string :=
  let n := nat_of_ascii c in
  let bs := String (ascii_of_nat 92) EmptyString in
  if Nat.eqb n 34 then bs +:+ q
  else if Nat.eqb n 92 then bs +:+ bs
  else if Nat.eqb n 8 then bs +:+ "b"
  else if Nat.eqb n 9 then bs +:+ "t"
  else if Nat.eqb n 10 then bs +:+ "n"
  else if Nat.eqb n 12 then bs +:+ "f"
  else if Nat.eqb n 13 then bs +:+ "r"
  else if Nat.ltb n 32 then
    bs +:+ "u00" +:+ String (hex_digit (Nat.div n 16)) (String (hex_digit (Nat.modulo n 16)) EmptyString)
  else String c EmptyString.

Fixpoint json_escape (s : string) : string :=
  match s with
  | EmptyString => EmptyString
  | String c rest => json_escape_char c +:+ json_escape rest
  end.

Definition json_quote (s : string) : string := q +:+ json_escape s +:+ q.

Fixpoint json_text (v : value) : string :=
  match v with
  | VUndef | VNull => "null"
  | VBool true => "true"
  | VBool false => "false"
  | VNum n => string_of_Z n
  | VStr s => json_quote s
  | VArr items =>
      "[" +:+
      (fix elems (l : list value) : string :=
         match l with
         | [] => EmptyString
         | x :: rest =>
             match rest with
             | [] => json_text x
             | _ :: _ => json_text x +:+ "," +:+ elems rest
             end
         end) items +:+ "]"
  | VObj fields =>
      "{" +:+
      (fix members (l : list (string * value)) (first : bool) : string :=
         match l with
         | [] => EmptyString
         | (k, x) :: rest =>
             match x with
             | VUndef => members rest first
             | _ =>
                 (if first then EmptyString else ",") +:+
                 json_quote k +:+ ":" +:+ json_text x +:+ members rest false
             end
         end) fields true +:+ "}"
  end.

(** [JSON.stringify(undefined)] is [undefined], not a string. *)
Definition JSON_stringify (v : value) : value :=
  match v with
  | VUndef => VUndef
  | _ => VStr (json_text v)
  end.

End JS.
Export JS.

(** ** Completions, records and the outside world *)

(** A call either returns or throws an [Error] with a message. *)
Inductive completion (A : Type) : Type :=
| Normal (a : A)
| Throw (msg : string).
Arguments Normal {A} a.
Arguments Throw {A} msg.

(** A [monitor] bean: the row identity, absent until the bean is stored, and
    the columns. *)
Record Bean : Type := mkBean {
  id : option positive;
  props : gmap string value
}.

(** [bean[k]] *)
Definition bean_get (b : Bean) (k : string) : value :=
  default VUndef (props b !! k).

Inductive log_level : Type := Debug | Info | Warn | Error.

(** What a cycle does to its collaborators, newest first. *)
Inductive event : Type :=
| Log (level : log_level) (msg : string)
| DbFind (userId : Z)
| DbFindOne (name : value) (userId : Z)
| DbStore (b : Bean) (ok : bool)
| DbTrash (b : Bean) (ok : bool)
| TaskStop (k : positive) (ok : bool)
| TaskStart (k : positive) (ok : bool).

Definition is_log (e : event) : bool :=
  match e with Log _ _ => true | _ => false end.

(** Modelled from the spec: the persistent store the module reaches through
    redbean-node's [R], which is not part of the module.  The [monitor]
    table: rows in insertion order and the next row id. *)
Record Db : Type := mkDb {
  rows : list (positive * gmap string value);
  next_id : positive
}.

(** The mutable state a cycle runs against: the module variable
    [configFilePath], the table, [server.monitorList] and the trace of
    collaborator calls. *)
Record World : Type := mkWorld {
  configFilePath : option string;
  db : Db;
  monitorList : gmap positive Bean;
  trace : list event
}.

(** [fs.readFileSync] followed by [yaml.load]: either of them throws, or the
    document is parsed. *)
Inductive load_result : Type :=
| LoadError (msg : string)
| Loaded (doc : value).

(** Modelled from the spec: the collaborators outside the module.  What a
    cycle only reads: the environment variable, the files that exist with
    what loading them gives, and for every fallible collaborator call the
    message it throws, if it throws ([bean.validate()], [R.store],
    [R.trash], [stop()], [start()]).  Whether a call throws is a function of
    the bean it is made on; the reads [R.find] and [R.findOne] return. *)
Record Env : Type := mkEnv {
  env_MONITORS_YAML_PATH : option string;
  fs_file : string -> option load_result;
  bean_validate : Bean -> option string;
  store_error : Bean -> option string;
  trash_error : Bean -> option string;
  stop_error : Bean -> option string;
  start_error : Bean -> option string
}.

Record validation : Type := mkValidation {
  valid : bool;
  errors : list string
}.

Record sync_result : Type := mkResult {
  added : nat;
  updated : nat;
  removed : nat;
  result_errors : list string
}.

(** ** The module's tables *)

Definition MONITOR_DEFAULTS : gmap string value :=
  list_to_map [
    ("active", VBool true);
    ("interval", VNum 60);
    ("retryInterval", VNum 60);
    ("maxretries", VNum 0);
    ("timeout", VNum 48);
    ("resendInterval", VNum 0);
    ("upsideDown", VBool false);
    ("ignoreTls", VBool false);
    ("maxredirects", VNum 10);
    ("accepted_statuscodes", VArr [VStr "200-299"]);
    ("method", VStr "GET");
    ("httpBodyEncoding", VStr "json");
    ("kafkaProducerBrokers", VStr "[]");
    ("kafkaProducerSaslOptions", VStr "{}");
    ("rabbitmqNodes", VStr "[]");
    ("conditions", VStr "[]")
  ].

Definition REQUIRED_FIELDS_BY_TYPE : gmap string (list string) :=
  list_to_map [
    ("http", ["url"]);
    ("keyword", ["url"; "keyword"]);
    ("json-query", ["url"; "jsonPath"; "expectedValue"]);
    ("ping", ["hostname"]);
    ("port", ["hostname"; "port"]);
    ("dns", ["hostname"; "dns_resolve_server"]);
    ("push", []);
    ("steam", ["hostname"; "port"]);
    ("gamedig", ["hostname"; "port"; "game"]);
    ("mqtt", ["hostname"; "port"; "mqttTopic"]);
    ("sqlserver", ["databaseConnectionString"]);
    ("postgres", ["databaseConnectionString"]);
    ("mysql", ["databaseConnectionString"]);
    ("mongodb", ["databaseConnectionString"]);
    ("radius", ["hostname"; "radiusUsername"; "radiusPassword"; "radiusSecret"]);
    ("redis", ["databaseConnectionString"]);
    ("group", []);
    ("docker", ["docker_container"; "docker_host"]);
    ("grpc", ["grpcUrl"; "grpcServiceName"; "grpcMethod"]);
    ("real-browser", ["url"]);
    ("snmp", ["hostname"; "snmpOid"]);
    ("smtp", ["hostname"; "port"]);
    ("rabbitmq", ["rabbitmqNodes"])
  ].

(** [REQUIRED_FIELDS_BY_TYPE] is an object literal, so a read
    [REQUIRED_FIELDS_BY_TYPE[key]] that finds no own key goes on to
    [Object.prototype], whose members are these.  Each of them is a function
    or an object: truthy, and not iterable. *)
Definition Object_prototype_keys : list string :=
  [ "constructor"; "__defineGetter__"; "__defineSetter__"; "hasOwnProperty";
    "__lookupGetter__"; "__lookupSetter__"; "isPrototypeOf";
    "propertyIsEnumerable"; "toString"; "valueOf"; "__proto__";
    "toLocaleString" ].

Inductive table_read : Type :=
| Fields (requiredFields : list string)
| Inherited
| Undefined.

Definition read_REQUIRED_FIELDS_BY_TYPE (key : string) : table_read :=
  match REQUIRED_FIELDS_BY_TYPE !! key with
  | Some requiredFields => Fields requiredFields
  | None => if bool_decide (key ∈ Object_prototype_keys) then Inherited else Undefined
  end.

(** ** [validateMonitorConfig] *)

Definition push_if (cond : bool) (msg : string) (errors : list string) : list string :=
  if cond then (errors ++ [msg])%list else errors.

Definition monitor_label (monitorConfig : value) : string :=
  "Monitor " +:+ q +:+ to_string (get_prop monitorConfig "name") +:+ q +:+ ": ".

Definition msg_name_required (index : nat) : string :=
  "Monitor at index " +:+ string_of_nat index +:+ ": 'name' is required".

Definition msg_type_required (index : nat) : string :=
  "Monitor at index " +:+ string_of_nat index +:+ ": 'type' is required".

Definition msg_unknown_type (monitorConfig : value) : string :=
  monitor_label monitorConfig +:+ "Unknown monitor type " +:+ q +:+
  to_string (get_prop monitorConfig "type") +:+ q.

Definition msg_field_required (monitorConfig : value) (field : string) : string :=
  monitor_label monitorConfig +:+ "Field " +:+ q +:+ field +:+ q +:+
  " is required for type " +:+ q +:+ to_string (get_prop monitorConfig "type") +:+ q.

Definition msg_at_least (monitorConfig : value) (field : string) : string :=
  monitor_label monitorConfig +:+ field +:+ " must be at least 20 seconds".

Definition msg_at_most (monitorConfig : value) (field : string) : string :=
  monitor_label monitorConfig +:+ field +:+ " must be at most 86400 seconds (24 hours)".

(** [v === undefined || v === null || v === EmptyString] *)
Definition field_missing (v : value) : bool :=
  strict_eq v VUndef || strict_eq v VNull || strict_eq v (VStr EmptyString).

(** The [for (const field of requiredFields)] loop. *)
Definition check_required (monitorConfig : value) (requiredFields : list string)
    (errors : list string) : list string :=
  foldl (fun errors field =>
           push_if (field_missing (get_prop monitorConfig field))
                   (msg_field_required monitorConfig field) errors)
        errors requiredFields.

(** The two bound checks of [interval] and of [retryInterval]. *)
Definition check_bounds (monitorConfig : value) (field : string)
    (errors : list string) : list string :=
  let v := get_prop monitorConfig field in
  if strict_eq v VUndef then errors
  else
    let errors := push_if (lt_num v 20) (msg_at_least monitorConfig field) errors in
    push_if (gt_num v 86400) (msg_at_most monitorConfig field) errors.

(** The [type] check: the [if (!monitorConfig.type) ... else ...] statement. *)
Definition check_type (monitorConfig : value) (index : nat) (errors : list string)
    : completion (list string) :=
  if negb (truthy (get_prop monitorConfig "type")) then
    Normal (errors ++ [msg_type_required index])%list
  else
    match read_REQUIRED_FIELDS_BY_TYPE (to_string (get_prop monitorConfig "type")) with
    | Undefined => Normal (errors ++ [msg_unknown_type monitorConfig])%list
    | Fields requiredFields =>
        Normal (check_required monitorConfig requiredFields errors)
    | Inherited => Throw "requiredFields is not iterable"
    end.

Definition validateMonitorConfig (monitorConfig : value) (index : nat)
    : completion validation :=
  match monitorConfig with
  | VUndef => Throw "Cannot read properties of undefined (reading 'name')"
  | VNull => Throw "Cannot read properties of null (reading 'name')"
  | _ =>
      let errors := [] in
      let errors :=
        push_if (negb (truthy (get_prop monitorConfig "name")))
                (msg_name_required index) errors in
      match check_type monitorConfig index errors with
      | Throw msg => Throw msg
      | Normal errors =>
          let errors := check_bounds monitorConfig "interval" errors in
          let errors := check_bounds monitorConfig "retryInterval" errors in
          Normal {| valid := Nat.eqb (length errors) 0; errors := errors |}
      end
  end.

(** ** [configToMonitorBean] *)

Definition jsonFields : list string :=
  ["kafkaProducerBrokers"; "kafkaProducerSaslOptions"; "rabbitmqNodes"; "conditions"].

Definition obj_get (o : gmap string value) (k : string) : value :=
  default VUndef (o !! k).

Definition serialize_field (monitor : gmap string value) (field : string)
    : gmap string value :=
  let v := obj_get monitor field in
  if strict_eq v VUndef then monitor
  else if is_string v then monitor
  else <[field := JSON_stringify v]> monitor.

Definition configToMonitorBean (config : value) (userId : Z) : gmap string value :=
  let monitor := own_props config ∪ MONITOR_DEFAULTS in
  let codes := obj_get monitor "accepted_statuscodes" in
  let monitor :=
    if is_array codes then
      <["accepted_statuscodes_json" := JSON_stringify codes]> monitor
    else if is_string codes then
      <["accepted_statuscodes_json" := codes]> monitor
    else monitor in
  let monitor := delete "accepted_statuscodes" monitor in
  let monitor := foldl serialize_field monitor jsonFields in
  let monitor := <["user_id" := VNum userId]> monitor in
  <["config_managed" := VBool true]> monitor.

(** ** The store and the registry *)

Definition log (level : log_level) (msg : string) (w : World) : World :=
  mkWorld (configFilePath w) (db w) (monitorList w) (Log level msg :: trace w).

Definition emit (e : event) (w : World) : World :=
  mkWorld (configFilePath w) (db w) (monitorList w) (e :: trace w).

Definition set_db (d : Db) (w : World) : World :=
  mkWorld (configFilePath w) d (monitorList w) (trace w).

Definition set_monitorList (l : gmap positive Bean) (w : World) : World :=
  mkWorld (configFilePath w) (db w) l (trace w).

Definition set_configFilePath (p : option string) (w : World) : World :=
  mkWorld p (db w) (monitorList w) (trace w).

(** Modelled from the spec: column comparison in the [WHERE] clauses of the
    store.  A boolean is stored as 0 or 1, a NULL equals nothing, and only
    scalars are stored. *)
Definition sql_scalar (v : value) : value :=
  match v with
  | VBool b => VNum (if b then 1 else 0)
  | VNum _ | VStr _ => v
  | _ => VNull
  end.

Definition sql_eq (a b : value) : bool :=
  match sql_scalar a, sql_scalar b with
  | VNum x, VNum y => x =? y
  | VStr x, VStr y => String.eqb x y
  | _, _ => false
  end.

Definition row_bean (r : positive * gmap string value) : Bean :=
  mkBean (Some r.1) r.2.

(** [user_id = ? AND config_managed = 1] *)
Definition is_managed_by (userId : Z) (p : gmap string value) : bool :=
  sql_eq (obj_get p "user_id") (VNum userId) &&
  sql_eq (obj_get p "config_managed") (VNum 1).

Definition managed_rows (userId : Z) (d : Db) : list (positive * gmap string value) :=
  List.filter (fun r => is_managed_by userId r.2) (rows d).

(** Modelled from the spec: find by owner and managed flag,
    [R.find("monitor", " user_id = ? AND config_managed = 1 ", [userId])]. *)
Definition R_find (userId : Z) (w : World) : list Bean * World :=
  (map row_bean (managed_rows userId (db w)), emit (DbFind userId) w).

(** Modelled from the spec: find by name, owner and managed flag,
    [R.findOne("monitor", " name = ? AND user_id = ? AND config_managed = 1 ", ...)];
    the first row that matches. *)
Definition matches (name : value) (userId : Z) (r : positive * gmap string value) : bool :=
  sql_eq (obj_get r.2 "name") name && is_managed_by userId r.2.

Definition R_findOne (name : value) (userId : Z) (w : World) : option Bean * World :=
  (row_bean <$> List.find (matches name userId) (rows (db w)),
   emit (DbFindOne name userId) w).

(** Modelled from the spec: [R.dispense("monitor")], a bean with no id and
    no column. *)
Definition R_dispense : Bean := mkBean None ∅.

Definition update_row (k : positive) (p : gmap string value)
    (r : positive * gmap string value) : positive * gmap string value :=
  if Pos.eqb r.1 k then (k, p) else r.

Section Engine.

Variable E : Env.

(** Modelled from the spec: create and full overwrite, [R.store(bean)].  A
    bean without an id becomes a new row and takes the next id, a bean with
    an id overwrites its row; [bean.id] is returned with the bean. *)
Definition R_store (bean : Bean) (w : World)
    : completion (positive * Bean) * World :=
  match store_error E bean with
  | Some msg => (Throw msg, emit (DbStore bean false) w)
  | None =>
      match id bean with
      | Some k =>
          (Normal (k, bean),
           emit (DbStore bean true)
             (set_db (mkDb (map (update_row k (props bean)) (rows (db w)))
                           (next_id (db w))) w))
      | None =>
          let k := next_id (db w) in
          let bean := mkBean (Some k) (props bean) in
          (Normal (k, bean),
           emit (DbStore bean true)
             (set_db (mkDb (rows (db w) ++ [(k, props bean)]) (Pos.succ k)) w))
      end
  end.

(** Modelled from the spec: delete, [R.trash(bean)]. *)
Definition R_trash (bean : Bean) (w : World) : completion unit * World :=
  match trash_error E bean with
  | Some msg => (Throw msg, emit (DbTrash bean false) w)
  | None =>
      (Normal tt,
       emit (DbTrash bean true)
         (set_db (mkDb (List.filter
                          (fun r => negb (bool_decide (Some r.1 = id bean)))
                          (rows (db w)))
                       (next_id (db w))) w))
  end.

(** Modelled from the spec: the live task of a bean,
    [await handle.stop()] and [await bean.start(server.io)]. *)
Definition stop (k : positive) (handle : Bean) (w : World) : completion unit * World :=
  match stop_error E handle with
  | Some msg => (Throw msg, emit (TaskStop k false) w)
  | None => (Normal tt, emit (TaskStop k true) w)
  end.

Definition start (k : positive) (bean : Bean) (w : World) : completion unit * World :=
  match start_error E bean with
  | Some msg => (Throw msg, emit (TaskStart k false) w)
  | None => (Normal tt, emit (TaskStart k true) w)
  end.

(** ** [getConfigFilePath] and [readConfigFile] *)

Definition path_truthy (p : option string) : bool :=
  match p with
  | Some s => negb (String.eqb s EmptyString)
  | None => false
  end.

Definition getConfigFilePath (w : World) : option string * World :=
  if path_truthy (configFilePath w) then (configFilePath w, w)
  else if path_truthy (env_MONITORS_YAML_PATH E) then
    (env_MONITORS_YAML_PATH E, set_configFilePath (env_MONITORS_YAML_PATH E) w)
  else (None, w).

Definition empty_config : value := VObj [("monitors", VArr [])].

Definition readConfigFile (w : World) : option value * World :=
  let '(filePath, w) := getConfigFilePath w in
  match filePath with
  | None => (None, w)
  | Some filePath =>
      match fs_file E filePath with
      | None => (None, log Debug ("Config file not found at: " +:+ filePath) w)
      | Some (LoadError msg) =>
          (None, log Error ("Error parsing config file: " +:+ msg) w)
      | Some (Loaded config) =>
          if negb (truthy config) || negb (truthy (get_prop config "monitors")) then
            (Some empty_config,
             log Warn "Config file found but no 'monitors' section defined" w)
          else (Some config, w)
      end
  end.

(** ** [findOrCreateMonitor] *)

Definition findOrCreateMonitor (monitorConfig : value) (userId : Z) (w : World)
    : Bean * World :=
  let '(bean, w) := R_findOne (get_prop monitorConfig "name") userId w in
  match bean with
  | Some bean => (bean, w)
  | None => (R_dispense, w)
  end.

(** ** [syncConfigMonitors] *)

(** [monitors.length] and [monitors[i]] of the validation loop, whatever
    [monitors] is. *)
Definition length_of (monitors : value) : value :=
  match monitors with
  | VArr items => VNum (Z.of_nat (length items))
  | VStr s => VNum (Z.of_nat (String.length s))
  | VObj _ => get_prop monitors "length"
  | _ => VUndef
  end.

Definition index_of (monitors : value) (i : nat) : value :=
  match monitors with
  | VArr items => nth i items VUndef
  | VStr s => nth i (chars s) VUndef
  | VObj _ => get_prop monitors (string_of_nat i)
  | _ => VUndef
  end.

Definition loop_items (monitors : value) : list value :=
  match to_number (length_of monitors) with
  | Some n => map (index_of monitors) (seq 0 (Z.to_nat n))
  | None => []
  end.

(** The validation loop: [result.errors.push(...validation.errors)] for every
    definition that is not valid. *)
Fixpoint validate_from (items : list value) (i : nat) (errs : list string)
    : completion (list string) :=
  match items with
  | [] => Normal errs
  | monitorConfig :: rest =>
      match validateMonitorConfig monitorConfig i with
      | Throw msg => Throw msg
      | Normal validation =>
          validate_from rest (S i)
            (if valid validation then errs else (errs ++ errors validation)%list)
      end
  end.

Definition log_all (level : log_level) (prefix : string) (msgs : list string)
    (w : World) : World :=
  foldl (fun w msg => log level (prefix +:+ msg) w) w msgs.

Definition push_error (msg : string) (result : sync_result) : sync_result :=
  mkResult (added result) (updated result) (removed result)
           (result_errors result ++ [msg])%list.

(** The [catch] of the processing loop. *)
Definition processing_failed (monitorConfig : value) (msg : string)
    (result : sync_result) (w : World) : sync_result * World :=
  let errorMsg := "Error processing monitor " +:+ q +:+
                  to_string (get_prop monitorConfig "name") +:+ q +:+ ": " +:+ msg in
  (push_error errorMsg result, log Error errorMsg w).

(** [for (const key in monitorData) if (key !== "id") bean[key] = monitorData[key]] *)
Definition import_data (monitorData : gmap string value) (bean : Bean) : Bean :=
  mkBean (id bean) (delete "id" monitorData ∪ props bean).

(** The part of the loop body from [if (bean.active && server)] on; [server]
    is the [UptimeKumaServer] instance, always an object. *)
Definition start_if_active (monitorConfig : value) (k : positive) (bean : Bean)
    (result : sync_result) (w : World) : sync_result * World :=
  if truthy (bean_get bean "active") then
    let stopped :=
      match monitorList w !! k with
      | Some handle => stop k handle w
      | None => (Normal tt, w)
      end in
    match stopped with
    | (Throw msg, w) => processing_failed monitorConfig msg result w
    | (Normal _, w) =>
        let w := set_monitorList (<[k := bean]> (monitorList w)) w in
        match start k bean w with
        | (Throw msg, w) => processing_failed monitorConfig msg result w
        | (Normal _, w) => (result, w)
        end
    end
  else (result, w).

(** One turn of [for (const monitorConfig of monitors)]. *)
Definition process_monitor (userId : Z) (monitorConfig : value)
    (result : sync_result) (w : World) : sync_result * World :=
  let '(bean, w) := findOrCreateMonitor monitorConfig userId w in
  let isNew := negb (bool_decide (is_Some (id bean))) in
  let monitorData := configToMonitorBean monitorConfig userId in
  let bean := import_data monitorData bean in
  match bean_validate E bean with
  | Some msg => processing_failed monitorConfig msg result w
  | None =>
      match R_store bean w with
      | (Throw msg, w) => processing_failed monitorConfig msg result w
      | (Normal (k, bean), w) =>
          let '(result, w) :=
            if isNew then
              (mkResult (S (added result)) (updated result) (removed result)
                        (result_errors result),
               log Info ("Added monitor: " +:+ to_string (bean_get bean "name")) w)
            else
              (mkResult (added result) (S (updated result)) (removed result)
                        (result_errors result),
               log Info ("Updated monitor: " +:+ to_string (bean_get bean "name")) w) in
          start_if_active monitorConfig k bean result w
      end
  end.

(** The [catch] of the removal loop. *)
Definition removing_failed (existingMonitor : Bean) (msg : string)
    (result : sync_result) (w : World) : sync_result * World :=
  let errorMsg := "Error removing monitor " +:+ q +:+
                  to_string (bean_get existingMonitor "name") +:+ q +:+ ": " +:+ msg in
  (push_error errorMsg result, log Error errorMsg w).

(** [configMonitorNames.has(existingMonitor.name)] *)
Definition has_name (configMonitorNames : list value) (existingMonitor : Bean) : bool :=
  existsb (strict_eq (bean_get existingMonitor "name")) configMonitorNames.

(** One turn of [for (const existingMonitor of existingMonitors)]. *)
Definition remove_monitor (configMonitorNames : list value) (existingMonitor : Bean)
    (result : sync_result) (w : World) : sync_result * World :=
  if has_name configMonitorNames existingMonitor then (result, w)
  else
    let stopped :=
      match id existingMonitor with
      | Some k =>
          match monitorList w !! k with
          | Some handle =>
              match stop k handle w with
              | (Throw msg, w) => (Throw msg, w)
              | (Normal _, w) =>
                  (Normal tt, set_monitorList (delete k (monitorList w)) w)
              end
          | None => (Normal tt, w)
          end
      | None => (Normal tt, w)
      end in
    match stopped with
    | (Throw msg, w) => removing_failed existingMonitor msg result w
    | (Normal _, w) =>
        match R_trash existingMonitor w with
        | (Throw msg, w) => removing_failed existingMonitor msg result w
        | (Normal _, w) =>
            (mkResult (added result) (updated result) (S (removed result))
                      (result_errors result),
             log Info ("Removed monitor: " +:+
                       to_string (bean_get existingMonitor "name")) w)
        end
    end.

Definition process_all (userId : Z) (monitors : list value)
    (result : sync_result) (w : World) : sync_result * World :=
  foldl (fun '(result, w) monitorConfig =>
           process_monitor userId monitorConfig result w)
        (result, w) monitors.

Definition remove_all (configMonitorNames : list value) (existingMonitors : list Bean)
    (result : sync_result) (w : World) : sync_result * World :=
  foldl (fun '(result, w) existingMonitor =>
           remove_monitor configMonitorNames existingMonitor result w)
        (result, w) existingMonitors.

Definition empty_result : sync_result := mkResult 0 0 0 [].

(** The two log lines that close a cycle. *)
Definition log_summary (result : sync_result) (w : World) : World :=
  let w := log Info ("Sync complete: Added " +:+ string_of_nat (added result) +:+
                     ", Updated " +:+ string_of_nat (updated result) +:+
                     ", Removed " +:+ string_of_nat (removed result)) w in
  if Nat.ltb 0 (length (result_errors result)) then
    log Warn ("Sync completed with " +:+
              string_of_nat (length (result_errors result)) +:+ " errors") w
  else w.

Definition found_message (monitors : value) : string :=
  "Found " +:+ to_string (length_of monitors) +:+ " monitors in config file".

Definition syncConfigMonitors (userId : Z) (w : World)
    : completion sync_result * World :=
  let result := empty_result in
  let '(config, w) := readConfigFile w in
  match config with
  | None =>
      (Normal result,
       log Info "No config file found or config file is invalid, skipping sync" w)
  | Some config =>
      let monitors :=
        if truthy (get_prop config "monitors") then get_prop config "monitors"
        else VArr [] in
      let w := log Info (found_message monitors) w in
      match validate_from (loop_items monitors) 0 (result_errors result) with
      | Throw msg => (Throw msg, w)
      | Normal errs =>
          if Nat.ltb 0 (length errs) then
            let w := log Error "Config validation errors:" w in
            let w := log_all Error "  - " errs w in
            (Normal (mkResult 0 0 0 errs), w)
          else
            let '(existingMonitors, w) := R_find userId w in
            match monitors with
            | VArr items =>
                let configMonitorNames := map (fun m => get_prop m "name") items in
                let '(result, w) := process_all userId items result w in
                let '(result, w) :=
                  remove_all configMonitorNames existingMonitors result w in
                (Normal result, log_summary result w)
            | _ => (Throw "monitors.map is not a function", w)
            end
      end
  end.

End Engine.

(** ** Sample environments and worlds

    A server whose collaborators never fail, started on an empty table, with
    the environment variable pointing at [config/monitors.yaml]. *)

Definition never_fails (b : Bean) : option string := None.

Definition sample_path : string := "config/monitors.yaml".

Definition env_with (file : option load_result) : Env :=
  mkEnv (Some sample_path)
        (fun p => if String.eqb p sample_path then file else None)
        never_fails never_fails never_fails never_fails never_fails.

Definition env_without_path : Env :=
  mkEnv None (fun _ => None)
        never_fails never_fails never_fails never_fails never_fails.

Definition fresh_world : World := mkWorld None (mkDb [] 1%positive) ∅ [].

(** ** Vocabulary of the statements *)

(** A world reached without calling the store or a task: same table, same
    registry, and only log lines added to the trace. *)
Definition only_logged (w w' : World) : Prop :=
  db w' = db w ∧ monitorList w' = monitorList w ∧
  ∃ new, trace w' = (new ++ trace w)%list ∧ Forall (fun e => is_log e = true) new.

(** A verdict that is not valid. *)
Definition invalid (v : validation) : bool := negb (valid v).

(** The messages a bound check of [field] adds, in the order it adds them. *)
Definition bound_errors (monitorConfig : value) (field : string) : list string :=
  let v := get_prop monitorConfig field in
  if strict_eq v VUndef then []
  else ((if lt_num v 20 then [msg_at_least monitorConfig field] else []) ++
        (if gt_num v 86400 then [msg_at_most monitorConfig field] else []))%list.

(** The messages of the checks on [name] and [type], as opposed to the
    bound messages. *)
Definition structural_error (monitorConfig : value) (index : nat) (s : string) : Prop :=
  s = msg_name_required index ∨ s = msg_type_required index ∨
  s = msg_unknown_type monitorConfig ∨
  ∃ field, s = msg_field_required monitorConfig field.

(** Sample definitions. *)
Definition sample_doc (items : list value) : value := VObj [("monitors", VArr items)].

Definition sample_invalid_items : list value :=
  [ VObj [("type", VStr "http"); ("interval", VNum 5)];
    VObj [("name", VStr "C"); ("type", VStr "nope"); ("retryInterval", VNum 100000)] ].

Definition verdicts (items : list value) : list validation :=
  omap (fun c => match c with Normal v => Some v | Throw _ => None end)
       (imap (fun i m => validateMonitorConfig m i) items).

Definition inherited_type_definition : value :=
  VObj [("name", VStr "x"); ("type", VStr "constructor")].

(** The keys [configToMonitorBean] sets or rewrites itself; every other key
    is merged as it is. *)
Definition rewritten_keys : list string :=
  "accepted_statuscodes" :: "accepted_statuscodes_json" ::
  "user_id" :: "config_managed" :: jsonFields.

(** The declared value of a key, or else its default. *)
Definition declared_or_default (config : value) (k : string) : option value :=
  match own_props config !! k with
  | Some v => Some v
  | None => MONITOR_DEFAULTS !! k
  end.

Definition sample_push_definition : value :=
  VObj [("name", VStr "Backup Job"); ("type", VStr "push"); ("interval", VNum 86400)].

(** The error strings of the two [catch] blocks. *)
Definition processing_error (monitorConfig : value) (msg : string) : string :=
  "Error processing monitor " +:+ q +:+
  to_string (get_prop monitorConfig "name") +:+ q +:+ ": " +:+ msg.

Definition removal_error (existingMonitor : Bean) (msg : string) : string :=
  "Error removing monitor " +:+ q +:+
  to_string (bean_get existingMonitor "name") +:+ q +:+ ": " +:+ msg.

(** An existing record the declared names do not list. *)
Definition unlisted (configMonitorNames : list value) (existingMonitor : Bean) : bool :=
  negb (has_name configMonitorNames existingMonitor).

(** The rows left when the row of [k] is deleted. *)
Definition rows_without (k : positive) (l : list (positive * gmap string value))
    : list (positive * gmap string value) :=
  List.filter (fun r => negb (bool_decide (Some r.1 = Some k))) l.

(** The message [stop()] throws on the handle registered under [k], if there
    is a handle and it throws. *)
Definition stop_failure (E : Env) (w : World) (k : positive) : option string :=
  monitorList w !! k ≫= stop_error E.

(** The declared names: [monitors.map(m => m.name)]. *)
Definition names_of (items : list value) : list value :=
  map (fun m => get_prop m "name") items.

(** *** Live tasks

    A task is live for the id [k] from the call of [start] on a bean of that
    id (counted even when [start] throws, since it may have begun its work)
    until a [stop()] on the handle registered under [k] returns. *)
Definition is_task_event (e : event) : bool :=
  match e with
  | TaskStop _ _ | TaskStart _ _ => true
  | _ => false
  end.

Definition live_step (e : event) (live : positive → nat) : positive → nat :=
  match e with
  | TaskStart k _ => fun j => if bool_decide (j = k) then S (live j) else live j
  | TaskStop k true => fun j => if bool_decide (j = k) then Nat.pred (live j) else live j
  | _ => live
  end.

(** The number of live tasks per id after a trace (newest event first),
    from the numbers [live0] before it. *)
Fixpoint live_after (live0 : positive → nat) (tr : list event) : positive → nat :=
  match tr with
  | [] => live0
  | e :: older => live_step e (live_after live0 older)
  end.

(** At every instant of the trace, no id has more than one live task. *)
Fixpoint always_at_most_one (live0 : positive → nat) (tr : list event) : Prop :=
  (∀ k, (live_after live0 tr k ≤ 1)%nat) ∧
  match tr with
  | [] => True
  | _ :: older => always_at_most_one live0 older
  end.

(** The registry accounts for the live tasks: there never was more than one
    per id, and an id with a live task has a handle in [monitorList]. *)
Definition tasks_consistent (live0 : positive → nat) (w : World) : Prop :=
  always_at_most_one live0 (trace w) ∧
  ∀ k, (0 < live_after live0 (trace w) k)%nat → is_Some (monitorList w !! k).

(** The task calls among the events [new], oldest first. *)
Definition task_calls (new : list event) : list event :=
  rev (List.filter is_task_event new).

(** Sample declared sets and the world the first of them leaves. *)
Definition sample_items : list value :=
  [ VObj [("name", VStr "A"); ("type", VStr "http"); ("url", VStr "https://test1.com")];
    VObj [("name", VStr "B"); ("type", VStr "ping"); ("hostname", VStr "1.1.1.1")] ].

Definition seeded_world : World :=
  (syncConfigMonitors (env_with (Some (Loaded (sample_doc sample_items)))) 1 fresh_world).2.

(** What one turn of the processing loop, taking the world from [w] to
    [w'], may do to the tasks.  For a record that is not active: no task
    call, and the registry stays.  For an active one: either no task call
    (nothing was stored), or, for the id [k] of the stored record, in this
    order: a [stop()] of the handle registered under [k], if there is one,
    then the registration of the bean under [k] and its [start()]; when that
    [stop()] throws, nothing is registered or started. *)
Definition task_discipline (active : bool) (w w' : World) : Prop :=
  ∃ new, trace w' = (new ++ trace w)%list ∧
    if active then
      (task_calls new = [] ∧ monitorList w' = monitorList w) ∨
      ∃ k bean, truthy (bean_get bean "active") = true ∧
        match monitorList w !! k with
        | None =>
            ∃ ok, task_calls new = [TaskStart k ok] ∧
                  monitorList w' = <[k := bean]> (monitorList w)
        | Some _ =>
            (∃ ok, task_calls new = [TaskStop k true; TaskStart k ok] ∧
                   monitorList w' = <[k := bean]> (monitorList w)) ∨
            (task_calls new = [TaskStop k false] ∧ monitorList w' = monitorList w)
        end
    else task_calls new = [] ∧ monitorList w' = monitorList w.

(** *** The table across cycles *)

(** Row ids are distinct and below the next id. *)
Definition wf_db (d : Db) : Prop :=
  NoDup (map fst (rows d)) ∧
  Forall (fun row => (row.1 < next_id d)%positive) (rows d).

(** [bean.validate()] and [R.store(bean)] both return. *)
Definition stores (E : Env) (bean : Bean) : bool :=
  match bean_validate E bean, store_error E bean with
  | None, None => true
  | _, _ => false
  end.

(** The bean a definition gives when no record of its name exists. *)
Definition fresh_bean (monitorConfig : value) (userId : Z) : Bean :=
  import_data (configToMonitorBean monitorConfig userId) R_dispense.

(** The table has a managed record of the owner with the definition's name. *)
Definition has_row (userId : Z) (d : Db) (monitorConfig : value) : Prop :=
  ∃ row, In row (rows d) ∧ matches (get_prop monitorConfig "name") userId row = true.

(** A definition is settled in a table when the table has a managed record
    of its name, or its fresh bean cannot be stored. *)
Definition settled (E : Env) (userId : Z) (d : Db) (monitorConfig : value) : Prop :=
  has_row userId d monitorConfig ∨
  stores E (fresh_bean monitorConfig userId) = false.

(** A record is stuck when its removal throws: [R.trash] throws on it, or a
    handle is registered under its id and [stop()] throws on the handle. *)
Definition stuck (E : Env) (reg : gmap positive Bean) (b : Bean) : Prop :=
  trash_error E b ≠ None ∨
  ∃ k h, id b = Some k ∧ reg !! k = Some h ∧ stop_error E h ≠ None.

(** The bean [findOrCreateMonitor] returns for a definition in a table. *)
Definition lookup_bean (userId : Z) (d : Db) (monitorConfig : value) : Bean :=
  match List.find (matches (get_prop monitorConfig "name") userId) (rows d) with
  | Some row => row_bean row
  | None => R_dispense
  end.

Definition sample_items_changed : list value :=
  [ VObj [("name", VStr "A"); ("type", VStr "http");
          ("url", VStr "https://test1-updated.com"); ("interval", VNum 90)];
    VObj [("name", VStr "C"); ("type", VStr "port");
          ("hostname", VStr "localhost"); ("port", VNum 8080)] ].

(** What the turn of an unlisted record [b] of id [k] does, from the result
    [rb] and the world [wb]:
    - if a handle is registered under [k] and stopping it throws, the error
      string naming the monitor is appended, and table, registry and
      [removed] stay;
    - otherwise a registered handle is stopped and deregistered; then, if
      [R.trash] throws, the error string naming the monitor is appended and
      the table and [removed] stay;
    - otherwise the row of [k] is deleted and [removed] grows by one. *)
Definition removal_turn (E : Env) (names : list value) (b : Bean) (k : positive)
    (rb : sync_result) (wb : World) : Prop :=
  let r' := (remove_monitor E names b rb wb).1 in
  let w' := (remove_monitor E names b rb wb).2 in
  match stop_failure E wb k with
  | Some msg =>
      r' = push_error (removal_error b msg) rb ∧
      db w' = db wb ∧ monitorList w' = monitorList wb ∧
      trace w' = Log Error (removal_error b msg) :: TaskStop k false :: trace wb
  | None =>
      monitorList w' = delete k (monitorList wb) ∧
      (is_Some (monitorList wb !! k) → In (TaskStop k true) (trace w')) ∧
      match trash_error E b with
      | Some msg =>
          r' = push_error (removal_error b msg) rb ∧ db w' = db wb
      | None =>
          r' = mkResult (added rb) (updated rb) (S (removed rb)) (result_errors rb) ∧
          rows (db w') = rows_without k (rows (db wb)) ∧
          In (DbTrash b true) (trace w')
      end
  end.

(** *** Records and tasks outside the owner's managed set *)

(** A row a cycle for [userId] has no business with: a record that is not
    config-managed, or the record of another owner. *)
Definition foreign (userId : Z) (row : positive * gmap string value) : bool :=
  negb (is_managed_by userId row.2).

Definition foreign_rows (userId : Z) (d : Db) : list (positive * gmap string value) :=
  List.filter (foreign userId) (rows d).

(** An event that is a log line or a read of the store. *)
Definition is_quiet (e : event) : bool :=
  match e with
  | Log _ _ | DbFind _ | DbFindOne _ _ => true
  | _ => false
  end.

(** An event that stores or trashes the record of id [k], or stops or starts
    its task. *)
Definition concerns (k : positive) (e : event) : bool :=
  match e with
  | DbStore b _ | DbTrash b _ => bool_decide (id b = Some k)
  | TaskStop j _ | TaskStart j _ => bool_decide (j = k)
  | _ => false
  end.

(** The id [k] was issued by the table and is not the id of a managed record
    of the owner. *)
Definition foreign_id (userId : Z) (d : Db) (k : positive) : Prop :=
  (k < next_id d)%positive ∧
  ∀ row, In row (rows d) → row.1 = k → foreign userId row = true.

(** A world reached by logging and reading only: same table, same registry,
    and no store, trash, stop or start among the new events. *)
Definition quietly (w w' : World) : Prop :=
  db w' = db w ∧ monitorList w' = monitorList w ∧
  ∃ new, trace w' = (new ++ trace w)%list ∧ Forall (fun e => is_quiet e = true) new.

(** The step from [w] to [w'] leaves the id [k] alone: the handle registered
    under [k] is the same, and no new event concerns [k]. *)
Definition spares (k : positive) (w w' : World) : Prop :=
  monitorList w' !! k = monitorList w !! k ∧
  ∃ new, trace w' = (new ++ trace w)%list ∧ Forall (fun e => concerns k e = false) new.

(** A server with one monitor created in the UI by the owner 1, and its
    task running. *)
Definition ui_monitor : gmap string value :=
  list_to_map [("name", VStr "UI monitor"); ("type", VStr "http");
               ("user_id", VNum 1); ("config_managed", VNum 0)].

Definition ui_world : World :=
  mkWorld None (mkDb [(1%positive, ui_monitor)] 2%positive)
          {[1%positive := mkBean (Some 1%positive) ui_monitor]} [].

(** The environment whose file declares [sample_items]. *)
Definition sample_env : Env := env_with (Some (Loaded (sample_doc sample_items))).


(** *** What the validator accepts *)



(** A lower-case letter. *)
Definition is_lower (c : ascii) : bool :=
  (Nat.leb 97 (nat_of_ascii c) && Nat.leb (nat_of_ascii c) 122)%bool.

(** A definition on which the validator throws. *)
Definition throws_on (monitorConfig : value) : Prop :=
  monitorConfig = VUndef ∨ monitorConfig = VNull ∨
  (truthy (get_prop monitorConfig "type") = true ∧
   to_string (get_prop monitorConfig "type") ∈ Object_prototype_keys).

(** Sample definitions: an interval left empty in the YAML, status codes
    given as a number, and a document whose [monitors] is a number. *)
Definition sample_null_interval : value :=
  VObj [("name", VStr "Backup Job"); ("type", VStr "push"); ("interval", VNull)].

Definition sample_numeric_codes : value :=
  VObj [("name", VStr "A"); ("type", VStr "http"); ("url", VStr "https://test1.com");
        ("accepted_statuscodes", VNum 200)].

Definition sample_scalar_doc : value := VObj [("monitors", VNum 5)].

(** ** The socket handlers of [server/socket-handlers/general-socket-handler.js]

    The two handlers that reach the configuration module:
    [getConfigFileStatus] and [syncConfigMonitors].  A handler answers
    through the callback the client passed; the model returns the object the
    callback is called with, and the world the handler leaves. *)

(** A connected socket, with the id of the user it is logged in as. *)
Record Socket : Type := mkSocket { userID : Z }.

(** What the handlers call outside their file and the configuration module:
    [checkLogin(socket)] of util-server and [server.sendMonitorList(socket)],
    each with the message it throws, if it throws.  Sending the list reads
    the table and writes to the socket only. *)
Record Server : Type := mkServer {
  checkLogin : Socket → option string;
  sendMonitorList : Socket → option string
}.

(** [callback({ ok: false, msg: e.message })] *)
Definition reply_error (msg : string) : value :=
  VObj [("ok", VBool false); ("msg", VStr msg)].

Definition num_of_nat (n : nat) : value := VNum (Z.of_nat n).

(** The object the [syncConfigMonitors] handler answers with after a cycle
    that returned [result]. *)
Definition sync_reply (result : sync_result) : value :=
  VObj [("ok", VBool (Nat.eqb (length (result_errors result)) 0));
        ("added", num_of_nat (added result));
        ("updated", num_of_nat (updated result));
        ("removed", num_of_nat (removed result));
        ("errors", VArr (map VStr (result_errors result)));
        ("msg", VStr (if Nat.ltb 0 (length (result_errors result)) then
                        "Sync completed with " +:+
                        string_of_nat (length (result_errors result)) +:+ " errors"
                      else
                        "Sync complete: Added " +:+ string_of_nat (added result) +:+
                        ", Updated " +:+ string_of_nat (updated result) +:+
                        ", Removed " +:+ string_of_nat (removed result)))].

(** [null] or the string. *)
Definition path_value (p : option string) : value :=
  match p with
  | Some s => VStr s
  | None => VNull
  end.

Section Handlers.

Variable E : Env.
Variable srv : Server.

(** [fs.existsSync(p)] *)
Definition existsSync (p : string) : bool :=
  match fs_file E p with
  | Some _ => true
  | None => false
  end.

(** [configFileExists]: [filePath && fs.existsSync(filePath)], so [null]
    when there is no path. *)
Definition configFileExists (w : World) : value * World :=
  let '(filePath, w) := getConfigFilePath E w in
  match filePath with
  | None => (VNull, w)
  | Some filePath => (VBool (existsSync filePath), w)
  end.

(** The handler of [getConfigFileStatus]. *)
Definition on_getConfigFileStatus (socket : Socket) (w : World) : value * World :=
  match checkLogin srv socket with
  | Some msg => (reply_error msg, w)
  | None =>
      let '(exists_, w) := configFileExists w in
      let '(path, w) := getConfigFilePath E w in
      (VObj [("ok", VBool true); ("exists", exists_); ("path", path_value path)], w)
  end.

(** The handler of [syncConfigMonitors]. *)
Definition on_syncConfigMonitors (socket : Socket) (w : World) : value * World :=
  match checkLogin srv socket with
  | Some msg => (reply_error msg, w)
  | None =>
      match syncConfigMonitors E (userID socket) w with
      | (Throw msg, w) => (reply_error msg, w)
      | (Normal result, w) =>
          match sendMonitorList srv socket with
          | Some msg => (reply_error msg, w)
          | None => (sync_reply result, w)
          end
      end
  end.

End Handlers.

(** A server that lets every socket in and never fails to send the list. *)
Definition open_server : Server := mkServer (fun _ => None) (fun _ => None).

(** ** The file watcher of [server/config-file-monitors.js]

    [startFileWatcher], [stopFileWatcher], [createSampleConfigFile] and
    [initConfigFileMonitors], with the callbacks they register.  A callback
    runs as one step: what it awaits is not interleaved with other
    callbacks. *)

(** What a watcher watches, with what its callback holds: the path of the
    configuration file and the owner. *)
Inductive Watcher : Type :=
| DirWatcher (dirPath filePath : string) (userId : Z)
| FileWatcher (filePath : string) (userId : Z).

(** What a debounce timer holds until it fires: the event type it was set
    for, and the path and the owner of the watcher whose callback set it. *)
Record Pending : Type := mkPending {
  p_eventType : string;
  p_filePath : string;
  p_userId : Z
}.

(** The module's variables [fileWatcher] and [debounceTimer] next to the
    world of a cycle, and what Node holds for the module: the watchers
    [fs.watch] returned that are not closed, the timers set that have
    neither fired nor been cleared, the next handle it gives out, and the
    files [fs.writeFileSync] wrote. *)
Record Host : Type := mkHost {
  world : World;
  fileWatcher : option nat;
  debounceTimer : option nat;
  watchers : gmap nat Watcher;
  timers : gmap nat Pending;
  next_handle : nat;
  written : list string
}.

(** Modelled from the spec: the calls into Node that may throw, with the
    message, and [path.dirname]. *)
Record Node : Type := mkNode {
  watch_error : string → option string;
  write_error : string → option string;
  dirname : string → string
}.

Definition with_world (w : World) (h : Host) : Host :=
  mkHost w (fileWatcher h) (debounceTimer h) (watchers h) (timers h)
         (next_handle h) (written h).

Definition note (level : log_level) (msg : string) (h : Host) : Host :=
  with_world (log level msg (world h)) h.

Definition set_fileWatcher (k : option nat) (h : Host) : Host :=
  mkHost (world h) k (debounceTimer h) (watchers h) (timers h)
         (next_handle h) (written h).

Definition set_debounceTimer (t : option nat) (h : Host) : Host :=
  mkHost (world h) (fileWatcher h) t (watchers h) (timers h)
         (next_handle h) (written h).

(** [fs.watch(...)]: a new watcher under a fresh handle. *)
Definition watch (target : Watcher) (h : Host) : nat * Host :=
  (next_handle h,
   mkHost (world h) (fileWatcher h) (debounceTimer h)
          (<[next_handle h := target]> (watchers h)) (timers h)
          (S (next_handle h)) (written h)).

(** [watcher.close()] *)
Definition close (k : nat) (h : Host) : Host :=
  mkHost (world h) (fileWatcher h) (debounceTimer h)
         (delete k (watchers h)) (timers h) (next_handle h) (written h).

(** [setTimeout(..., 1000)]: a new pending timer under a fresh handle. *)
Definition setTimeout (c : Pending) (h : Host) : nat * Host :=
  (next_handle h,
   mkHost (world h) (fileWatcher h) (debounceTimer h) (watchers h)
          (<[next_handle h := c]> (timers h)) (S (next_handle h)) (written h)).

(** [clearTimeout(t)] *)
Definition clearTimeout (t : nat) (h : Host) : Host :=
  mkHost (world h) (fileWatcher h) (debounceTimer h) (watchers h)
         (delete t (timers h)) (next_handle h) (written h).

(** A timer fires: it is pending no more. *)
Definition fired (t : nat) (h : Host) : Host := clearTimeout t h.

(** [fs.writeFileSync(p, sampleConfig, "utf8")]: the file of the module's
    sample text. *)
Definition writeFileSync (p : string) (h : Host) : Host :=
  mkHost (world h) (fileWatcher h) (debounceTimer h) (watchers h) (timers h)
         (next_handle h) (p :: written h).

Section Watch.

Variable E : Env.
Variable N : Node.

(** One turn of the loop that removes every managed record when the file is
    gone; a throw is logged, without the monitor's name. *)
Definition sweep_monitor (monitor : Bean) (w : World) : World :=
  let stopped :=
    match id monitor with
    | Some k =>
        match monitorList w !! k with
        | Some handle =>
            match stop E k handle w with
            | (Throw msg, w) => (Throw msg, w)
            | (Normal _, w) =>
                (Normal tt, set_monitorList (delete k (monitorList w)) w)
            end
        | None => (Normal tt, w)
        end
    | None => (Normal tt, w)
    end in
  match stopped with
  | (Throw msg, w) => log Error ("Error removing monitor: " +:+ msg) w
  | (Normal _, w) =>
      match R_trash E monitor w with
      | (Throw msg, w) => log Error ("Error removing monitor: " +:+ msg) w
      | (Normal _, w) =>
          log Info ("Removed monitor: " +:+ to_string (bean_get monitor "name")) w
      end
  end.

Definition sweep (existingMonitors : list Bean) (w : World) : World :=
  foldl (fun w monitor => sweep_monitor monitor w) w existingMonitors.

Definition startFileWatcher (userId : Z) (h : Host) : Host :=
  let '(filePath, w) := getConfigFilePath E (world h) in
  let h := with_world w h in
  match filePath with
  | None => h
  | Some filePath =>
      let h :=
        match fileWatcher h with
        | Some k => set_fileWatcher None (close k h)
        | None => h
        end in
      if negb (existsSync E filePath) then
        let h := note Info "Config file not found, file watcher not started" h in
        let dirPath := dirname N filePath in
        match watch_error N dirPath with
        | Some msg => note Warn ("Could not watch data directory: " +:+ msg) h
        | None => (watch (DirWatcher dirPath filePath userId) h).2
        end
      else
        let h := note Info ("Starting file watcher for: " +:+ filePath) h in
        match watch_error N filePath with
        | Some msg => note Error ("Could not start file watcher: " +:+ msg) h
        | None =>
            let '(k, h) := watch (FileWatcher filePath userId) h in
            set_fileWatcher (Some k) h
        end
  end.

(** The callback of the directory watcher.  [filename] is null when the
    platform gives none.  A cycle that throws leaves the promise rejected,
    and [startFileWatcher] is not called. *)
Definition on_dir_event (filePath : string) (userId : Z)
    (eventType : string) (filename : option string) (h : Host) : Host :=
  if bool_decide (filename = Some "monitors.yaml") && String.eqb eventType "rename" then
    if existsSync E filePath then
      let h := note Info "Config file created, starting sync and file watcher" h in
      match syncConfigMonitors E userId (world h) with
      | (Throw _, w) => with_world w h
      | (Normal _, w) => startFileWatcher userId (with_world w h)
      end
    else h
  else h.

(** The callback of the file watcher: the debounce. *)
Definition on_file_event (filePath : string) (userId : Z)
    (eventType : string) (h : Host) : Host :=
  let h :=
    match debounceTimer h with
    | Some t => clearTimeout t h
    | None => h
    end in
  let '(t, h) := setTimeout (mkPending eventType filePath userId) h in
  set_debounceTimer (Some t) h.

(** The [error] listener of the file watcher. *)
Definition on_watcher_error (msg : string) (h : Host) : Host :=
  note Error ("File watcher error: " +:+ msg) h.

(** The callback of the debounce timer [t], which held [c]. *)
Definition on_timer (t : nat) (c : Pending) (h : Host) : completion unit * Host :=
  let h := fired t h in
  let h := note Info ("Config file changed (" +:+ p_eventType c +:+
                      "), re-syncing monitors...") h in
  if negb (existsSync E (p_filePath c)) then
    let h := note Warn "Config file was deleted, removing all config-managed monitors" h in
    let '(existingMonitors, w) := R_find (p_userId c) (world h) in
    let h := with_world (sweep existingMonitors w) h in
    match fileWatcher h with
    | None => (Throw "Cannot read properties of null (reading 'close')", h)
    | Some k =>
        let h := set_fileWatcher None (close k h) in
        (Normal tt, startFileWatcher (p_userId c) h)
    end
  else
    match syncConfigMonitors E (p_userId c) (world h) with
    | (Throw msg, w) => (Throw msg, with_world w h)
    | (Normal _, w) => (Normal tt, with_world w h)
    end.

Definition stopFileWatcher (h : Host) : Host :=
  let h :=
    match fileWatcher h with
    | Some k => note Info "File watcher stopped" (set_fileWatcher None (close k h))
    | None => h
    end in
  match debounceTimer h with
  | Some t => set_debounceTimer None (clearTimeout t h)
  | None => h
  end.

Definition createSampleConfigFile (h : Host) : Host :=
  let '(filePath, w) := getConfigFilePath E (world h) in
  let h := with_world w h in
  match filePath with
  | None => h
  | Some filePath =>
      let samplePath := filePath +:+ ".sample" in
      if existsSync E samplePath then h
      else
        match write_error N samplePath with
        | Some msg => note Warn ("Could not create sample config file: " +:+ msg) h
        | None =>
            note Info ("Created sample config file at: " +:+ samplePath)
                 (writeFileSync samplePath h)
        end
  end.

Definition initConfigFileMonitors (userId : Z) (h : Host) : completion unit * Host :=
  let h := note Info "Initializing config file monitors" h in
  let h := createSampleConfigFile h in
  match syncConfigMonitors E userId (world h) with
  | (Throw msg, w) => (Throw msg, with_world w h)
  | (Normal _, w) => (Normal tt, startFileWatcher userId (with_world w h))
  end.

End Watch.

(** What may happen to the module's host, one step at a time: a call of an
    exported function, a callback of an open watcher or of a pending timer,
    or anything else that changes the world only. *)
Inductive step : Host → Host → Prop :=
| step_init E N userId h :
    step h (initConfigFileMonitors E N userId h).2
| step_stop h :
    step h (stopFileWatcher h)
| step_world w h :
    step h (with_world w h)
| step_dir_event E N k dirPath filePath userId eventType filename h :
    watchers h !! k = Some (DirWatcher dirPath filePath userId) →
    step h (on_dir_event E N filePath userId eventType filename h)
| step_file_event k filePath userId eventType h :
    watchers h !! k = Some (FileWatcher filePath userId) →
    step h (on_file_event filePath userId eventType h)
| step_watcher_error k filePath userId msg h :
    watchers h !! k = Some (FileWatcher filePath userId) →
    step h (on_watcher_error msg h)
| step_timer E N t c h :
    timers h !! t = Some c →
    step h (on_timer E N t c h).2.

(** The host before the module has done anything. *)
Definition host0 (w : World) : Host := mkHost w None None ∅ ∅ 0 [].

(** A directory watcher is open under the handle [k]. *)
Definition dir_watcher_open (h : Host) (k : nat) : Prop :=
  ∃ dirPath filePath userId, watchers h !! k = Some (DirWatcher dirPath filePath userId).

(** The host is tidy: a pending timer is the one [debounceTimer] holds, an
    open file watcher is the one [fileWatcher] holds, [fileWatcher] does not
    hold a directory watcher, and no handle at or above the next one is in
    use. *)
Definition tidy (h : Host) : Prop :=
  (∀ t c, timers h !! t = Some c → debounceTimer h = Some t) ∧
  (∀ k filePath userId,
     watchers h !! k = Some (FileWatcher filePath userId) → fileWatcher h = Some k) ∧
  (∀ k, fileWatcher h = Some k → ¬ dir_watcher_open h k) ∧
  (∀ k, (next_handle h ≤ k)%nat → watchers h !! k = None ∧ timers h !! k = None).

(** Every directory watcher open in [h] is open in [h'], unchanged. *)
Definition keeps_dirs (h h' : Host) : Prop :=
  ∀ k, dir_watcher_open h k → watchers h' !! k = watchers h !! k.

(** A Node in which no call throws. *)
Definition sample_node : Node :=
  mkNode (fun _ => None) (fun _ => None) (fun _ => "config").

(** The host after an initialisation whose file is missing: the directory
    is watched. *)
Definition waiting_host : Host :=
  (initConfigFileMonitors (env_with None) sample_node 1 (host0 fresh_world)).2.


(** *** Records with a task *)

(** The definition has a managed record of the owner whose id has a handle
    in the registry. *)
Definition running (userId : Z) (w : World) (monitorConfig : value) : Prop :=
  ∃ row, In row (rows (db w)) ∧
         matches (get_prop monitorConfig "name") userId row = true ∧
         is_Some (monitorList w !! row.1).

(** The definition asks for a running task: the merged [active] is truthy. *)
Definition wants_task (userId : Z) (monitorConfig : value) : bool :=
  truthy (obj_get (configToMonitorBean monitorConfig userId) "active").

(** An environment with the file of [sample_env] in which [R.store] always
    throws. *)
Definition store_down (E : Env) : Env :=
  mkEnv (env_MONITORS_YAML_PATH E) (fs_file E) (bean_validate E)
        (fun _ => Some "SQLITE_BUSY") (trash_error E) (stop_error E) (start_error E).

(** Two definitions of one name. *)
Definition sample_twins : list value :=
  [ VObj [("name", VStr "A"); ("type", VStr "http"); ("url", VStr "https://one.test")];
    VObj [("name", VStr "A"); ("type", VStr "http"); ("url", VStr "https://two.test");
          ("active", VBool false)] ].

(** The record [findOrCreateMonitor] finds for the definition has every
    column the definition gives (the [id] apart, which the import skips). *)
Definition carries (userId : Z) (d : Db) (monitorConfig : value) : Prop :=
  ∃ k p,
    List.find (matches (get_prop monitorConfig "name") userId) (rows d) = Some (k, p) ∧
    delete "id" (configToMonitorBean monitorConfig userId) ⊆ p.

(** An event that stops or starts the task of the id [k]. *)
Definition on_task (k : positive) (e : event) : bool :=
  match e with
  | TaskStop j _ | TaskStart j _ => bool_decide (j = k)
  | _ => false
  end.

(** The step from [w] to [w'] leaves the task of the id [k] alone: the
    handle registered under [k] is the same, and neither [stop()] nor
    [start()] was called for [k]. *)
Definition task_kept (k : positive) (w w' : World) : Prop :=
  monitorList w' !! k = monitorList w !! k ∧
  ∃ new, trace w' = (new ++ trace w)%list ∧ Forall (fun e => on_task k e = false) new.

(** The sample set with its first definition switched off. *)
Definition sample_items_paused : list value :=
  [ VObj [("name", VStr "A"); ("type", VStr "http"); ("url", VStr "https://test1.com");
          ("active", VBool false)];
    VObj [("name", VStr "B"); ("type", VStr "ping"); ("hostname", VStr "1.1.1.1")] ].

(** A server with one config-managed monitor of the owner 1, named A, and
    its task running. *)
Definition managed_monitor : gmap string value :=
  list_to_map [("name", VStr "A"); ("type", VStr "http");
               ("user_id", VNum 1); ("config_managed", VNum 1)].

Definition running_world : World :=
  mkWorld None (mkDb [(1%positive, managed_monitor)] 2%positive)
          {[1%positive := mkBean (Some 1%positive) managed_monitor]} [].

(** * Properties *)

(** ** What a cycle leaves untouched *)

Lemma only_logged_refl w : only_logged w w.
Proof. repeat split. exists []. split; [reflexivity | constructor]. Qed.

Lemma only_logged_trans w1 w2 w3 :
  only_logged w1 w2 → only_logged w2 w3 → only_logged w1 w3.
Proof.
  intros (Hd1 & Hm1 & n1 & Ht1 & Hf1) (Hd2 & Hm2 & n2 & Ht2 & Hf2).
  repeat split; [congruence | congruence |].
  exists (n2 ++ n1)%list. split.
  - rewrite Ht2, Ht1. apply app_assoc.
  - apply Forall_app; done.
Qed.

Lemma only_logged_log level msg w : only_logged w (log level msg w).
Proof.
  repeat split. exists [Log level msg]. split; [reflexivity |].
  repeat constructor.
Qed.

Lemma only_logged_set_path p w : only_logged w (set_configFilePath p w).
Proof. repeat split. exists []. split; [reflexivity | constructor]. Qed.

Lemma only_logged_log_all level prefix msgs w :
  only_logged w (log_all level prefix msgs w).
Proof.
  revert w. induction msgs as [|m msgs IH]; intros w; simpl.
  - apply only_logged_refl.
  - eapply only_logged_trans; [apply only_logged_log | apply IH].
Qed.

Lemma getConfigFilePath_only_logged E w :
  only_logged w (getConfigFilePath E w).2.
Proof.
  unfold getConfigFilePath.
  destruct (path_truthy (configFilePath w)); simpl; [apply only_logged_refl |].
  destruct (path_truthy (env_MONITORS_YAML_PATH E)); simpl.
  - apply only_logged_set_path.
  - apply only_logged_refl.
Qed.

Lemma readConfigFile_only_logged E w :
  only_logged w (readConfigFile E w).2.
Proof.
  unfold readConfigFile.
  pose proof (getConfigFilePath_only_logged E w) as Hp.
  destruct (getConfigFilePath E w) as [[p|] w1]; simpl in *; [| exact Hp].
  destruct (fs_file E p) as [[msg|config]|]; simpl.
  - eapply only_logged_trans; [exact Hp | apply only_logged_log].
  - destruct (negb (truthy config) || negb (truthy (get_prop config "monitors"))); simpl.
    + eapply only_logged_trans; [exact Hp | apply only_logged_log].
    + exact Hp.
  - eapply only_logged_trans; [exact Hp | apply only_logged_log].
Qed.

(** ** The path of the configuration source *)

(** C10.  With the environment variable unset and no path cached,
    [getConfigFilePath] returns null and [syncConfigMonitors] does nothing: it
    returns the zero result with no error, the table and the registry are
    the ones it was given, and the one event of the cycle is the log line
    that says the sync is skipped (no find, store, trash, stop or start). *)
Theorem sync_without_path_is_noop (E : Env) (userId : Z) (w : World) :
  env_MONITORS_YAML_PATH E = None →
  configFilePath w = None →
  getConfigFilePath E w = (None, w) ∧
  ∃ w', syncConfigMonitors E userId w = (Normal (mkResult 0 0 0 []), w') ∧
        db w' = db w ∧ monitorList w' = monitorList w ∧
        configFilePath w' = None ∧
        trace w' =
          Log Info "No config file found or config file is invalid, skipping sync"
          :: trace w.
Proof.
  intros Henv Hpath.
  assert (Hget : getConfigFilePath E w = (None, w)).
  { unfold getConfigFilePath. rewrite Hpath, Henv. reflexivity. }
  split; [exact Hget |].
  eexists. split.
  - unfold syncConfigMonitors, readConfigFile. rewrite Hget. reflexivity.
  - simpl. auto.
Qed.

(** ** A source that does not load *)

(** C2, as the code has it.  When the file exists and reading or parsing it
    throws, [readConfigFile] logs the diagnostic at error level and returns
    null; [syncConfigMonitors] then returns the zero result with an EMPTY
    error list.  The table and the registry are untouched and the cycle adds
    two log lines: the diagnostic and the notice that the sync is skipped. *)
Theorem sync_malformed_source (E : Env) (userId : Z) (w : World)
    (filePath msg : string) :
  (getConfigFilePath E w).1 = Some filePath →
  fs_file E filePath = Some (LoadError msg) →
  ∃ w', syncConfigMonitors E userId w = (Normal (mkResult 0 0 0 []), w') ∧
        db w' = db w ∧ monitorList w' = monitorList w ∧
        trace w' =
          Log Info "No config file found or config file is invalid, skipping sync"
          :: Log Error ("Error parsing config file: " +:+ msg)
          :: trace w.
Proof.
  intros Hpath Hload.
  pose proof (getConfigFilePath_only_logged E w) as (Hd & Hm & _).
  assert (Ht : trace (getConfigFilePath E w).2 = trace w).
  { unfold getConfigFilePath.
    destruct (path_truthy (configFilePath w)); [reflexivity |].
    destruct (path_truthy (env_MONITORS_YAML_PATH E)); reflexivity. }
  unfold syncConfigMonitors, readConfigFile.
  destruct (getConfigFilePath E w) as [p w1]. simpl in *. subst p.
  rewrite Hload. eexists. split; [reflexivity |].
  simpl. rewrite Hd, Hm, Ht. auto.
Qed.

Lemma sync_without_path_is_noop_witness :
  getConfigFilePath env_without_path fresh_world = (None, fresh_world) ∧
  ∃ w', syncConfigMonitors env_without_path 1 fresh_world
          = (Normal (mkResult 0 0 0 []), w') ∧
        db w' = db fresh_world ∧ monitorList w' = monitorList fresh_world ∧
        configFilePath w' = None ∧
        trace w' =
          Log Info "No config file found or config file is invalid, skipping sync"
          :: trace fresh_world.
Proof.
  apply (sync_without_path_is_noop env_without_path 1 fresh_world); reflexivity.
Defined.

Lemma sync_malformed_source_witness :
  ∃ w', syncConfigMonitors (env_with (Some (LoadError "bad indentation"))) 1 fresh_world
          = (Normal (mkResult 0 0 0 []), w') ∧
        db w' = db fresh_world ∧ monitorList w' = monitorList fresh_world ∧
        trace w' =
          Log Info "No config file found or config file is invalid, skipping sync"
          :: Log Error ("Error parsing config file: " +:+ "bad indentation")
          :: trace fresh_world.
Proof.
  apply (sync_malformed_source (env_with (Some (LoadError "bad indentation"))) 1
           fresh_world sample_path "bad indentation"); reflexivity.
Defined.

(** C2 as the specification words it fails: the file is present, loading it
    throws, and the error list of the result has no entry at all. *)
Lemma sync_malformed_source_counterexample :
  fs_file (env_with (Some (LoadError "bad indentation"))) sample_path
    = Some (LoadError "bad indentation") ∧
  ∃ r w', syncConfigMonitors (env_with (Some (LoadError "bad indentation"))) 1 fresh_world
            = (Normal r, w') ∧
          result_errors r = [] ∧ length (result_errors r) ≠ 1%nat.
Proof.
  split; [reflexivity |].
  eexists _, _. split; [reflexivity |]. split; [reflexivity | discriminate].
Qed.

(** ** The validation gate *)

Lemma loop_items_array items : loop_items (VArr items) = items.
Proof.
  unfold loop_items. simpl. rewrite Nat2Z.id.
  apply list_eq. intros i. rewrite list_lookup_fmap.
  destruct (decide (i < length items)%nat) as [Hlt|Hge].
  - rewrite lookup_seq_lt by exact Hlt. simpl.
    destruct (lookup_lt_is_Some_2 items i Hlt) as [x Hx]. rewrite Hx.
    f_equal. apply nth_lookup_Some with (d := VUndef) in Hx. exact Hx.
  - rewrite lookup_seq_ge by lia. simpl. symmetry.
    apply lookup_ge_None_2. lia.
Qed.

Lemma validate_valid_iff monitorConfig index v :
  validateMonitorConfig monitorConfig index = Normal v →
  (valid v = true ↔ errors v = []).
Proof.
  intros H.
  assert (Hv : valid v = Nat.eqb (length (errors v)) 0).
  { unfold validateMonitorConfig in H.
    destruct monitorConfig; try discriminate;
      (destruct (check_type _ index _); [| discriminate];
       injection H as <-; reflexivity). }
  rewrite Hv. destruct (errors v); simpl; split; congruence.
Qed.

Lemma validate_from_spec items : ∀ i errs vs,
  imap (fun j m => validateMonitorConfig m (i + j)) items = Normal <$> vs →
  validate_from items i errs
    = Normal (errs ++ concat (errors <$> List.filter invalid vs))%list.
Proof.
  induction items as [|m items IH]; intros i errs vs H.
  - destruct vs; [| discriminate]. simpl. by rewrite app_nil_r.
  - destruct vs as [|v vs]; [discriminate |].
    simpl in H. injection H as Hm Hrest.
    rewrite Nat.add_0_r in Hm. simpl. rewrite Hm.
    rewrite (IH (S i) _ vs).
    + unfold invalid at 2. destruct (valid v); simpl; [reflexivity |].
      by rewrite app_assoc.
    + etrans; [| exact Hrest]. apply imap_ext. intros j x _. simpl.
      f_equal. lia.
Qed.

(** C1.  When [readConfigFile] gives a document whose [monitors] is the
    array [items], every definition gets its verdict from
    [validateMonitorConfig], and at least one verdict is not valid, then
    [syncConfigMonitors] returns added = updated = removed = 0 and, as its
    error list, the errors of the invalid definitions in declared order; the
    table and the registry are untouched and every event of the cycle is a
    log line: no find, store, trash, stop or start. *)
Theorem sync_validation_gate (E : Env) (userId : Z) (w w1 : World)
    (config : value) (items : list value) (vs : list validation) :
  readConfigFile E w = (Some config, w1) →
  get_prop config "monitors" = VArr items →
  imap (fun i m => validateMonitorConfig m i) items = Normal <$> vs →
  Exists (fun v => valid v = false) vs →
  ∃ w', syncConfigMonitors E userId w
          = (Normal (mkResult 0 0 0 (concat (errors <$> List.filter invalid vs))), w') ∧
        only_logged w w'.
Proof.
  intros Hread Hmon Hvs Hex.
  pose proof (readConfigFile_only_logged E w) as Hlog. rewrite Hread in Hlog.
  simpl in Hlog.
  assert (Hne : Nat.ltb 0 (length (concat (errors <$> List.filter invalid vs))) = true).
  { apply Nat.ltb_lt.
    apply Exists_exists in Hex as (v & Hin & Hv).
    apply list_elem_of_lookup in Hin as [i Hi].
    assert (Hval : validateMonitorConfig (nth i items VUndef) i = Normal v).
    { assert (Hl : imap (fun i m => validateMonitorConfig m i) items !! i = Some (Normal v)).
      { rewrite Hvs, list_lookup_fmap, Hi. reflexivity. }
      rewrite list_lookup_imap in Hl.
      destruct (items !! i) as [m|] eqn:Hm; [| discriminate].
      simpl in Hl. injection Hl as Hl.
      apply nth_lookup_Some with (d := VUndef) in Hm. by rewrite Hm. }
    assert (Herr : errors v ≠ []).
    { intros Hnil. apply (validate_valid_iff _ _ _ Hval) in Hnil. congruence. }
    assert (Hin' : v ∈ List.filter invalid vs).
    { apply list_elem_of_In, filter_In. split.
      - apply list_elem_of_In, list_elem_of_lookup. eauto.
      - unfold invalid. by rewrite Hv. }
    apply list_elem_of_In, in_split in Hin' as (l1 & l2 & Hsplit).
    rewrite Hsplit, fmap_app, concat_app. simpl.
    rewrite !length_app. destruct (errors v); [done | simpl; lia]. }
  unfold syncConfigMonitors. rewrite Hread, Hmon. simpl truthy. cbv iota.
  rewrite loop_items_array.
  rewrite (validate_from_spec items 0 _ vs) by exact Hvs.
  simpl app. rewrite Hne.
  eexists. split; [reflexivity |].
  eapply only_logged_trans; [exact Hlog |].
  eapply only_logged_trans; [apply only_logged_log |].
  eapply only_logged_trans; [apply only_logged_log | apply only_logged_log_all].
Qed.

(** Whenever the validation loop does not pass, because a definition is not
    valid or because the validator throws, the cycle touches neither the
    table nor the registry. *)
Lemma sync_gate_closed E userId w w1 config items :
  readConfigFile E w = (Some config, w1) →
  get_prop config "monitors" = VArr items →
  validate_from items 0 [] ≠ Normal [] →
  only_logged w (syncConfigMonitors E userId w).2.
Proof.
  intros Hread Hmon Hval.
  pose proof (readConfigFile_only_logged E w) as Hlog. rewrite Hread in Hlog.
  simpl in Hlog.
  unfold syncConfigMonitors. rewrite Hread, Hmon. simpl truthy. cbv iota.
  rewrite loop_items_array. simpl result_errors.
  destruct (validate_from items 0 []) as [errs|msg].
  - destruct errs as [|e errs]; [congruence |]. cbn [length Nat.ltb Nat.leb snd].
    eapply only_logged_trans; [exact Hlog |].
    eapply only_logged_trans; [apply only_logged_log |].
    eapply only_logged_trans; [apply only_logged_log | apply only_logged_log_all].
  - cbn [snd]. eapply only_logged_trans; [exact Hlog | apply only_logged_log].
Qed.

Lemma sync_validation_gate_witness :
  ∃ w', syncConfigMonitors (env_with (Some (Loaded (sample_doc sample_invalid_items))))
          1 fresh_world
          = (Normal (mkResult 0 0 0
               (concat (errors <$> List.filter invalid (verdicts sample_invalid_items)))), w') ∧
        only_logged fresh_world w'.
Proof.
  apply (sync_validation_gate
           (env_with (Some (Loaded (sample_doc sample_invalid_items)))) 1 fresh_world
           (set_configFilePath (Some sample_path) fresh_world)
           (sample_doc sample_invalid_items) sample_invalid_items
           (verdicts sample_invalid_items)).
  - reflexivity.
  - reflexivity.
  - vm_compute. reflexivity.
  - apply Exists_cons_hd. vm_compute. reflexivity.
Defined.

(** ** [validateMonitorConfig] *)

(** C6 at a type that names a member of [Object.prototype].  The table has
    no own key [constructor], so the type is not one of the enumeration; the
    read still finds the inherited member, the loop over it throws, and
    neither the validator nor the cycle that calls it reports an error
    string. *)
Theorem validate_inherited_type_throws :
  REQUIRED_FIELDS_BY_TYPE !! "constructor" = None ∧
  validateMonitorConfig inherited_type_definition 0
    = Throw "requiredFields is not iterable" ∧
  (syncConfigMonitors (env_with (Some (Loaded (sample_doc [inherited_type_definition]))))
     1 fresh_world).1
    = Throw "requiredFields is not iterable".
Proof. repeat split; vm_compute; reflexivity. Qed.

Lemma append_inj_l (s a b : string) : s +:+ a = s +:+ b → a = b.
Proof. induction s as [|c s IH]; simpl; [auto |]. intros H. injection H as H. auto. Qed.

Lemma check_bounds_app monitorConfig field errs :
  check_bounds monitorConfig field errs = (errs ++ bound_errors monitorConfig field)%list.
Proof.
  unfold check_bounds, bound_errors, push_if.
  destruct (strict_eq _ VUndef); [by rewrite app_nil_r |].
  destruct (lt_num _ 20), (gt_num _ 86400); simpl;
    rewrite <- ?app_assoc, ?app_nil_r; reflexivity.
Qed.

Lemma check_required_structural monitorConfig index requiredFields : ∀ errs,
  Forall (structural_error monitorConfig index) errs →
  Forall (structural_error monitorConfig index)
         (check_required monitorConfig requiredFields errs).
Proof.
  unfold check_required.
  induction requiredFields as [|f fs IH]; intros errs H; simpl; [exact H |].
  apply IH. unfold push_if. destruct (field_missing _); [| exact H].
  apply Forall_app. split; [exact H |]. constructor; [| constructor].
  right; right; right. eauto.
Qed.

Lemma check_type_structural monitorConfig index errs errs' :
  Forall (structural_error monitorConfig index) errs →
  check_type monitorConfig index errs = Normal errs' →
  Forall (structural_error monitorConfig index) errs'.
Proof.
  intros Hf H. unfold check_type in H.
  destruct (negb (truthy _)).
  - injection H as <-. apply Forall_app. split; [exact Hf |].
    constructor; [| constructor]. right; left; reflexivity.
  - destruct (read_REQUIRED_FIELDS_BY_TYPE _) as [fs| |]; [| discriminate |].
    + injection H as <-. by apply check_required_structural.
    + injection H as <-. apply Forall_app. split; [exact Hf |].
      constructor; [| constructor]. right; right; left; reflexivity.
Qed.

(** The verdict's error list: the [name] and [type] messages, then the bound
    messages of [interval], then those of [retryInterval]. *)
Lemma validate_errors_shape monitorConfig index v :
  validateMonitorConfig monitorConfig index = Normal v →
  ∃ pre, Forall (structural_error monitorConfig index) pre ∧
         errors v = ((pre ++ bound_errors monitorConfig "interval") ++
                     bound_errors monitorConfig "retryInterval")%list.
Proof.
  intros H.
  assert (Hname : Forall (structural_error monitorConfig index)
            (push_if (negb (truthy (get_prop monitorConfig "name")))
                     (msg_name_required index) [])).
  { unfold push_if. destruct (negb _); [| constructor].
    constructor; [| constructor]. left; reflexivity. }
  unfold validateMonitorConfig in H.
  destruct monitorConfig; try discriminate;
    (destruct (check_type _ index _) as [pre|] eqn:Hc; [| discriminate];
     injection H as <-; exists pre; split;
     [ exact (check_type_structural _ _ _ _ Hname Hc)
     | simpl; by rewrite !check_bounds_app ]).
Qed.

(** ** What the validator reports when it returns *)

Lemma check_required_grows monitorConfig requiredFields : ∀ errs x,
  In x errs → In x (check_required monitorConfig requiredFields errs).
Proof.
  unfold check_required.
  induction requiredFields as [|f fs IH]; intros errs x Hx; simpl; [exact Hx |].
  apply IH. unfold push_if. destruct (field_missing _); [| exact Hx].
  apply in_or_app. by left.
Qed.

Lemma check_required_reports monitorConfig requiredFields : ∀ errs field,
  In field requiredFields →
  field_missing (get_prop monitorConfig field) = true →
  In (msg_field_required monitorConfig field)
     (check_required monitorConfig requiredFields errs).
Proof.
  induction requiredFields as [|f fs IH]; intros errs field Hin Hmiss; [destruct Hin |].
  destruct Hin as [-> | Hin].
  - unfold check_required. simpl. apply (check_required_grows monitorConfig fs).
    unfold push_if. rewrite Hmiss. apply in_or_app. right. by left.
  - unfold check_required. simpl. by apply (IH _ field).
Qed.

(** The validator returns a verdict for every definition that is an object
    or a scalar, unless its type names an inherited member of the table. *)
Lemma validateMonitorConfig_returns monitorConfig index :
  monitorConfig ≠ VUndef → monitorConfig ≠ VNull →
  read_REQUIRED_FIELDS_BY_TYPE (to_string (get_prop monitorConfig "type")) ≠ Inherited →
  ∃ v, validateMonitorConfig monitorConfig index = Normal v.
Proof.
  intros Hu Hn Hi. unfold validateMonitorConfig, check_type.
  destruct monitorConfig; try congruence;
    (destruct (negb (truthy _)); [by eexists |]);
    (destruct (read_REQUIRED_FIELDS_BY_TYPE _); [by eexists | congruence | by eexists]).
Qed.

(** The checks of [name] and [type] in a verdict: valid means no error; a
    falsy name and a falsy type are reported by position; a type that the
    table does not have (and does not inherit) is reported as unknown; for a
    type of the table, every required field that is undefined, null or the
    empty string is reported. *)
Lemma validateMonitorConfig_reports monitorConfig index v :
  validateMonitorConfig monitorConfig index = Normal v →
  (valid v = true ↔ errors v = []) ∧
  (truthy (get_prop monitorConfig "name") = false →
     In (msg_name_required index) (errors v)) ∧
  (truthy (get_prop monitorConfig "type") = false →
     In (msg_type_required index) (errors v)) ∧
  (truthy (get_prop monitorConfig "type") = true →
     read_REQUIRED_FIELDS_BY_TYPE (to_string (get_prop monitorConfig "type")) = Undefined →
     In (msg_unknown_type monitorConfig) (errors v)) ∧
  (∀ requiredFields field,
     truthy (get_prop monitorConfig "type") = true →
     REQUIRED_FIELDS_BY_TYPE !! to_string (get_prop monitorConfig "type")
       = Some requiredFields →
     In field requiredFields →
     field_missing (get_prop monitorConfig field) = true →
     In (msg_field_required monitorConfig field) (errors v)).
Proof.
  intros H. split; [exact (validate_valid_iff _ _ _ H) |].
  assert (Hpre : ∃ pre,
            check_type monitorConfig index
              (push_if (negb (truthy (get_prop monitorConfig "name")))
                       (msg_name_required index) []) = Normal pre ∧
            ∀ x, In x pre → In x (errors v)).
  { unfold validateMonitorConfig in H.
    destruct monitorConfig; try discriminate;
      (destruct (check_type _ index _) as [pre|]; [| discriminate];
       injection H as <-; exists pre; split; [reflexivity |];
       intros x Hx; simpl; rewrite !check_bounds_app;
       apply in_or_app; left; apply in_or_app; by left). }
  destruct Hpre as (pre & Hc & Hin). unfold check_type in Hc.
  assert (Hgrow : ∀ x, In x (push_if (negb (truthy (get_prop monitorConfig "name")))
                                      (msg_name_required index) []) → In x pre).
  { intros x Hx. destruct (negb (truthy (get_prop monitorConfig "type"))).
    - injection Hc as <-. apply in_or_app. by left.
    - destruct (read_REQUIRED_FIELDS_BY_TYPE _); [| discriminate |]; injection Hc as <-.
      + by apply check_required_grows.
      + apply in_or_app. by left. }
  repeat split.
  - intros Hname. apply Hin, Hgrow. rewrite Hname. simpl. by left.
  - intros Htype. rewrite Htype in Hc. simpl in Hc. injection Hc as <-.
    apply Hin. apply in_or_app. right. by left.
  - intros Htype Hread. rewrite Htype, Hread in Hc. simpl in Hc. injection Hc as <-.
    apply Hin. apply in_or_app. right. by left.
  - intros fs field Htype Hfs Hfield Hmiss.
    unfold read_REQUIRED_FIELDS_BY_TYPE in Hc. rewrite Htype, Hfs in Hc. simpl in Hc.
    injection Hc as <-. apply Hin. by apply check_required_reports.
Qed.

Ltac msg_neq :=
  let H := fresh in
  intros H;
  unfold msg_name_required, msg_type_required, msg_unknown_type,
         msg_field_required, msg_at_least, msg_at_most in H;
  first [ apply append_inj_l in H; simpl in H; discriminate H
        | unfold monitor_label, q, dquote in H; simpl in H; discriminate H ].

Lemma structural_not_bound monitorConfig index s field :
  field = "interval" ∨ field = "retryInterval" →
  structural_error monitorConfig index s →
  s ≠ msg_at_least monitorConfig field ∧ s ≠ msg_at_most monitorConfig field.
Proof.
  intros [-> | ->] [-> | [-> | [-> | [f ->]]]]; split; msg_neq.
Qed.

Lemma count_occ_structural monitorConfig index pre field :
  field = "interval" ∨ field = "retryInterval" →
  Forall (structural_error monitorConfig index) pre →
  count_occ string_dec pre (msg_at_least monitorConfig field) = 0%nat ∧
  count_occ string_dec pre (msg_at_most monitorConfig field) = 0%nat.
Proof.
  intros Hf Hpre. induction Hpre as [|s pre Hs _ [IH1 IH2]]; [done |].
  destruct (structural_not_bound _ _ _ _ Hf Hs) as [N1 N2].
  split; rewrite count_occ_cons_neq; auto.
Qed.

Lemma count_occ_bound_errors monitorConfig field :
  field = "interval" ∨ field = "retryInterval" →
  count_occ string_dec (bound_errors monitorConfig field) (msg_at_least monitorConfig field)
    = (if strict_eq (get_prop monitorConfig field) VUndef then 0
       else if lt_num (get_prop monitorConfig field) 20 then 1 else 0)%nat ∧
  count_occ string_dec (bound_errors monitorConfig field) (msg_at_most monitorConfig field)
    = (if strict_eq (get_prop monitorConfig field) VUndef then 0
       else if gt_num (get_prop monitorConfig field) 86400 then 1 else 0)%nat.
Proof.
  intros Hf. unfold bound_errors.
  assert (Hne : msg_at_most monitorConfig field ≠ msg_at_least monitorConfig field).
  { destruct Hf as [-> | ->]; msg_neq. }
  destruct (strict_eq _ VUndef); [done |].
  destruct (lt_num _ 20), (gt_num _ 86400); cbn [count_occ app]; split;
    repeat (destruct (string_dec _ _)); congruence.
Qed.

Lemma count_occ_other_bound monitorConfig field other :
  (field = "interval" ∧ other = "retryInterval") ∨
  (field = "retryInterval" ∧ other = "interval") →
  count_occ string_dec (bound_errors monitorConfig other) (msg_at_least monitorConfig field) = 0%nat ∧
  count_occ string_dec (bound_errors monitorConfig other) (msg_at_most monitorConfig field) = 0%nat.
Proof.
  intros Hf. unfold bound_errors.
  assert (N1 : msg_at_least monitorConfig other ≠ msg_at_least monitorConfig field)
    by (destruct Hf as [[-> ->] | [-> ->]]; msg_neq).
  assert (N2 : msg_at_most monitorConfig other ≠ msg_at_least monitorConfig field)
    by (destruct Hf as [[-> ->] | [-> ->]]; msg_neq).
  assert (N3 : msg_at_least monitorConfig other ≠ msg_at_most monitorConfig field)
    by (destruct Hf as [[-> ->] | [-> ->]]; msg_neq).
  assert (N4 : msg_at_most monitorConfig other ≠ msg_at_most monitorConfig field)
    by (destruct Hf as [[-> ->] | [-> ->]]; msg_neq).
  destruct (strict_eq _ VUndef); [done |].
  destruct (lt_num _ 20), (gt_num _ 86400); cbn [count_occ app]; split;
    repeat (destruct (string_dec _ _)); congruence.
Qed.

(** How often a verdict carries the two bound messages of [field]. *)
Lemma count_occ_verdict monitorConfig index v field :
  field = "interval" ∨ field = "retryInterval" →
  validateMonitorConfig monitorConfig index = Normal v →
  count_occ string_dec (errors v) (msg_at_least monitorConfig field)
    = (if strict_eq (get_prop monitorConfig field) VUndef then 0
       else if lt_num (get_prop monitorConfig field) 20 then 1 else 0)%nat ∧
  count_occ string_dec (errors v) (msg_at_most monitorConfig field)
    = (if strict_eq (get_prop monitorConfig field) VUndef then 0
       else if gt_num (get_prop monitorConfig field) 86400 then 1 else 0)%nat.
Proof.
  intros Hf Hv.
  destruct (validate_errors_shape _ _ _ Hv) as (pre & Hpre & ->).
  destruct (count_occ_structural _ _ _ _ Hf Hpre) as [P1 P2].
  rewrite !count_occ_app, P1, P2.
  destruct Hf as [-> | ->].
  - destruct (count_occ_bound_errors monitorConfig "interval") as [B1 B2]; [auto |].
    destruct (count_occ_other_bound monitorConfig "interval" "retryInterval") as [O1 O2];
      [auto |].
    rewrite B1, B2, O1, O2. split; lia.
  - destruct (count_occ_bound_errors monitorConfig "retryInterval") as [B1 B2]; [auto |].
    destruct (count_occ_other_bound monitorConfig "retryInterval" "interval") as [O1 O2];
      [auto |].
    rewrite B1, B2, O1, O2. split; lia.
Qed.



(** ** [configToMonitorBean] *)


Lemma default_active : MONITOR_DEFAULTS !! "active" = Some (VBool true).
Proof. vm_compute. reflexivity. Qed.

Lemma declared_or_default_union config k :
  (own_props config ∪ MONITOR_DEFAULTS) !! k = declared_or_default config k.
Proof.
  unfold declared_or_default. rewrite lookup_union.
  destruct (own_props config !! k), (MONITOR_DEFAULTS !! k); reflexivity.
Qed.

Lemma serialize_field_lookup_ne monitor field k :
  k ≠ field → serialize_field monitor field !! k = monitor !! k.
Proof.
  intros Hne. unfold serialize_field.
  destruct (strict_eq _ VUndef); [reflexivity |].
  destruct (is_string _); [reflexivity |].
  by rewrite lookup_insert_ne.
Qed.


Lemma serialize_fields_lookup_ne monitor k :
  k ∉ jsonFields → foldl serialize_field monitor jsonFields !! k = monitor !! k.
Proof.
  intros Hk. unfold jsonFields in *.
  repeat (apply not_elem_of_cons in Hk as [? Hk]).
  simpl. by rewrite !serialize_field_lookup_ne.
Qed.



(** ** The removal loop *)

Lemma remove_all_cons E names b rest r w :
  remove_all E names (b :: rest) r w
  = remove_all E names rest (remove_monitor E names b r w).1
                            (remove_monitor E names b r w).2.
Proof.
  unfold remove_all. simpl. by destruct (remove_monitor E names b r w).
Qed.

Lemma remove_all_app E names pre post r w :
  remove_all E names (pre ++ post) r w
  = remove_all E names post (remove_all E names pre r w).1
                            (remove_all E names pre r w).2.
Proof.
  unfold remove_all. rewrite foldl_app.
  by destruct (foldl _ (r, w) pre).
Qed.

Lemma remove_monitor_listed E names b r w :
  has_name names b = true → remove_monitor E names b r w = (r, w).
Proof. intros H. unfold remove_monitor. by rewrite H. Qed.

(** One unlisted record, in full. *)
Lemma remove_monitor_unlisted E names b k r w :
  id b = Some k → has_name names b = false →
  remove_monitor E names b r w =
    match stop_failure E w k with
    | Some msg =>
        (push_error (removal_error b msg) r,
         log Error (removal_error b msg) (emit (TaskStop k false) w))
    | None =>
        let w1 :=
          match monitorList w !! k with
          | Some _ => set_monitorList (delete k (monitorList w)) (emit (TaskStop k true) w)
          | None => w
          end in
        match trash_error E b with
        | Some msg =>
            (push_error (removal_error b msg) r,
             log Error (removal_error b msg) (emit (DbTrash b false) w1))
        | None =>
            (mkResult (added r) (updated r) (S (removed r)) (result_errors r),
             log Info ("Removed monitor: " +:+ to_string (bean_get b "name"))
               (emit (DbTrash b true)
                  (set_db (mkDb (rows_without k (rows (db w1))) (next_id (db w1))) w1)))
        end
    end.
Proof.
  intros Hid Hname. unfold remove_monitor, stop_failure. rewrite Hname, Hid.
  destruct (monitorList w !! k) as [h|] eqn:Hk; simpl.
  - unfold stop. destruct (stop_error E h) as [msg|]; [reflexivity |].
    unfold R_trash. destruct (trash_error E b); [reflexivity |].
    rewrite Hid. reflexivity.
  - unfold R_trash. destruct (trash_error E b); [reflexivity |].
    rewrite Hid. reflexivity.
Qed.

Lemma remove_monitor_counts E names b r w :
  let r' := (remove_monitor E names b r w).1 in
  added r' = added r ∧ updated r' = updated r ∧
  (removed r' + length (result_errors r')
   = removed r + length (result_errors r) + (if unlisted names b then 1 else 0))%nat.
Proof.
  unfold unlisted, remove_monitor.
  destruct (has_name names b); simpl; [repeat split; lia |].
  repeat match goal with
         | |- context [match ?x with _ => _ end] => destruct x; simpl
         end;
    rewrite ?length_app; simpl; repeat split; lia.
Qed.

Lemma remove_all_counts E names existing : ∀ r w,
  let r' := (remove_all E names existing r w).1 in
  added r' = added r ∧ updated r' = updated r ∧
  (removed r' + length (result_errors r')
   = removed r + length (result_errors r)
     + length (List.filter (unlisted names) existing))%nat.
Proof.
  induction existing as [|b rest IH]; intros r w; simpl.
  - repeat split; lia.
  - rewrite remove_all_cons.
    destruct (IH (remove_monitor E names b r w).1 (remove_monitor E names b r w).2)
      as (A & U & C).
    destruct (remove_monitor_counts E names b r w) as (A' & U' & C').
    simpl in *. repeat split; [congruence | congruence |].
    destruct (unlisted names b); simpl; lia.
Qed.

Lemma remove_all_turns E names existing r w pre b post :
  existing = (pre ++ b :: post)%list →
  remove_all E names existing r w
  = remove_all E names post
      (remove_monitor E names b (remove_all E names pre r w).1
                                (remove_all E names pre r w).2).1
      (remove_monitor E names b (remove_all E names pre r w).1
                                (remove_all E names pre r w).2).2.
Proof. intros ->. rewrite remove_all_app, remove_all_cons. reflexivity. Qed.

Lemma remove_monitor_turn E names b k rb wb :
  id b = Some k → unlisted names b = true → removal_turn E names b k rb wb.
Proof.
  intros Hid Hun. unfold removal_turn, unlisted in *.
  apply negb_true_iff in Hun.
  rewrite (remove_monitor_unlisted E names b k rb wb Hid Hun).
  destruct (stop_failure E wb k) as [msg|] eqn:Hstop; simpl; [auto |].
  assert (Hreg : monitorList
                   match monitorList wb !! k with
                   | Some _ => set_monitorList (delete k (monitorList wb))
                                 (emit (TaskStop k true) wb)
                   | None => wb
                   end = delete k (monitorList wb)).
  { destruct (monitorList wb !! k) eqn:Hk; simpl; [reflexivity |].
    symmetry. by apply delete_id. }
  destruct (trash_error E b) as [msg|]; simpl.
  - split; [exact Hreg |]. split.
    + intros [h Hh]. rewrite Hh. simpl. auto.
    + split; [reflexivity |]. by destruct (monitorList wb !! k).
  - split; [exact Hreg |]. split.
    + intros [h Hh]. rewrite Hh. simpl. auto.
    + split; [reflexivity |]. split; [| auto].
      by destruct (monitorList wb !! k).
Qed.

(** ** The cycle after the gate *)

Lemma log_summary_db r w : db (log_summary r w) = db w.
Proof. unfold log_summary. by destruct (Nat.ltb _ _). Qed.

Lemma log_summary_monitorList r w : monitorList (log_summary r w) = monitorList w.
Proof. unfold log_summary. by destruct (Nat.ltb _ _). Qed.

Lemma sync_declared E userId w w1 config items :
  readConfigFile E w = (Some config, w1) →
  get_prop config "monitors" = VArr items →
  validate_from items 0 [] = Normal [] →
  syncConfigMonitors E userId w =
    let '(existing, w2) := R_find userId (log Info (found_message (VArr items)) w1) in
    let '(r1, w3) := process_all E userId items empty_result w2 in
    let '(r2, w4) := remove_all E (names_of items) existing r1 w3 in
    (Normal r2, log_summary r2 w4).
Proof.
  intros Hread Hmon Hval. unfold syncConfigMonitors.
  rewrite Hread, Hmon. simpl truthy. cbv iota.
  rewrite loop_items_array. simpl result_errors. rewrite Hval. reflexivity.
Qed.

Lemma filter_none {A} (f : A → bool) (l : list A) :
  (∀ x, In x l → f x = false) → List.filter f l = [].
Proof.
  induction l as [|x l IH]; intros H; simpl; [reflexivity |].
  rewrite (H x) by (left; reflexivity). apply IH. intros y Hy. apply H. by right.
Qed.

(** A removal loop in which nothing throws removes every record it is given. *)
Lemma remove_all_succeeds E names : ∀ existing r w,
  Forall (fun b => unlisted names b = true ∧ is_Some (id b) ∧ trash_error E b = None)
         existing →
  (∀ b k h, In b existing → id b = Some k → monitorList w !! k = Some h →
            stop_error E h = None) →
  (remove_all E names existing r w).1
    = mkResult (added r) (updated r) (removed r + length existing) (result_errors r) ∧
  monitorList (remove_all E names existing r w).2 ⊆ monitorList w ∧
  (∀ row, In row (rows (db (remove_all E names existing r w).2)) →
          In row (rows (db w)) ∧ ∀ b, In b existing → id b ≠ Some row.1).
Proof.
  induction existing as [|b rest IH]; intros r w Hall Hstop.
  - simpl. split; [| split].
    + destruct r; simpl. f_equal. lia.
    + reflexivity.
    + intros row Hrow. split; [exact Hrow |]. intros b [].
  - rewrite remove_all_cons.
    apply Forall_cons in Hall as [(Hun & [k Hid] & Htrash) Hall].
    unfold unlisted in Hun. apply negb_true_iff in Hun.
    rewrite (remove_monitor_unlisted E names b k r w Hid Hun).
    assert (Hnostop : stop_failure E w k = None).
    { unfold stop_failure. destruct (monitorList w !! k) as [h|] eqn:Hk; [| reflexivity].
      simpl. apply (Hstop b k h); auto. by left. }
    rewrite Hnostop, Htrash. cbv zeta. cbn [fst snd].
    set (w1 := match monitorList w !! k with
               | Some _ => set_monitorList (delete k (monitorList w)) (emit (TaskStop k true) w)
               | None => w
               end).
    assert (Hreg : monitorList w1 ⊆ monitorList w).
    { subst w1. destruct (monitorList w !! k); simpl; [apply delete_subseteq | reflexivity]. }
    assert (Hdb : db w1 = db w) by (subst w1; by destruct (monitorList w !! k)).
    set (r2 := mkResult _ _ _ _). set (w2 := log _ _ _).
    destruct (IH r2 w2 Hall) as (Hr & Hm & Hrows).
    { intros b' k' h' Hin Hid' Hh'. apply (Hstop b' k' h'); [by right | exact Hid' |].
      eapply lookup_weaken; [exact Hh' | exact Hreg]. }
    split; [| split].
    + rewrite Hr. subst r2. simpl. f_equal. lia.
    + etrans; [exact Hm | exact Hreg].
    + intros row Hrow. destruct (Hrows row Hrow) as [Hin Hne].
      subst w2. simpl in Hin. unfold rows_without in Hin.
      apply filter_In in Hin as [Hin Hk]. rewrite Hdb in Hin.
      split; [exact Hin |].
      intros b' [<- | Hb']; [| by apply Hne].
      rewrite Hid. intros Heq. rewrite bool_decide_eq_true_2 in Hk by congruence.
      discriminate.
Qed.

Lemma managed_rows_beans userId d b :
  In b (map row_bean (managed_rows userId d)) →
  ∃ row, b = row_bean row ∧ In row (rows d) ∧ is_managed_by userId row.2 = true.
Proof.
  intros Hin. apply in_map_iff in Hin as (row & <- & Hrow).
  apply filter_In in Hrow as [Hrow Hm]. eauto.
Qed.

(** C9.  The file exists and loads, and the document is falsy (an empty
    file) or has no truthy [monitors].  Then [readConfigFile] returns a
    config with an empty monitor list and logs one warning, no error; and,
    when no [stop()] and no [R.trash] of the owner's managed records throws,
    [syncConfigMonitors] returns added = updated = 0, no error, [removed]
    equal to the number of the owner's managed records, and leaves the owner
    no managed record. *)
Theorem sync_empty_document (E : Env) (userId : Z) (w : World)
    (filePath : string) (doc : value) :
  (getConfigFilePath E w).1 = Some filePath →
  fs_file E filePath = Some (Loaded doc) →
  truthy doc = false ∨ truthy (get_prop doc "monitors") = false →
  (∀ row, In row (managed_rows userId (db w)) →
          trash_error E (row_bean row) = None ∧
          ∀ h, monitorList w !! row.1 = Some h → stop_error E h = None) →
  (readConfigFile E w).1 = Some empty_config ∧
  get_prop empty_config "monitors" = VArr [] ∧
  trace (readConfigFile E w).2
    = Log Warn "Config file found but no 'monitors' section defined" :: trace w ∧
  ∃ r w', syncConfigMonitors E userId w = (Normal r, w') ∧
          added r = 0%nat ∧ updated r = 0%nat ∧
          removed r = length (managed_rows userId (db w)) ∧
          result_errors r = [] ∧
          managed_rows userId (db w') = [].
Proof.
  intros Hpath Hload Hempty Hok.
  pose proof (getConfigFilePath_only_logged E w) as (Hd0 & Hm0 & _).
  assert (Ht0 : trace (getConfigFilePath E w).2 = trace w).
  { unfold getConfigFilePath.
    destruct (path_truthy (configFilePath w)); [reflexivity |].
    destruct (path_truthy (env_MONITORS_YAML_PATH E)); reflexivity. }
  assert (Hread : readConfigFile E w
            = (Some empty_config,
               log Warn "Config file found but no 'monitors' section defined"
                   (getConfigFilePath E w).2)).
  { unfold readConfigFile.
    destruct (getConfigFilePath E w) as [p w0]. simpl in Hpath. subst p.
    rewrite Hload.
    destruct Hempty as [-> | ->]; simpl; [reflexivity |].
    by rewrite orb_true_r. }
  rewrite Hread. simpl fst. simpl snd.
  split; [reflexivity |]. split; [reflexivity |].
  split; [simpl; by rewrite Ht0 |].
  rewrite (sync_declared E userId w _ empty_config [] Hread eq_refl eq_refl).
  unfold R_find, process_all. simpl foldl. cbv zeta. cbn [fst snd db emit log].
  rewrite Hd0.
  set (existing := map row_bean (managed_rows userId (db w))).
  set (w2 := emit _ _).
  destruct (remove_all_succeeds E (names_of []) existing empty_result w2)
    as (Hr & _ & Hrows).
  { apply Forall_forall. intros b Hb. subst existing.
    apply list_elem_of_In, managed_rows_beans in Hb as (row & -> & Hin & Hman).
    split; [reflexivity |]. split; [by eexists |].
    apply Hok. apply filter_In. auto. }
  { intros b k h Hb Hid Hh. subst existing.
    apply managed_rows_beans in Hb as (row & -> & Hin & Hman).
    simpl in Hid. injection Hid as <-.
    eapply (Hok row); [apply filter_In; auto |].
    subst w2. simpl in Hh. by rewrite Hm0 in Hh. }
  destruct (remove_all E (names_of []) existing empty_result w2) as [r2 w4] eqn:Hloop.
  simpl in Hr, Hrows. subst r2.
  eexists _, _. split; [reflexivity |].
  rewrite log_summary_db.
  simpl. split; [reflexivity |]. split; [reflexivity |].
  split; [subst existing; by rewrite length_map |].
  split; [reflexivity |].
  unfold managed_rows. apply filter_none.
  intros row Hrow. destruct (Hrows row Hrow) as [Hin Hne].
  subst w2. simpl in Hin. rewrite Hd0 in Hin.
  destruct (is_managed_by userId row.2) eqn:Hman; [| reflexivity].
  exfalso. apply (Hne (row_bean row)); [| reflexivity].
  subst existing. apply in_map. apply filter_In. auto.
Qed.

Lemma sync_empty_document_witness :
  (readConfigFile (env_with (Some (Loaded VNull))) seeded_world).1 = Some empty_config ∧
  get_prop empty_config "monitors" = VArr [] ∧
  trace (readConfigFile (env_with (Some (Loaded VNull))) seeded_world).2
    = Log Warn "Config file found but no 'monitors' section defined" :: trace seeded_world ∧
  ∃ r w', syncConfigMonitors (env_with (Some (Loaded VNull))) 1 seeded_world = (Normal r, w') ∧
          added r = 0%nat ∧ updated r = 0%nat ∧
          removed r = length (managed_rows 1 (db seeded_world)) ∧
          result_errors r = [] ∧
          managed_rows 1 (db w') = [].
Proof.
  apply (sync_empty_document (env_with (Some (Loaded VNull))) 1 seeded_world
           sample_path VNull).
  - vm_compute. reflexivity.
  - reflexivity.
  - left. reflexivity.
  - intros row _. split; [reflexivity | intros h _; reflexivity].
Defined.

(** ** Live tasks *)







Lemma tc_set_path live0 p w :
  tasks_consistent live0 w → tasks_consistent live0 (set_configFilePath p w).
Proof. intros H. exact H. Qed.














Lemma configToMonitorBean_plain config userId k :
  k ∉ rewritten_keys →
  configToMonitorBean config userId !! k = declared_or_default config k.
Proof.
  intros Hk. unfold rewritten_keys in Hk.
  do 4 (apply not_elem_of_cons in Hk as [? Hk]).
  unfold configToMonitorBean.
  rewrite !lookup_insert_ne by done.
  rewrite serialize_fields_lookup_ne by exact Hk.
  rewrite lookup_delete_ne by done.
  rewrite <- declared_or_default_union.
  destruct (is_array _); [by rewrite lookup_insert_ne |].
  destruct (is_string _); [by rewrite lookup_insert_ne | reflexivity].
Qed.

Ltac not_listed :=
  let H := fresh in
  intros H; repeat (apply elem_of_cons in H as [H | H]; [discriminate |]);
  by apply elem_of_nil in H.

(** A key other than [id] that the bean data has is what the bean carries
    after the import. *)
Lemma import_data_get data b0 k :
  k ≠ "id" → is_Some (data !! k) →
  bean_get (import_data data b0) k = obj_get data k.
Proof.
  intros Hk [x Hx]. unfold bean_get, obj_get, import_data. simpl.
  rewrite Hx. erewrite lookup_union_Some_l; [reflexivity |].
  by rewrite lookup_delete_ne.
Qed.

Lemma import_active config userId b0 :
  bean_get (import_data (configToMonitorBean config userId) b0) "active"
  = obj_get (configToMonitorBean config userId) "active".
Proof.
  apply import_data_get; [discriminate |].
  rewrite configToMonitorBean_plain by (unfold rewritten_keys, jsonFields; not_listed).
  unfold declared_or_default. destruct (own_props config !! "active"); [by eexists |].
  rewrite default_active. by eexists.
Qed.

Ltac prefix_of l t :=
  lazymatch l with
  | t => constr:(@nil event)
  | ?e :: ?l' => let p := prefix_of l' t in constr:(e :: p)
  end.

Ltac exists_new :=
  lazymatch goal with
  | |- ∃ new, ?l = (new ++ ?t)%list ∧ _ =>
      let p := prefix_of l t in exists p; split; [reflexivity |]
  end.

Lemma start_if_active_tasks E d k bean r w :
  ∃ new, trace (start_if_active E d k bean r w).2 = (new ++ trace w)%list ∧
    if truthy (bean_get bean "active") then
      match monitorList w !! k with
      | None =>
          ∃ ok, task_calls new = [TaskStart k ok] ∧
                monitorList (start_if_active E d k bean r w).2 = <[k := bean]> (monitorList w)
      | Some _ =>
          (∃ ok, task_calls new = [TaskStop k true; TaskStart k ok] ∧
                 monitorList (start_if_active E d k bean r w).2
                   = <[k := bean]> (monitorList w)) ∨
          (task_calls new = [TaskStop k false] ∧
           monitorList (start_if_active E d k bean r w).2 = monitorList w)
      end
    else new = [] ∧ monitorList (start_if_active E d k bean r w).2 = monitorList w.
Proof.
  unfold start_if_active.
  destruct (truthy (bean_get bean "active")); [| by exists []].
  destruct (monitorList w !! k) as [h|]; unfold stop, start, processing_failed.
  - destruct (stop_error E h).
    + cbn [fst snd trace log emit set_monitorList monitorList]. exists_new. right. by split.
    + destruct (start_error E bean);
        cbn [fst snd trace log emit set_monitorList monitorList];
        exists_new; left; eexists; by split.
  - destruct (start_error E bean);
      cbn [fst snd trace log emit set_monitorList monitorList];
      exists_new; eexists; by split.
Qed.

Lemma task_calls_app new old :
  Forall (fun e => is_task_event e = false) old →
  task_calls (new ++ old) = task_calls new.
Proof.
  intros H. unfold task_calls. rewrite List.filter_app.
  rewrite (filter_none is_task_event old), app_nil_r; [reflexivity |].
  intros e He. rewrite Forall_forall in H. apply H. by apply list_elem_of_In.
Qed.

Lemma task_discipline_quiet active w w' old :
  trace w' = (old ++ trace w)%list →
  Forall (fun e => is_task_event e = false) old →
  monitorList w' = monitorList w →
  task_discipline active w w'.
Proof.
  intros Ht Hold Hm. exists old. split; [exact Ht |].
  assert (Hc : task_calls old = []) by (apply (task_calls_app [] old Hold)).
  destruct active; [left |]; by split.
Qed.

Lemma process_monitor_tasks E userId d r w :
  task_discipline (truthy (obj_get (configToMonitorBean d userId) "active"))
                  w (process_monitor E userId d r w).2.
Proof.
  unfold process_monitor, findOrCreateMonitor, R_findOne. cbv beta iota zeta.
  set (data := configToMonitorBean d userId).
  set (w1 := emit (DbFindOne (get_prop d "name") userId) w).
  assert (Hfinish : ∀ k bean r3 w3 (old : list event),
            bean_get bean "active" = obj_get data "active" →
            trace w3 = (old ++ trace w)%list →
            Forall (fun e => is_task_event e = false) old →
            monitorList w3 = monitorList w →
            task_discipline (truthy (obj_get data "active")) w
                            (start_if_active E d k bean r3 w3).2).
  { intros k bean r3 w3 old Hact Htr Hold Hml.
    destruct (start_if_active_tasks E d k bean r3 w3) as (new & Hnew & Hshape).
    exists (new ++ old)%list. split; [by rewrite Hnew, Htr, app_assoc |].
    rewrite task_calls_app by exact Hold.
    rewrite Hml in Hshape. rewrite <- Hact.
    destruct (truthy (bean_get bean "active")) eqn:Htruthy.
    - right. exists k, bean. split; [exact Htruthy | exact Hshape].
    - destruct Hshape as [-> Hm]. by split. }
  assert (Hbody : ∀ b0 : Bean,
    task_discipline (truthy (obj_get data "active")) w
      (let isNew := negb (bool_decide (is_Some (id b0))) in
       let bean := import_data data b0 in
       match bean_validate E bean with
       | Some msg => processing_failed d msg r w1
       | None =>
           match R_store E bean w1 with
           | (Throw msg, w2) => processing_failed d msg r w2
           | (Normal (k, bean), w2) =>
               let '(result, w3) :=
                 if isNew then
                   (mkResult (S (added r)) (updated r) (removed r) (result_errors r),
                    log Info ("Added monitor: " +:+ to_string (bean_get bean "name")) w2)
                 else
                   (mkResult (added r) (S (updated r)) (removed r) (result_errors r),
                    log Info ("Updated monitor: " +:+ to_string (bean_get bean "name")) w2) in
               start_if_active E d k bean result w3
           end
       end).2).
  { intros b0. cbv zeta. unfold processing_failed.
    destruct (bean_validate E _).
    { eapply (task_discipline_quiet _ _ _ [_; _]);
        [reflexivity | repeat constructor | reflexivity]. }
    unfold R_store. destruct (store_error E _).
    { eapply (task_discipline_quiet _ _ _ [_; _; _]);
        [reflexivity | repeat constructor | reflexivity]. }
    destruct (id (import_data data b0)) as [k|] eqn:Hid; destruct (negb _);
      (eapply (Hfinish _ _ _ _ [_; _; _]);
       [ apply (import_active d userId b0)
       | reflexivity
       | repeat constructor
       | reflexivity ]). }
  destruct (List.find _ _) as [row|]; simpl fmap; cbv beta iota; apply Hbody.
Qed.


(** ** Idempotence *)

Lemma sql_eq_string x s : sql_eq x (VStr s) = true → x = VStr s.
Proof.
  unfold sql_eq. destruct x as [| |[]|n|s'|l|f]; simpl; try discriminate.
  intros H. apply String.eqb_eq in H. by subst.
Qed.

Lemma sql_eq_string_refl s : sql_eq (VStr s) (VStr s) = true.
Proof. unfold sql_eq. simpl. apply String.eqb_refl. Qed.

Lemma matches_string s userId row :
  matches (VStr s) userId row = true →
  obj_get row.2 "name" = VStr s ∧ is_managed_by userId row.2 = true.
Proof.
  unfold matches. intros H. apply andb_true_iff in H as [H1 H2].
  split; [by apply sql_eq_string | exact H2].
Qed.

Lemma find_matches name userId l row :
  List.find (matches name userId) l = Some row →
  In row l ∧ matches name userId row = true.
Proof. apply find_some. Qed.

Lemma string_name_own d s :
  get_prop d "name" = VStr s → own_props d !! "name" = Some (VStr s).
Proof.
  destruct d; simpl; try discriminate.
  destruct (list_to_map fields !! "name") eqn:H; simpl; [congruence | discriminate].
Qed.

Lemma default_name : MONITOR_DEFAULTS !! "name" = None.
Proof. vm_compute. reflexivity. Qed.

Lemma configToMonitorBean_name d userId s :
  get_prop d "name" = VStr s →
  configToMonitorBean d userId !! "name" = Some (VStr s).
Proof.
  intros H. rewrite configToMonitorBean_plain
    by (unfold rewritten_keys, jsonFields; not_listed).
  unfold declared_or_default. by rewrite (string_name_own d s H).
Qed.

Lemma configToMonitorBean_managed d userId :
  is_managed_by userId (configToMonitorBean d userId) = true.
Proof.
  unfold is_managed_by, obj_get, configToMonitorBean.
  rewrite lookup_insert_ne by discriminate. rewrite lookup_insert_eq.
  rewrite lookup_insert_eq. unfold sql_eq. simpl. by rewrite Z.eqb_refl.
Qed.

(** The columns of the bean after the import: the declared name, the owner
    and the managed flag. *)
Lemma import_data_matches d userId s b0 k :
  get_prop d "name" = VStr s →
  matches (VStr s) userId (k, props (import_data (configToMonitorBean d userId) b0)) = true.
Proof.
  intros Hs. unfold matches, is_managed_by. cbn [snd].
  pose proof (configToMonitorBean_managed d userId) as Hm.
  unfold is_managed_by in Hm.
  assert (Hget : ∀ key, key ≠ "id" → is_Some (configToMonitorBean d userId !! key) →
            obj_get (props (import_data (configToMonitorBean d userId) b0)) key
            = obj_get (configToMonitorBean d userId) key).
  { intros key Hk Hsome. apply (import_data_get _ b0 key Hk Hsome). }
  rewrite !Hget.
  - unfold obj_get at 1. rewrite (configToMonitorBean_name d userId s Hs).
    cbn [default from_option Datatypes.id]. rewrite sql_eq_string_refl. exact Hm.
  - discriminate.
  - unfold configToMonitorBean. rewrite lookup_insert_eq. by eexists.
  - discriminate.
  - unfold configToMonitorBean. rewrite lookup_insert_ne by discriminate.
    rewrite lookup_insert_eq. by eexists.
  - discriminate.
  - rewrite (configToMonitorBean_name d userId s Hs). by eexists.
Qed.

Lemma start_if_active_frame E d k bean r w :
  db (start_if_active E d k bean r w).2 = db w ∧
  added (start_if_active E d k bean r w).1 = added r ∧
  updated (start_if_active E d k bean r w).1 = updated r ∧
  removed (start_if_active E d k bean r w).1 = removed r.
Proof.
  unfold start_if_active, stop, start, processing_failed.
  destruct (truthy _); [| done].
  destruct (monitorList w !! k) as [h|]; [destruct (stop_error E h) |];
    try destruct (start_error E bean); done.
Qed.

(** What one turn of the processing loop does to the table and to the
    counts. *)
Lemma process_monitor_db E userId d r w :
  let bean := import_data (configToMonitorBean d userId) (lookup_bean userId (db w) d) in
  removed (process_monitor E userId d r w).1 = removed r ∧
  if stores E bean then
    match id bean with
    | Some k =>
        db (process_monitor E userId d r w).2
          = mkDb (map (update_row k (props bean)) (rows (db w))) (next_id (db w)) ∧
        added (process_monitor E userId d r w).1 = added r
    | None =>
        db (process_monitor E userId d r w).2
          = mkDb (rows (db w) ++ [(next_id (db w), props bean)]) (Pos.succ (next_id (db w))) ∧
        added (process_monitor E userId d r w).1 = S (added r)
    end
  else db (process_monitor E userId d r w).2 = db w ∧
       added (process_monitor E userId d r w).1 = added r.
Proof.
  unfold process_monitor, findOrCreateMonitor, R_findOne, lookup_bean, stores.
  cbv beta iota zeta. cbn [db emit].
  assert (Hframe : ∀ k b r3 w3,
            removed (start_if_active E d k b r3 w3).1 = removed r3 ∧
            db (start_if_active E d k b r3 w3).2 = db w3 ∧
            added (start_if_active E d k b r3 w3).1 = added r3).
  { intros k b r3 w3. pose proof (start_if_active_frame E d k b r3 w3). tauto. }
  destruct (List.find _ (rows (db w))) as [[k p]|]; simpl fmap; cbv beta iota;
    set (bean := import_data _ _);
    (destruct (bean_validate E bean); [done |]);
    unfold R_store; (destruct (store_error E bean); [done |]).
  - change (id bean) with (Some k).
    rewrite bool_decide_eq_true_2 by eauto. cbn [negb]. cbv beta iota zeta.
    match goal with
    | |- context [start_if_active E d ?k ?b ?r ?w] =>
        destruct (Hframe k b r w) as (Hr & Hd & Ha); rewrite Hd, Ha, Hr
    end. done.
  - change (id bean) with (@None positive).
    rewrite bool_decide_eq_false_2 by (intros [? ?]; discriminate).
    cbn [negb]. cbv beta iota zeta.
    match goal with
    | |- context [start_if_active E d ?k ?b ?r ?w] =>
        destruct (Hframe k b r w) as (Hr & Hd & Ha); rewrite Hd, Ha, Hr
    end. done.
Qed.

Lemma process_monitor_cases E userId d r w :
  let found := List.find (matches (get_prop d "name") userId) (rows (db w)) in
  let data := configToMonitorBean d userId in
  (db (process_monitor E userId d r w).2 = db w ∧
   added (process_monitor E userId d r w).1 = added r ∧
   (found = None → stores E (fresh_bean d userId) = false)) ∨
  (∃ k p, found = Some (k, p) ∧
          db (process_monitor E userId d r w).2
            = mkDb (map (update_row k (props (import_data data (row_bean (k, p)))))
                        (rows (db w)))
                   (next_id (db w)) ∧
          added (process_monitor E userId d r w).1 = added r) ∨
  (found = None ∧ stores E (fresh_bean d userId) = true ∧
   db (process_monitor E userId d r w).2
     = mkDb (rows (db w) ++ [(next_id (db w), props (fresh_bean d userId))])
            (Pos.succ (next_id (db w))) ∧
   added (process_monitor E userId d r w).1 = S (added r)).
Proof.
  intros found data.
  destruct (process_monitor_db E userId d r w) as [_ H].
  unfold lookup_bean in H. fold found in H. fold data in H.
  destruct found as [[k p]|] eqn:Hfound.
  - destruct (stores E _).
    + right; left. exists k, p. split; [reflexivity | exact H].
    + left. destruct H as [H1 H2]. repeat split; [exact H1 | exact H2 | discriminate].
  - change (import_data data R_dispense) with (fresh_bean d userId) in H.
    destruct (stores E (fresh_bean d userId)) eqn:Hs.
    + right; right. split; [reflexivity |]. split; [reflexivity | exact H].
    + left. destruct H as [H1 H2]. by repeat split.
Qed.

Lemma nodup_fst_eq {A B} (l : list (A * B)) k p1 p2 :
  NoDup (map fst l) → In (k, p1) l → In (k, p2) l → p1 = p2.
Proof.
  induction l as [|[k' p'] l IH]; intros Hnd H1 H2; [destruct H1 |].
  simpl in Hnd. apply NoDup_cons in Hnd as [Hnotin Hnd].
  destruct H1 as [H1 | H1], H2 as [H2 | H2].
  - congruence.
  - injection H1 as -> ->. exfalso. apply Hnotin.
    apply list_elem_of_In. apply (in_map fst) in H2. exact H2.
  - injection H2 as -> ->. exfalso. apply Hnotin.
    apply list_elem_of_In. apply (in_map fst) in H1. exact H1.
  - by apply IH.
Qed.

Lemma update_row_fst k p row : (update_row k p row).1 = row.1.
Proof.
  unfold update_row. destruct (Pos.eqb_spec row.1 k); [by subst | reflexivity].
Qed.

Lemma wf_update k p d :
  wf_db d → wf_db (mkDb (map (update_row k p) (rows d)) (next_id d)).
Proof.
  intros [Hnd Hlt]. split; simpl.
  - rewrite map_map. erewrite map_ext; [exact Hnd |]. intros row. apply update_row_fst.
  - apply Forall_forall. intros row Hrow.
    apply list_elem_of_In, in_map_iff in Hrow as (row0 & <- & Hin).
    rewrite update_row_fst. rewrite Forall_forall in Hlt.
    apply Hlt. by apply list_elem_of_In.
Qed.

Lemma wf_insert p d :
  wf_db d → wf_db (mkDb (rows d ++ [(next_id d, p)]) (Pos.succ (next_id d))).
Proof.
  intros [Hnd Hlt]. split; simpl.
  - rewrite map_app. simpl. apply NoDup_app. split; [exact Hnd |]. split.
    + intros k Hk Hk'. apply list_elem_of_In in Hk. apply in_map_iff in Hk as (row & <- & Hin).
      apply list_elem_of_singleton in Hk'.
      rewrite Forall_forall in Hlt. specialize (Hlt row (proj2 (list_elem_of_In _ _) Hin)).
      lia.
    + apply NoDup_singleton.
  - apply Forall_app. split.
    + eapply Forall_impl; [exact Hlt |]. intros row Hrow. simpl in *. lia.
    + constructor; [simpl; lia | constructor].
Qed.

Lemma wf_filter f d :
  wf_db d → wf_db (mkDb (List.filter f (rows d)) (next_id d)).
Proof.
  intros [Hnd Hlt]. split; simpl.
  - clear Hlt. induction (rows d) as [|row l IH]; simpl; [constructor |].
    simpl in Hnd. apply NoDup_cons in Hnd as [Hnotin Hnd].
    destruct (f row); [| by apply IH]. simpl. apply NoDup_cons. split; [| by apply IH].
    intros Hin. apply Hnotin. apply list_elem_of_In in Hin.
    apply in_map_iff in Hin as (row' & Heq & Hin). apply filter_In in Hin as [Hin _].
    apply list_elem_of_In. rewrite <- Heq. by apply in_map.
  - apply Forall_forall. intros row Hrow. rewrite Forall_forall in Hlt.
    apply Hlt. apply list_elem_of_In in Hrow. apply filter_In in Hrow as [Hrow _].
    by apply list_elem_of_In.
Qed.

Lemma process_monitor_wf E userId d r w :
  wf_db (db w) → wf_db (db (process_monitor E userId d r w).2).
Proof.
  intros Hwf.
  destruct (process_monitor_cases E userId d r w)
    as [(-> & _) | [(k & p & _ & -> & _) | (_ & _ & -> & _)]];
    [exact Hwf | by apply wf_update | by apply wf_insert].
Qed.

Lemma start_if_active_handle E d k bean r w k0 h :
  monitorList w !! k0 = Some h → stop_error E h ≠ None →
  monitorList (start_if_active E d k bean r w).2 !! k0 = Some h.
Proof.
  intros Hh Hstop. unfold start_if_active, stop, start, processing_failed.
  destruct (truthy _); [| exact Hh].
  destruct (decide (k = k0)) as [-> | Hne].
  - rewrite Hh. destruct (stop_error E h); [exact Hh | congruence].
  - destruct (monitorList w !! k) as [h'|]; [destruct (stop_error E h') |];
      try destruct (start_error E bean); cbn [fst snd monitorList log emit set_monitorList];
      rewrite ?lookup_insert_ne by exact Hne; exact Hh.
Qed.

Lemma process_monitor_handle E userId d r w k0 h :
  monitorList w !! k0 = Some h → stop_error E h ≠ None →
  monitorList (process_monitor E userId d r w).2 !! k0 = Some h.
Proof.
  intros Hh Hstop. unfold process_monitor, findOrCreateMonitor, R_findOne.
  cbv beta iota zeta.
  set (w1 := emit (DbFindOne (get_prop d "name") userId) w).
  assert (Hbody : ∀ b0 : Bean,
    monitorList
      (let isNew := negb (bool_decide (is_Some (id b0))) in
       let bean := import_data (configToMonitorBean d userId) b0 in
       match bean_validate E bean with
       | Some msg => processing_failed d msg r w1
       | None =>
           match R_store E bean w1 with
           | (Throw msg, w2) => processing_failed d msg r w2
           | (Normal (k, bean), w2) =>
               let '(result, w3) :=
                 if isNew then
                   (mkResult (S (added r)) (updated r) (removed r) (result_errors r),
                    log Info ("Added monitor: " +:+ to_string (bean_get bean "name")) w2)
                 else
                   (mkResult (added r) (S (updated r)) (removed r) (result_errors r),
                    log Info ("Updated monitor: " +:+ to_string (bean_get bean "name")) w2) in
               start_if_active E d k bean result w3
           end
       end).2 !! k0 = Some h).
  { intros b0. cbv zeta. unfold processing_failed.
    destruct (bean_validate E _); [exact Hh |].
    unfold R_store. destruct (store_error E _); [exact Hh |].
    destruct (id (import_data _ b0)); destruct (negb _);
      apply start_if_active_handle; try exact Hstop; exact Hh. }
  destruct (List.find _ _) as [row|]; simpl fmap; cbv beta iota; apply Hbody.
Qed.

Lemma process_monitor_stuck E userId d r w b :
  stuck E (monitorList w) b →
  stuck E (monitorList (process_monitor E userId d r w).2) b.
Proof.
  intros [Ht | (k & h & Hid & Hh & Hs)]; [by left | right].
  exists k, h. split; [exact Hid |]. split; [| exact Hs].
  by apply process_monitor_handle.
Qed.

Lemma remove_monitor_handle E names b r w k0 h :
  monitorList w !! k0 = Some h → stop_error E h ≠ None →
  monitorList (remove_monitor E names b r w).2 !! k0 = Some h.
Proof.
  intros Hh Hstop. unfold remove_monitor.
  destruct (has_name names b); [exact Hh |].
  unfold R_trash, removing_failed, stop.
  destruct (id b) as [k|]; [| by destruct (trash_error E b)].
  destruct (decide (k = k0)) as [-> | Hne].
  - rewrite Hh. destruct (stop_error E h); [exact Hh | congruence].
  - destruct (monitorList w !! k) as [h'|]; [destruct (stop_error E h') |];
      try destruct (trash_error E b);
      cbn [fst snd monitorList log emit set_monitorList set_db];
      rewrite ?lookup_delete_ne by exact Hne; exact Hh.
Qed.

Lemma remove_monitor_stuck E names b r w b0 :
  stuck E (monitorList w) b0 →
  stuck E (monitorList (remove_monitor E names b r w).2) b0.
Proof.
  intros [Ht | (k & h & Hid & Hh & Hs)]; [by left | right].
  exists k, h. split; [exact Hid |]. split; [| exact Hs].
  by apply remove_monitor_handle.
Qed.

(** What one turn of the removal loop does to the table. *)
Lemma remove_monitor_rows E names b r w :
  next_id (db (remove_monitor E names b r w).2) = next_id (db w) ∧
  (rows (db (remove_monitor E names b r w).2) = rows (db w) ∧
   removed (remove_monitor E names b r w).1 = removed r ∧
   (unlisted names b = true → stuck E (monitorList (remove_monitor E names b r w).2) b)
   ∨
   unlisted names b = true ∧
   rows (db (remove_monitor E names b r w).2)
     = List.filter (fun row => negb (bool_decide (Some row.1 = id b))) (rows (db w))).
Proof.
  unfold remove_monitor, unlisted.
  destruct (has_name names b); [split; [reflexivity |]; left; by repeat split |].
  unfold R_trash, removing_failed, stop, stuck.
  destruct (id b) as [k|] eqn:Hid.
  - destruct (monitorList w !! k) as [h|] eqn:Hk;
      [destruct (stop_error E h) eqn:Hs |];
      try destruct (trash_error E b) eqn:Ht;
      cbn [fst snd db rows next_id monitorList log emit set_monitorList set_db];
      (split; [reflexivity |]);
      try (right; by split);
      left; (repeat split; try reflexivity); intros _;
      first [ left; congruence
            | right; exists k, h; repeat split; [exact Hk | congruence] ].
  - destruct (trash_error E b) eqn:Ht;
      cbn [fst snd db rows next_id monitorList log emit set_monitorList set_db];
      (split; [reflexivity |]);
      [left; (repeat split; try reflexivity); intros _; left; congruence
      | right; by split].
Qed.

Lemma remove_monitor_stuck_fails E names b r w :
  stuck E (monitorList w) b →
  removed (remove_monitor E names b r w).1 = removed r.
Proof.
  intros Hst. unfold remove_monitor.
  destruct (has_name names b); [reflexivity |].
  unfold R_trash, removing_failed, stop.
  destruct Hst as [Ht | (k & h & Hid & Hh & Hs)].
  - destruct (id b) as [k|]; [destruct (monitorList w !! k) as [h|];
      [destruct (stop_error E h) |] |];
      destruct (trash_error E b); done.
  - rewrite Hid, Hh. destruct (stop_error E h); done.
Qed.

Section Idempotence.

Variable E : Env.
Variable userId : Z.
Variable items : list value.
Hypothesis string_names :
  Forall (fun d => is_string (get_prop d "name") = true) items.

Lemma declared_name d : In d items → ∃ s, get_prop d "name" = VStr s.
Proof.
  intros Hd. rewrite Forall_forall in string_names.
  specialize (string_names d (proj2 (list_elem_of_In _ _) Hd)).
  destruct (get_prop d "name"); try discriminate. eauto.
Qed.

Lemma listed_string d s b :
  In d items → get_prop d "name" = VStr s → bean_get b "name" = VStr s →
  has_name (names_of items) b = true.
Proof.
  intros Hd Hs Hb. unfold has_name. apply existsb_exists.
  exists (VStr s). split.
  - rewrite <- Hs. unfold names_of. by apply (in_map (fun m => get_prop m "name")).
  - rewrite Hb. simpl. apply String.eqb_refl.
Qed.

Lemma matched_row_listed d s row :
  In d items → get_prop d "name" = VStr s →
  matches (VStr s) userId row = true →
  has_name (names_of items) (row_bean row) = true.
Proof.
  intros Hd Hs Hm. apply (listed_string d s); [exact Hd | exact Hs |].
  apply matches_string in Hm as [Hn _]. exact Hn.
Qed.

Lemma imported_row_listed d s b0 k :
  In d items → get_prop d "name" = VStr s →
  has_name (names_of items)
           (row_bean (k, props (import_data (configToMonitorBean d userId) b0))) = true.
Proof.
  intros Hd Hs. apply (matched_row_listed d s); [exact Hd | exact Hs |].
  by apply import_data_matches.
Qed.

Lemma update_row_hit k p p0 : update_row k p (k, p0) = (k, p).
Proof. unfold update_row. simpl. by rewrite Pos.eqb_refl. Qed.

Lemma update_row_miss k p row : row.1 ≠ k → update_row k p row = row.
Proof.
  intros H. unfold update_row. destruct (Pos.eqb_spec row.1 k); [done | reflexivity].
Qed.

Lemma process_monitor_settled d r w :
  wf_db (db w) → In d items →
  (∀ d0, settled E userId (db w) d0 →
         settled E userId (db (process_monitor E userId d r w).2) d0) ∧
  settled E userId (db (process_monitor E userId d r w).2) d.
Proof.
  intros [Hnd _] Hd. destruct (declared_name d Hd) as [s Hs].
  destruct (process_monitor_cases E userId d r w)
    as [(Hdb & _ & Hnone) | [(k & p & Hfound & Hdb & _) | (Hfound & _ & Hdb & _)]];
    rewrite Hdb; clear Hdb.
  - split; [auto |].
    destruct (List.find _ (rows (db w))) as [row|] eqn:Hfound.
    + left. exists row. by apply find_matches.
    + right. by apply Hnone.
  - rewrite Hs in Hfound. apply find_matches in Hfound as [Hin Hm].
    set (p' := props (import_data (configToMonitorBean d userId) (row_bean (k, p)))).
    assert (Hm' : matches (VStr s) userId (k, p') = true)
      by (by apply import_data_matches).
    assert (Hin' : In (k, p') (map (update_row k p') (rows (db w)))).
    { rewrite <- (update_row_hit k p' p). by apply in_map. }
    split.
    + intros d0 [(row0 & Hin0 & Hm0) | Hfail]; [left | by right].
      cbn [rows]. destruct (decide (row0.1 = k)) as [Hk | Hk].
      * exists (k, p'). split; [exact Hin' |].
        destruct row0 as [k0 p0]. simpl in Hk. subst k0.
        assert (p0 = p) by (eapply nodup_fst_eq; eauto). subst p0.
        apply matches_string in Hm as [Hn Hman].
        apply matches_string in Hm' as [Hn' Hman'].
        unfold matches in *. cbn [snd] in *. rewrite Hn', Hman'.
        rewrite Hn, Hman in Hm0. exact Hm0.
      * exists row0. split; [| exact Hm0].
        rewrite <- (update_row_miss k p' row0 Hk). by apply in_map.
    + left. exists (k, p'). split; [exact Hin' |]. by rewrite Hs.
  - split.
    + intros d0 [(row0 & Hin0 & Hm0) | Hfail]; [left | by right].
      exists row0. split; [| exact Hm0]. cbn [rows]. apply in_or_app. by left.
    + left. eexists. split; [cbn [rows]; apply in_or_app; right; left; reflexivity |].
      rewrite Hs. by apply import_data_matches.
Qed.

(** Rows whose name is not declared are not touched by the processing loop. *)
Lemma process_monitor_keeps_unlisted d r w row :
  wf_db (db w) → In d items →
  In row (rows (db w)) → has_name (names_of items) (row_bean row) = false →
  In row (rows (db (process_monitor E userId d r w).2)).
Proof.
  intros [Hnd _] Hd Hin Hun. destruct (declared_name d Hd) as [s Hs].
  destruct (process_monitor_cases E userId d r w)
    as [(Hdb & _) | [(k & p & Hfound & Hdb & _) | (_ & _ & Hdb & _)]];
    rewrite Hdb; clear Hdb; cbn [rows].
  - exact Hin.
  - rewrite Hs in Hfound. apply find_matches in Hfound as [Hin0 Hm].
    destruct (decide (row.1 = k)) as [Hk | Hk].
    + destruct row as [k0 p0]. simpl in Hk. subst k0.
      assert (p0 = p) by (eapply nodup_fst_eq; eauto). subst p0.
      rewrite (matched_row_listed d s (k, p) Hd Hs Hm) in Hun. discriminate.
    + erewrite <- (update_row_miss k _ row Hk). by apply in_map.
  - apply in_or_app. by left.
Qed.

Lemma process_monitor_unlisted_old d r w row :
  In d items →
  In row (rows (db (process_monitor E userId d r w).2)) →
  has_name (names_of items) (row_bean row) = false →
  In row (rows (db w)).
Proof.
  intros Hd Hin Hun. destruct (declared_name d Hd) as [s Hs].
  destruct (process_monitor_cases E userId d r w)
    as [(Hdb & _) | [(k & p & Hfound & Hdb & _) | (_ & _ & Hdb & _)]];
    rewrite Hdb in Hin; clear Hdb; cbn [rows] in Hin.
  - exact Hin.
  - apply in_map_iff in Hin as (row0 & <- & Hin0).
    destruct (decide (row0.1 = k)) as [Hk | Hk].
    + destruct row0 as [k0 p0]. simpl in Hk. subst k0.
      rewrite update_row_hit in Hun.
      rewrite (imported_row_listed d s _ k Hd Hs) in Hun. discriminate.
    + by rewrite update_row_miss.
  - apply in_app_or in Hin as [Hin | [<- | []]]; [exact Hin |].
    unfold fresh_bean in Hun.
    rewrite (imported_row_listed d s _ _ Hd Hs) in Hun. discriminate.
Qed.

Lemma process_monitor_no_add d r w :
  settled E userId (db w) d →
  added (process_monitor E userId d r w).1 = added r.
Proof.
  intros Hset.
  destruct (process_monitor_cases E userId d r w)
    as [(_ & Ha & _) | [(k & p & _ & _ & Ha) | (Hfound & Hstores & _ & _)]];
    [exact Ha | exact Ha |].
  exfalso. destruct Hset as [(row & Hin & Hm) | Hfail]; [| congruence].
  pose proof (find_none _ _ Hfound row Hin). congruence.
Qed.

(** The processing loop over a part [l] of the declared set. *)
Lemma process_all_inv l : ∀ r w,
  wf_db (db w) → incl l items →
  let r' := (process_all E userId l r w).1 in
  let w' := (process_all E userId l r w).2 in
  wf_db (db w') ∧
  (∀ d0, settled E userId (db w) d0 → settled E userId (db w') d0) ∧
  Forall (settled E userId (db w')) l ∧
  (∀ row, In row (rows (db w)) → has_name (names_of items) (row_bean row) = false →
          In row (rows (db w'))) ∧
  (∀ row, In row (rows (db w')) → has_name (names_of items) (row_bean row) = false →
          In row (rows (db w))) ∧
  (∀ b, stuck E (monitorList w) b → stuck E (monitorList w') b) ∧
  removed r' = removed r ∧
  ((∀ d, In d l → settled E userId (db w) d) → added r' = added r).
Proof.
  unfold process_all.
  induction l as [|d l IH]; intros r w Hwf Hincl; simpl.
  - split; [exact Hwf |]. repeat split; auto.
  - assert (Hd : In d items) by (apply Hincl; by left).
    assert (Hl : incl l items) by (intros x Hx; apply Hincl; by right).
    destruct (process_monitor E userId d r w) as [r1 w1] eqn:Hstep.
    pose proof (process_monitor_wf E userId d r w Hwf) as Hwf1.
    pose proof (process_monitor_settled d r w Hwf Hd) as [Hpers Hown].
    pose proof (fun row => process_monitor_keeps_unlisted d r w row Hwf Hd) as Hkeep.
    pose proof (fun row => process_monitor_unlisted_old d r w row Hd) as Hold.
    pose proof (fun b => process_monitor_stuck E userId d r w b) as Hstuck.
    pose proof (process_monitor_no_add d r w) as Hnoadd.
    destruct (process_monitor_db E userId d r w) as [Hrem _].
    rewrite Hstep in *. cbn [fst snd] in *.
    destruct (IH r1 w1 Hwf1 Hl) as (I1 & I2 & I3 & I4 & I5 & I6 & I7 & I8).
    split; [exact I1 |]. repeat split.
    + auto.
    + constructor; [by apply I2 | exact I3].
    + auto.
    + auto.
    + auto.
    + congruence.
    + intros Hall. rewrite I8.
      * apply Hnoadd. apply Hall. by left.
      * intros d' Hd'. apply Hpers. apply Hall. by right.
Qed.

(** The removal loop. *)
Lemma remove_all_inv existing : ∀ r w,
  wf_db (db w) →
  let r' := (remove_all E (names_of items) existing r w).1 in
  let w' := (remove_all E (names_of items) existing r w).2 in
  wf_db (db w') ∧
  (∀ row, In row (rows (db w')) → In row (rows (db w))) ∧
  (∀ row, In row (rows (db w)) →
          (∀ b, In b existing → unlisted (names_of items) b = true → id b ≠ Some row.1) →
          In row (rows (db w'))) ∧
  (∀ b, stuck E (monitorList w) b → stuck E (monitorList w') b) ∧
  (∀ b, In b existing → unlisted (names_of items) b = true →
        (∀ row, In row (rows (db w')) → id b ≠ Some row.1) ∨ stuck E (monitorList w') b) ∧
  ((∀ b, In b existing →
         has_name (names_of items) b = true ∨ stuck E (monitorList w) b) →
   removed r' = removed r).
Proof.
  induction existing as [|b rest IH]; intros r w Hwf.
  - simpl. split; [exact Hwf |]. repeat split; auto; intros b [].
  - rewrite remove_all_cons.
    destruct (remove_monitor_rows E (names_of items) b r w) as [Hnext Hstep].
    pose proof (fun b0 => remove_monitor_stuck E (names_of items) b r w b0) as Hstuck.
    set (r1 := (remove_monitor E (names_of items) b r w).1) in *.
    set (w1 := (remove_monitor E (names_of items) b r w).2) in *.
    assert (Hwf1 : wf_db (db w1)).
    { destruct Hstep as [(Hrows & _) | (_ & Hrows)].
      - destruct Hwf as [Hnd Hlt]. split; rewrite Hrows, ?Hnext; assumption.
      - pose proof (wf_filter (fun row => negb (bool_decide (Some row.1 = id b))) (db w) Hwf)
          as [Hnd Hlt].
        split; rewrite Hrows, ?Hnext; assumption. }
    assert (Hsub : ∀ row, In row (rows (db w1)) → In row (rows (db w))).
    { intros row Hin. destruct Hstep as [(Hrows & _) | (_ & Hrows)];
        rewrite Hrows in Hin; [exact Hin |]. by apply filter_In in Hin as [Hin _]. }
    destruct (IH r1 w1 Hwf1) as (I1 & I2 & I3 & I4 & I5 & I6).
    split; [exact I1 |]. repeat split.
    + auto.
    + intros row Hin Hids. apply I3.
      * destruct Hstep as [(Hrows & _) | (Hun & Hrows)]; rewrite Hrows; [exact Hin |].
        apply filter_In. split; [exact Hin |].
        apply negb_true_iff, bool_decide_eq_false_2. intros Heq.
        apply (Hids b); [by left | exact Hun | by symmetry].
      * intros b0 Hb0. apply Hids. by right.
    + auto.
    + intros b0 [<- | Hb0] Hun; [| by apply I5].
      destruct Hstep as [(_ & _ & Hst) | (_ & Hrows)].
      * right. apply I4. by apply Hst.
      * left. intros row Hin Hid. apply I2 in Hin. rewrite Hrows in Hin.
        apply filter_In in Hin as [_ Hneg].
        apply negb_true_iff, bool_decide_eq_false in Hneg. congruence.
    + intros Hall. rewrite I6.
      * subst r1. destruct (Hall b (or_introl eq_refl)) as [Hlisted | Hst].
        { by rewrite remove_monitor_listed. }
        by apply remove_monitor_stuck_fails.
      * intros b0 Hb0. destruct (Hall b0 (or_intror Hb0)) as [Hl | Hst]; [by left | right].
        by apply Hstuck.
Qed.


(** A cycle that starts where every definition is settled and every managed
    record is listed or stuck adds nothing and removes nothing. *)
Lemma settled_cycle w :
  wf_db (db w) →
  (∀ d, In d items → settled E userId (db w) d) →
  (∀ row, In row (rows (db w)) → is_managed_by userId row.2 = true →
          has_name (names_of items) (row_bean row) = true ∨
          stuck E (monitorList w) (row_bean row)) →
  let existing := map row_bean (managed_rows userId (db w)) in
  let r1 := (process_all E userId items empty_result w).1 in
  let w1 := (process_all E userId items empty_result w).2 in
  let r2 := (remove_all E (names_of items) existing r1 w1).1 in
  added r2 = 0%nat ∧ removed r2 = 0%nat.
Proof.
  intros Hwf Hset Hclean existing r1 w1 r2.
  destruct (process_all_inv items empty_result w Hwf (incl_refl items))
    as (P1 & _ & _ & _ & _ & P6 & P7 & P8).
  fold w1 in P1, P6. fold r1 in P7, P8.
  destruct (remove_all_inv existing r1 w1 P1) as (_ & _ & _ & _ & _ & Q6).
  fold r2 in Q6.
  destruct (remove_all_counts E (names_of items) existing r1 w1) as (A & _ & _).
  fold r2 in A. split.
  - rewrite A, P8; [reflexivity | exact Hset].
  - rewrite Q6; [exact P7 |].
    intros b Hb. apply managed_rows_beans in Hb as (row & -> & Hin & Hman).
    destruct (Hclean row Hin Hman) as [Hl | Hst]; [by left | right].
    by apply P6.
Qed.


(** *** A cycle that reports no error *)

Lemma process_monitor_keeps_rows d r w d0 :
  wf_db (db w) → In d items →
  has_row userId (db w) d0 →
  has_row userId (db (process_monitor E userId d r w).2) d0.
Proof.
  intros [Hnd _] Hd (row0 & Hin0 & Hm0). destruct (declared_name d Hd) as [s Hs].
  destruct (process_monitor_cases E userId d r w)
    as [(Hdb & _) | [(k & p & Hfound & Hdb & _) | (_ & _ & Hdb & _)]];
    rewrite Hdb; clear Hdb.
  - by exists row0.
  - rewrite Hs in Hfound. apply find_matches in Hfound as [Hin Hm].
    set (p' := props (import_data (configToMonitorBean d userId) (row_bean (k, p)))).
    assert (Hm' : matches (VStr s) userId (k, p') = true)
      by (by apply import_data_matches).
    cbn [rows]. destruct (decide (row0.1 = k)) as [Hk | Hk].
    + exists (k, p'). split.
      * rewrite <- (update_row_hit k p' p). by apply in_map.
      * destruct row0 as [k0 p0]. simpl in Hk. subst k0.
        assert (p0 = p) by (eapply nodup_fst_eq; eauto). subst p0.
        apply matches_string in Hm as [Hn Hman].
        apply matches_string in Hm' as [Hn' Hman'].
        unfold matches in *. cbn [snd] in *. rewrite Hn', Hman'.
        rewrite Hn, Hman in Hm0. exact Hm0.
    + exists row0. split; [| exact Hm0].
      rewrite <- (update_row_miss k p' row0 Hk). by apply in_map.
  - exists row0. split; [| exact Hm0]. cbn [rows]. apply in_or_app. by left.
Qed.

Lemma start_if_active_errors d k bean r w :
  result_errors r ≠ [] → result_errors (start_if_active E d k bean r w).1 ≠ [].
Proof.
  intros Hr. unfold start_if_active, stop, start, processing_failed, push_error.
  destruct (truthy _); [| exact Hr].
  destruct (monitorList w !! k) as [h|]; [destruct (stop_error E h) |];
    try destruct (start_error E bean); cbn [fst result_errors];
    try exact Hr; by destruct (result_errors r).
Qed.

Lemma push_error_nonempty msg r : result_errors (push_error msg r) ≠ [].
Proof. unfold push_error. simpl. by destruct (result_errors r). Qed.

(** A turn of the processing loop never forgets an error, and reports one
    when the bean is not stored. *)
Lemma process_monitor_errors d r w :
  (result_errors r ≠ [] → result_errors (process_monitor E userId d r w).1 ≠ []) ∧
  (stores E (import_data (configToMonitorBean d userId) (lookup_bean userId (db w) d))
     = false →
   result_errors (process_monitor E userId d r w).1 ≠ []).
Proof.
  unfold process_monitor, findOrCreateMonitor, R_findOne, lookup_bean, stores.
  cbv beta iota zeta. cbn [db emit].
  set (w1 := emit (DbFindOne (get_prop d "name") userId) w).
  assert (Hbody : ∀ b0 : Bean,
    let bean := import_data (configToMonitorBean d userId) b0 in
    let out :=
      (let isNew := negb (bool_decide (is_Some (id b0))) in
       match bean_validate E bean with
       | Some msg => processing_failed d msg r w1
       | None =>
           match R_store E bean w1 with
           | (Throw msg, w2) => processing_failed d msg r w2
           | (Normal (k, bean), w2) =>
               let '(result, w3) :=
                 if isNew then
                   (mkResult (S (added r)) (updated r) (removed r) (result_errors r),
                    log Info ("Added monitor: " +:+ to_string (bean_get bean "name")) w2)
                 else
                   (mkResult (added r) (S (updated r)) (removed r) (result_errors r),
                    log Info ("Updated monitor: " +:+ to_string (bean_get bean "name")) w2) in
               start_if_active E d k bean result w3
           end
       end) in
    (result_errors r ≠ [] → result_errors out.1 ≠ []) ∧
    (match bean_validate E bean, store_error E bean with
     | None, None => true
     | _, _ => false
     end = false → result_errors out.1 ≠ [])).
  { intros b0. cbv zeta. unfold processing_failed.
    destruct (bean_validate E _).
    { split; intros _; apply push_error_nonempty. }
    unfold R_store. destruct (store_error E _).
    { split; intros _; apply push_error_nonempty. }
    split; [| discriminate]. intros Hr.
    destruct (id (import_data _ b0)); destruct (negb _);
      by apply start_if_active_errors. }
  destruct (List.find _ (rows (db w))) as [row|]; simpl fmap; cbv beta iota;
    apply Hbody.
Qed.

Lemma find_lookup_bean d w :
  match List.find (matches (get_prop d "name") userId) (rows (db w)) with
  | Some (k, p) => In (k, p) (rows (db w)) ∧ lookup_bean userId (db w) d = row_bean (k, p)
  | None => lookup_bean userId (db w) d = R_dispense
  end.
Proof.
  unfold lookup_bean.
  destruct (List.find _ _) as [[k p]|] eqn:Hf; [| reflexivity].
  split; [| reflexivity]. by apply find_matches in Hf as [Hin _].
Qed.

(** A turn that reports no error leaves a record of the definition's name. *)
Lemma process_monitor_stored d r w :
  In d items →
  result_errors (process_monitor E userId d r w).1 = [] →
  has_row userId (db (process_monitor E userId d r w).2) d.
Proof.
  intros Hd Hnil. destruct (declared_name d Hd) as [s Hs].
  destruct (process_monitor_errors d r w) as [_ Hfail].
  destruct (process_monitor_db E userId d r w) as [_ Hdb]. cbv zeta in Hdb.
  destruct (stores E _) eqn:Hst; [| by destruct (Hfail eq_refl)].
  pose proof (find_lookup_bean d w) as Hfind. unfold has_row. rewrite Hs.
  destruct (List.find _ (rows (db w))) as [[k p]|].
  - destruct Hfind as [Hin Hlb]. rewrite Hlb in Hdb. cbn [id import_data row_bean fst] in Hdb.
    destruct Hdb as [-> _].
    set (p' := props (import_data (configToMonitorBean d userId) (row_bean (k, p)))).
    exists (k, p'). split.
    + cbn [rows]. rewrite <- (update_row_hit k p' p). by apply in_map.
    + by apply import_data_matches.
  - rewrite Hfind in Hdb. cbn [id import_data R_dispense] in Hdb.
    destruct Hdb as [-> _]. eexists. split.
    + cbn [rows]. apply in_or_app. right. left. reflexivity.
    + by apply import_data_matches.
Qed.

Lemma process_all_errors l : ∀ r w,
  result_errors r ≠ [] → result_errors (process_all E userId l r w).1 ≠ [].
Proof.
  unfold process_all. induction l as [|d l IH]; intros r w Hr; [exact Hr |].
  simpl. destruct (process_monitor_errors d r w) as [Hmono _].
  destruct (process_monitor E userId d r w) as [r1 w1]. apply IH. by apply Hmono.
Qed.

Lemma process_all_stored l : ∀ r w,
  wf_db (db w) → incl l items →
  result_errors (process_all E userId l r w).1 = [] →
  (∀ d0, has_row userId (db w) d0 → has_row userId (db (process_all E userId l r w).2) d0) ∧
  Forall (has_row userId (db (process_all E userId l r w).2)) l.
Proof.
  unfold process_all.
  induction l as [|d l IH]; intros r w Hwf Hincl Hnil; simpl in *.
  - split; [auto | constructor].
  - assert (Hd : In d items) by (apply Hincl; by left).
    assert (Hl : incl l items) by (intros x Hx; apply Hincl; by right).
    pose proof (process_monitor_wf E userId d r w Hwf) as Hwf1.
    pose proof (fun d0 => process_monitor_keeps_rows d r w d0 Hwf Hd) as Hkeep.
    pose proof (process_monitor_stored d r w Hd) as Hstored.
    pose proof (process_all_errors l (process_monitor E userId d r w).1
                  (process_monitor E userId d r w).2) as Hmono.
    unfold process_all in Hmono.
    destruct (process_monitor E userId d r w) as [r1 w1]. cbn [fst snd] in *.
    destruct (IH r1 w1 Hwf1 Hl Hnil) as [I1 I2].
    assert (Hr1 : result_errors r1 = []).
    { destruct (result_errors r1) eqn:He; [reflexivity |].
      exfalso. apply Hmono; [discriminate | exact Hnil]. }
    split.
    + intros d0 H0. by apply I1, Hkeep.
    + constructor; [| exact I2]. by apply I1, Hstored.
Qed.

Lemma remove_monitor_errors b r w :
  (result_errors r ≠ [] →
   result_errors (remove_monitor E (names_of items) b r w).1 ≠ []) ∧
  (result_errors (remove_monitor E (names_of items) b r w).1 = [] →
   unlisted (names_of items) b = true →
   rows (db (remove_monitor E (names_of items) b r w).2)
     = List.filter (fun row => negb (bool_decide (Some row.1 = id b))) (rows (db w))).
Proof.
  unfold remove_monitor, unlisted.
  destruct (has_name (names_of items) b); [split; [auto | discriminate] |].
  unfold R_trash, removing_failed, stop.
  destruct (id b) as [k|];
    [destruct (monitorList w !! k) as [h|]; [destruct (stop_error E h) |] |];
    try destruct (trash_error E b);
    cbn [fst snd db rows result_errors log emit set_db set_monitorList];
    (split; [intros Hr | intros Hnil _]);
    try exact Hr; try apply push_error_nonempty; try reflexivity;
    by destruct (push_error_nonempty _ _ Hnil).
Qed.

Lemma remove_all_errors existing : ∀ r w,
  result_errors r ≠ [] →
  result_errors (remove_all E (names_of items) existing r w).1 ≠ [].
Proof.
  induction existing as [|b rest IH]; intros r w Hr; [exact Hr |].
  rewrite remove_all_cons. apply IH. by apply remove_monitor_errors.
Qed.

(** A removal loop that reports no error has deleted the rows of every
    unlisted record it was given. *)
Lemma remove_all_deleted existing : ∀ r w,
  wf_db (db w) →
  result_errors (remove_all E (names_of items) existing r w).1 = [] →
  ∀ b, In b existing → unlisted (names_of items) b = true →
  ∀ row, In row (rows (db (remove_all E (names_of items) existing r w).2)) →
         id b ≠ Some row.1.
Proof.
  induction existing as [|b rest IH]; intros r w Hwf Hnil b0 Hb0 Hun row Hrow;
    [destruct Hb0 |].
  rewrite remove_all_cons in Hnil, Hrow.
  destruct (remove_monitor_errors b r w) as [Hmono Hdel].
  set (r1 := (remove_monitor E (names_of items) b r w).1) in *.
  set (w1 := (remove_monitor E (names_of items) b r w).2) in *.
  assert (Hwf1 : wf_db (db w1)).
  { destruct (remove_all_inv [b] r w Hwf) as (Hwf1 & _).
    rewrite remove_all_cons in Hwf1. exact Hwf1. }
  destruct Hb0 as [<- | Hb0]; [| by apply (IH r1 w1 Hwf1 Hnil b0 Hb0 Hun row)].
  assert (Hr1 : result_errors r1 = []).
  { destruct (result_errors r1) eqn:He; [reflexivity |].
    exfalso. apply (remove_all_errors rest r1 w1); [by rewrite He | exact Hnil]. }
  destruct (remove_all_inv rest r1 w1 Hwf1) as (_ & Hsub & _).
  apply Hsub in Hrow. rewrite (Hdel Hr1 Hun) in Hrow.
  apply filter_In in Hrow as [_ Hneg].
  apply negb_true_iff, bool_decide_eq_false in Hneg. congruence.
Qed.

(** After the two loops of a cycle that reports no error: the table is well
    formed, every definition has its record, and every managed record of the
    owner is listed. *)
Lemma after_clean_cycle w :
  wf_db (db w) →
  let existing := map row_bean (managed_rows userId (db w)) in
  let r1 := (process_all E userId items empty_result w).1 in
  let w1 := (process_all E userId items empty_result w).2 in
  let r2 := (remove_all E (names_of items) existing r1 w1).1 in
  let w2 := (remove_all E (names_of items) existing r1 w1).2 in
  result_errors r2 = [] →
  wf_db (db w2) ∧
  (∀ d, In d items → has_row userId (db w2) d) ∧
  (∀ row, In row (rows (db w2)) → is_managed_by userId row.2 = true →
          has_name (names_of items) (row_bean row) = true).
Proof.
  intros Hwf existing r1 w1 r2 w2 Hnil.
  destruct (process_all_inv items empty_result w Hwf (incl_refl items))
    as (P1 & _ & _ & P4 & P5 & _).
  fold w1 in P1, P4, P5.
  assert (Hr1 : result_errors r1 = []).
  { destruct (result_errors r1) eqn:He; [reflexivity |].
    exfalso. apply (remove_all_errors existing r1 w1); [by rewrite He | exact Hnil]. }
  destruct (process_all_stored items empty_result w Hwf (incl_refl items) Hr1) as [_ P3].
  fold w1 in P3.
  destruct (remove_all_inv existing r1 w1 P1) as (Q1 & Q2 & Q3 & _).
  fold w2 in Q1, Q2, Q3.
  pose proof (remove_all_deleted existing r1 w1 P1 Hnil) as Q5. fold w2 in Q5.
  split; [exact Q1 |]. split.
  - intros d Hd. rewrite Forall_forall in P3.
    destruct (P3 d (proj2 (list_elem_of_In _ _) Hd)) as (row & Hin & Hm).
    exists row. split; [| exact Hm]. apply Q3; [exact Hin |].
    intros b Hb Hun Hid.
    destruct (declared_name d Hd) as [s Hs]. rewrite Hs in Hm.
    apply managed_rows_beans in Hb as (row0 & -> & Hin0 & _).
    unfold unlisted in Hun. apply negb_true_iff in Hun.
    apply P4 in Hin0; [| exact Hun].
    destruct row as [k p], row0 as [k0 p0]. simpl in Hid. injection Hid as ->.
    assert (p0 = p) by (destruct P1 as [Hnd _]; eapply nodup_fst_eq; eauto). subst p0.
    rewrite (matched_row_listed d s (k, p) Hd Hs Hm) in Hun. discriminate.
  - intros row Hin Hman.
    destruct (has_name (names_of items) (row_bean row)) eqn:Hl; [reflexivity |].
    assert (Hold : In row (rows (db w))) by (apply P5; [by apply Q2 | exact Hl]).
    assert (Hb : In (row_bean row) existing).
    { apply in_map. apply filter_In. by split. }
    exfalso. apply (Q5 (row_bean row) Hb) with (row := row); [| exact Hin | reflexivity].
    unfold unlisted. by rewrite Hl.
Qed.

End Idempotence.

(** *** The cached path *)

Lemma start_if_active_path E d k bean r w :
  configFilePath (start_if_active E d k bean r w).2 = configFilePath w.
Proof.
  unfold start_if_active, stop, start, processing_failed.
  destruct (truthy _); [| done].
  destruct (monitorList w !! k) as [h|]; [destruct (stop_error E h) |];
    try destruct (start_error E bean); done.
Qed.

Lemma process_monitor_path E userId d r w :
  configFilePath (process_monitor E userId d r w).2 = configFilePath w.
Proof.
  unfold process_monitor, findOrCreateMonitor, R_findOne. cbv beta iota zeta.
  set (w1 := emit (DbFindOne (get_prop d "name") userId) w).
  assert (Hbody : ∀ b0 : Bean,
    configFilePath
      (let isNew := negb (bool_decide (is_Some (id b0))) in
       let bean := import_data (configToMonitorBean d userId) b0 in
       match bean_validate E bean with
       | Some msg => processing_failed d msg r w1
       | None =>
           match R_store E bean w1 with
           | (Throw msg, w2) => processing_failed d msg r w2
           | (Normal (k, bean), w2) =>
               let '(result, w3) :=
                 if isNew then
                   (mkResult (S (added r)) (updated r) (removed r) (result_errors r),
                    log Info ("Added monitor: " +:+ to_string (bean_get bean "name")) w2)
                 else
                   (mkResult (added r) (S (updated r)) (removed r) (result_errors r),
                    log Info ("Updated monitor: " +:+ to_string (bean_get bean "name")) w2) in
               start_if_active E d k bean result w3
           end
       end).2 = configFilePath w).
  { intros b0. cbv zeta. unfold processing_failed.
    destruct (bean_validate E _); [reflexivity |].
    unfold R_store. destruct (store_error E _); [reflexivity |].
    destruct (id (import_data _ b0)); destruct (negb _);
      rewrite start_if_active_path; reflexivity. }
  destruct (List.find _ _) as [row|]; simpl fmap; cbv beta iota; apply Hbody.
Qed.

Lemma process_all_path E userId l : ∀ r w,
  configFilePath (process_all E userId l r w).2 = configFilePath w.
Proof.
  unfold process_all. induction l as [|d l IH]; intros r w; [reflexivity |].
  simpl. pose proof (process_monitor_path E userId d r w) as H.
  destruct (process_monitor E userId d r w) as [r1 w1]. rewrite IH. exact H.
Qed.

Lemma remove_monitor_path E names b r w :
  configFilePath (remove_monitor E names b r w).2 = configFilePath w.
Proof.
  unfold remove_monitor, R_trash, removing_failed, stop.
  destruct (has_name names b); [reflexivity |].
  destruct (id b) as [k|];
    [destruct (monitorList w !! k) as [h|]; [destruct (stop_error E h) |] |];
    try destruct (trash_error E b); reflexivity.
Qed.

Lemma remove_all_path E names existing : ∀ r w,
  configFilePath (remove_all E names existing r w).2 = configFilePath w.
Proof.
  induction existing as [|b rest IH]; intros r w; [reflexivity |].
  rewrite remove_all_cons, IH. apply remove_monitor_path.
Qed.

Lemma log_summary_path r w : configFilePath (log_summary r w) = configFilePath w.
Proof. unfold log_summary. by destruct (Nat.ltb _ _). Qed.


(** The same conclusion without asking the two runs to share an environment:
    once a cycle has reported no error, the next cycle over the same declared
    array adds nothing and removes nothing, whatever the file system and the
    collaborators do in it. *)
Lemma sync_converged (E1 E2 : Env) (userId : Z) (w w1 w' wr : World)
    (config config2 : value) (items : list value) (r1 : sync_result) :
  wf_db (db w) →
  readConfigFile E1 w = (Some config, w1) →
  get_prop config "monitors" = VArr items →
  Forall (fun d => is_string (get_prop d "name") = true) items →
  validate_from items 0 [] = Normal [] →
  syncConfigMonitors E1 userId w = (Normal r1, w') →
  result_errors r1 = [] →
  readConfigFile E2 w' = (Some config2, wr) →
  get_prop config2 "monitors" = VArr items →
  ∃ r2 w'',
    syncConfigMonitors E2 userId w' = (Normal r2, w'') ∧
    added r2 = 0%nat ∧ removed r2 = 0%nat.
Proof.
  intros Hwf Hread Hmon Hstr Hval Hsync Hnil Hread2 Hmon2.
  pose proof (readConfigFile_only_logged E1 w) as (Hdb1 & _).
  rewrite Hread in Hdb1. simpl in Hdb1.
  pose proof (readConfigFile_only_logged E2 w') as (Hdb2 & _).
  rewrite Hread2 in Hdb2. simpl in Hdb2.
  (* the first run *)
  pose proof (sync_declared E1 userId w w1 config items Hread Hmon Hval) as Hrun1.
  unfold R_find in Hrun1. cbv beta iota zeta in Hrun1.
  set (wa := emit (DbFind userId) (log Info (found_message (VArr items)) w1)) in Hrun1.
  change (db (log Info (found_message (VArr items)) w1)) with (db wa) in Hrun1.
  assert (Hwfa : wf_db (db wa)) by (change (db wa) with (db w1); by rewrite Hdb1).
  pose proof (after_clean_cycle E1 userId items Hstr wa Hwfa) as Hclean1.
  cbv zeta in Hclean1.
  destruct (process_all E1 userId items empty_result wa) as [ra wb].
  cbn [fst snd] in Hclean1.
  destruct (remove_all E1 (names_of items) _ ra wb) as [rc wc].
  cbn [fst snd] in Hclean1.
  rewrite Hsync in Hrun1. injection Hrun1 as -> ->.
  destruct (Hclean1 Hnil) as (Hwf' & Hrows & Hlisted).
  (* the second run *)
  pose proof (sync_declared E2 userId _ wr config2 items Hread2 Hmon2 Hval) as Hrun2.
  unfold R_find in Hrun2. cbv beta iota zeta in Hrun2.
  set (wd := emit (DbFind userId) (log Info (found_message (VArr items)) wr)) in Hrun2.
  change (db (log Info (found_message (VArr items)) wr)) with (db wd) in Hrun2.
  assert (Hdbd : db wd = db wc).
  { change (db wd) with (db wr). rewrite Hdb2. apply log_summary_db. }
  destruct (settled_cycle E2 userId items Hstr wd) as [Hadd Hrem].
  { by rewrite Hdbd. }
  { intros d Hd. left. rewrite Hdbd. by apply Hrows. }
  { intros row Hin Hman. left. rewrite Hdbd in Hin. by apply Hlisted. }
  destruct (process_all E2 userId items empty_result wd) as [rd we].
  cbn [fst snd] in Hadd, Hrem.
  destruct (remove_all E2 (names_of items) _ rd we) as [r2 wf].
  cbn [fst] in Hadd, Hrem.
  exists r2, (log_summary r2 wf). repeat split; assumption.
Qed.



(** ** The removal loop in a cycle *)

Lemma process_all_removed E userId l : ∀ r w,
  removed (process_all E userId l r w).1 = removed r.
Proof.
  unfold process_all. induction l as [|d l IH]; intros r w; [reflexivity |].
  simpl. destruct (process_monitor_db E userId d r w) as [Hrem _].
  destruct (process_monitor E userId d r w) as [r1 w1]. rewrite IH. exact Hrem.
Qed.

(** C4.  A cycle that passes the validation gate runs the removal loop over
    the owner's managed records as [R.find] returned them, with the declared
    names, from the result [r0] and the world [w0] the processing loop left;
    what it returns is the result of that loop.  In the loop every record
    gets its turn, whatever happened to the records before it.  At its turn
    a record whose name the declared names do not list is handled as
    [removal_turn] says: its handle, if any, is stopped and deregistered, its
    row is deleted and [removed] grows by one; or a throw of [stop()] or of
    [R.trash] appends the error string that names the monitor.  So [removed]
    and the errors of the loop together count the unlisted records. *)
Theorem removal_loop (E : Env) (userId : Z) (w w1 : World)
    (config : value) (items : list value) :
  readConfigFile E w = (Some config, w1) →
  get_prop config "monitors" = VArr items →
  validate_from items 0 [] = Normal [] →
  let names := names_of items in
  let existing := map row_bean (managed_rows userId (db w)) in
  ∃ r0 w0,
    let final := remove_all E names existing r0 w0 in
    removed r0 = 0%nat ∧
    syncConfigMonitors E userId w = (Normal final.1, log_summary final.1 final.2) ∧
    (∀ pre b post, existing = (pre ++ b :: post)%list →
       final = remove_all E names post
                 (remove_monitor E names b (remove_all E names pre r0 w0).1
                                           (remove_all E names pre r0 w0).2).1
                 (remove_monitor E names b (remove_all E names pre r0 w0).1
                                           (remove_all E names pre r0 w0).2).2) ∧
    (∀ b k rb wb, id b = Some k → unlisted names b = true →
                  removal_turn E names b k rb wb) ∧
    (removed final.1 + length (result_errors final.1)
     = length (result_errors r0) + length (List.filter (unlisted names) existing))%nat.
Proof.
  intros Hread Hmon Hval names existing.
  pose proof (readConfigFile_only_logged E w) as (Hdb1 & _).
  rewrite Hread in Hdb1. simpl in Hdb1.
  pose proof (sync_declared E userId w w1 config items Hread Hmon Hval) as Hrun.
  unfold R_find in Hrun. cbv beta iota zeta in Hrun.
  change (db (log Info (found_message (VArr items)) w1)) with (db w1) in Hrun.
  rewrite Hdb1 in Hrun. fold existing names in Hrun.
  set (wa := emit (DbFind userId) (log Info (found_message (VArr items)) w1)) in Hrun.
  pose proof (process_all_removed E userId items empty_result wa) as Hrem.
  destruct (process_all E userId items empty_result wa) as [r0 w0].
  exists r0, w0. cbv zeta. cbn [fst] in Hrem.
  split; [exact Hrem |]. split.
  { rewrite Hrun. by destruct (remove_all E names existing r0 w0). }
  split; [intros pre b post; apply remove_all_turns |].
  split; [intros b k rb wb; apply remove_monitor_turn |].
  destruct (remove_all_counts E names existing r0 w0) as (_ & _ & Hc).
  rewrite Hc, Hrem. change (removed empty_result) with 0%nat. lia.
Qed.

(** The seeded table holds A and B; the changed declared set lists A and C,
    so B is the one unlisted record. *)
Lemma removal_loop_witness :
  let E := env_with (Some (Loaded (sample_doc sample_items_changed))) in
  let names := names_of sample_items_changed in
  let existing := map row_bean (managed_rows 1 (db seeded_world)) in
  ∃ r0 w0,
    let final := remove_all E names existing r0 w0 in
    removed r0 = 0%nat ∧
    syncConfigMonitors E 1 seeded_world = (Normal final.1, log_summary final.1 final.2) ∧
    (∀ pre b post, existing = (pre ++ b :: post)%list →
       final = remove_all E names post
                 (remove_monitor E names b (remove_all E names pre r0 w0).1
                                           (remove_all E names pre r0 w0).2).1
                 (remove_monitor E names b (remove_all E names pre r0 w0).1
                                           (remove_all E names pre r0 w0).2).2) ∧
    (∀ b k rb wb, id b = Some k → unlisted names b = true →
                  removal_turn E names b k rb wb) ∧
    (removed final.1 + length (result_errors final.1)
     = length (result_errors r0) + length (List.filter (unlisted names) existing))%nat.
Proof.
  apply (removal_loop (env_with (Some (Loaded (sample_doc sample_items_changed)))) 1
           seeded_world seeded_world
           (sample_doc sample_items_changed) sample_items_changed).
  - vm_compute. reflexivity.
  - vm_compute. reflexivity.
  - vm_compute. reflexivity.
Defined.

(** ** The theorems at sample inputs *)



(** * More about the cycle *)

(** ** The shape of a cycle *)

(** A config that [readConfigFile] returns has a truthy [monitors]: the
    fallback of [config.monitors || []] is never taken. *)
Lemma readConfigFile_monitors E w config w1 :
  readConfigFile E w = (Some config, w1) →
  truthy (get_prop config "monitors") = true.
Proof.
  unfold readConfigFile.
  destruct (getConfigFilePath E w) as [[p|] w0]; [| discriminate].
  destruct (fs_file E p) as [[msg|doc]|]; try discriminate.
  destruct (negb (truthy doc) || negb (truthy (get_prop doc "monitors"))) eqn:H.
  - intros [= <- _]. reflexivity.
  - intros [= <- _]. apply orb_false_iff in H as [_ H].
    by apply negb_false_iff in H.
Qed.

Lemma quietly_refl w : quietly w w.
Proof. repeat split. exists []. split; [reflexivity | constructor]. Qed.

Lemma quietly_trans w1 w2 w3 : quietly w1 w2 → quietly w2 w3 → quietly w1 w3.
Proof.
  intros (Hd & Hm & n1 & Ht & H1) (Hd' & Hm' & n2 & Ht' & H2).
  repeat split; [congruence | congruence |].
  exists (n2 ++ n1)%list. split.
  - rewrite Ht', Ht. by rewrite app_assoc.
  - by apply Forall_app.
Qed.

Lemma quietly_emit e w : is_quiet e = true → quietly w (emit e w).
Proof.
  intros H. repeat split. exists [e]. split; [reflexivity |].
  constructor; [exact H | constructor].
Qed.

Lemma quietly_log level msg w : quietly w (log level msg w).
Proof. by apply (quietly_emit (Log level msg)). Qed.

Lemma only_logged_quietly w w' : only_logged w w' → quietly w w'.
Proof.
  intros (Hd & Hm & new & Ht & Hall). repeat split; [exact Hd | exact Hm |].
  exists new. split; [exact Ht |].
  eapply Forall_impl; [exact Hall |]. intros e. by destruct e.
Qed.

Lemma validate_from_clean items errs :
  validate_from items 0 [] = Normal errs → Nat.ltb 0 (length errs) = false →
  validate_from items 0 [] = Normal [].
Proof.
  intros H Hlen. apply Nat.ltb_ge in Hlen. destruct errs; [exact H | simpl in Hlen; lia].
Qed.

(** A cycle either stops before the two loops, having only logged and read,
    or its document passed the validation gate with an array of
    definitions. *)
Lemma sync_cases E userId w :
  (quietly w (syncConfigMonitors E userId w).2 ∧
   match (syncConfigMonitors E userId w).1 with
   | Normal r => added r = 0%nat ∧ updated r = 0%nat ∧ removed r = 0%nat
   | Throw _ => True
   end) ∨
  (∃ config w1 items,
     readConfigFile E w = (Some config, w1) ∧
     get_prop config "monitors" = VArr items ∧
     validate_from items 0 [] = Normal []).
Proof.
  pose proof (only_logged_quietly _ _ (readConfigFile_only_logged E w)) as Hread.
  pose proof (readConfigFile_monitors E w) as Htruthy.
  unfold syncConfigMonitors.
  destruct (readConfigFile E w) as [[config|] w1]; cbn [snd] in Hread.
  2:{ left. cbn [fst snd]. split; [| done].
      eapply quietly_trans; [exact Hread | apply quietly_log]. }
  rewrite (Htruthy config w1 eq_refl).
  set (monitors := get_prop config "monitors").
  assert (Hfound : quietly w (log Info (found_message monitors) w1))
    by (eapply quietly_trans; [exact Hread | apply quietly_log]).
  destruct (validate_from (loop_items monitors) 0 (result_errors empty_result))
    as [errs|msg] eqn:Hval.
  2:{ left. cbn [fst snd]. by split. }
  destruct (Nat.ltb 0 (length errs)) eqn:Hlen.
  { left. cbn [fst snd]. split; [| done].
    eapply quietly_trans; [exact Hfound |].
    apply only_logged_quietly.
    eapply only_logged_trans; [apply only_logged_log | apply only_logged_log_all]. }
  unfold R_find. cbv beta iota zeta.
  destruct monitors as [| |b|n|s|items|fields] eqn:Hmon;
    try (left; cbn [fst snd]; split; [| done];
         eapply quietly_trans; [exact Hfound | by apply quietly_emit]).
  right. exists config, w1, items. split; [reflexivity |]. split; [exact Hmon |].
  rewrite loop_items_array in Hval. by eapply validate_from_clean.
Qed.

(** ** Records the cycle leaves alone *)

Lemma import_managed d userId b0 :
  is_managed_by userId (props (import_data (configToMonitorBean d userId) b0)) = true.
Proof.
  pose proof (configToMonitorBean_managed d userId) as Hm.
  unfold is_managed_by in *.
  change (obj_get (props (import_data (configToMonitorBean d userId) b0)) "user_id")
    with (bean_get (import_data (configToMonitorBean d userId) b0) "user_id").
  change (obj_get (props (import_data (configToMonitorBean d userId) b0)) "config_managed")
    with (bean_get (import_data (configToMonitorBean d userId) b0) "config_managed").
  rewrite !import_data_get; [exact Hm | discriminate | | discriminate |].
  - unfold configToMonitorBean. rewrite lookup_insert_eq. by eexists.
  - unfold configToMonitorBean. rewrite lookup_insert_ne by discriminate.
    rewrite lookup_insert_eq. by eexists.
Qed.

Lemma filter_update_foreign userId k p' l :
  (∀ row, In row l → row.1 = k → foreign userId row = false) →
  foreign userId (k, p') = false →
  List.filter (foreign userId) (map (update_row k p') l)
    = List.filter (foreign userId) l.
Proof.
  intros Hl Hp. induction l as [|row l IH]; [reflexivity |].
  cbn [map List.filter]. rewrite IH by (intros r Hr; apply Hl; by right).
  destruct (decide (row.1 = k)) as [Hk | Hk].
  - assert (Hup : update_row k p' row = (k, p'))
      by (unfold update_row; by rewrite Hk, Pos.eqb_refl).
    rewrite Hup, Hp. by rewrite (Hl row (or_introl eq_refl) Hk).
  - by rewrite (update_row_miss k p' row Hk).
Qed.

Lemma filter_filter_foreign userId (g : positive * gmap string value → bool) l :
  (∀ row, In row l → g row = false → foreign userId row = false) →
  List.filter (foreign userId) (List.filter g l) = List.filter (foreign userId) l.
Proof.
  intros Hl. induction l as [|row l IH]; [reflexivity |].
  cbn [List.filter]. specialize (IH (fun r Hr => Hl r (or_intror Hr))).
  destruct (g row) eqn:Hg; cbn [List.filter]; rewrite IH; [reflexivity |].
  by rewrite (Hl row (or_introl eq_refl) Hg).
Qed.

Lemma process_monitor_foreign E userId d r w :
  wf_db (db w) →
  foreign_rows userId (db (process_monitor E userId d r w).2)
    = foreign_rows userId (db w).
Proof.
  intros [Hnd _]. unfold foreign_rows.
  destruct (process_monitor_cases E userId d r w)
    as [(-> & _) | [(k & p & Hfound & -> & _) | (_ & _ & -> & _)]]; [reflexivity | |].
  - cbn [rows]. apply find_matches in Hfound as [Hin Hm].
    apply andb_true_iff in Hm as [_ Hm]. cbn [snd] in Hm.
    apply filter_update_foreign.
    + intros [k' p'] Hrow Hk. cbn [fst] in Hk. subst k'.
      rewrite (nodup_fst_eq _ k p' p Hnd Hrow Hin).
      unfold foreign. cbn [snd]. by rewrite Hm.
    + unfold foreign. cbn [snd]. by rewrite import_managed.
  - cbn [rows]. rewrite List.filter_app. cbn [List.filter].
    unfold foreign at 2. cbn [snd]. unfold fresh_bean. rewrite import_managed.
    cbn [negb]. by rewrite app_nil_r.
Qed.

Lemma process_all_foreign E userId l : ∀ r w,
  wf_db (db w) →
  wf_db (db (process_all E userId l r w).2) ∧
  foreign_rows userId (db (process_all E userId l r w).2) = foreign_rows userId (db w).
Proof.
  unfold process_all. induction l as [|d l IH]; intros r w Hwf; [by split |].
  simpl. pose proof (process_monitor_wf E userId d r w Hwf) as Hwf1.
  pose proof (process_monitor_foreign E userId d r w Hwf) as Hf1.
  destruct (process_monitor E userId d r w) as [r1 w1]. cbn [snd] in *.
  destruct (IH r1 w1 Hwf1) as [I1 I2]. split; [exact I1 | congruence].
Qed.

Lemma remove_monitor_wf E names b r w :
  wf_db (db w) → wf_db (db (remove_monitor E names b r w).2).
Proof.
  intros Hwf. destruct (remove_monitor_rows E names b r w) as [Hn [(Hr & _) | (_ & Hr)]].
  - destruct (db (remove_monitor E names b r w).2) as [rs n]. simpl in *. subst.
    by destruct (db w).
  - pose proof (wf_filter (fun row => negb (bool_decide (Some row.1 = id b))) (db w) Hwf) as H.
    destruct (db (remove_monitor E names b r w).2) as [rs n]. simpl in *. by subst.
Qed.

Lemma remove_monitor_subset E names b r w row :
  In row (rows (db (remove_monitor E names b r w).2)) → In row (rows (db w)).
Proof.
  destruct (remove_monitor_rows E names b r w) as [_ [(-> & _) | (_ & ->)]]; [done |].
  intros H. by apply filter_In in H as [H _].
Qed.

Lemma remove_monitor_foreign E userId names b r w :
  (∀ row, In row (rows (db w)) → id b = Some row.1 → foreign userId row = false) →
  foreign_rows userId (db (remove_monitor E names b r w).2) = foreign_rows userId (db w).
Proof.
  intros Hb. unfold foreign_rows.
  destruct (remove_monitor_rows E names b r w) as [_ [(-> & _) | (_ & ->)]]; [done |].
  apply filter_filter_foreign. intros row Hin Hg. apply Hb; [exact Hin |].
  apply negb_false_iff, bool_decide_eq_true in Hg. by symmetry.
Qed.

Lemma remove_all_foreign E userId names existing : ∀ r w,
  (∀ b row, In b existing → In row (rows (db w)) → id b = Some row.1 →
            foreign userId row = false) →
  foreign_rows userId (db (remove_all E names existing r w).2) = foreign_rows userId (db w).
Proof.
  induction existing as [|b rest IH]; intros r w Hex; [reflexivity |].
  rewrite remove_all_cons. rewrite IH.
  - apply remove_monitor_foreign. intros row. apply Hex. by left.
  - intros b0 row Hb0 Hrow. apply Hex; [by right |].
    by eapply remove_monitor_subset.
Qed.

(** The rows of a snapshot of managed records are not foreign in any table
    with the same foreign rows. *)
Lemma snapshot_not_foreign userId d0 d b row :
  NoDup (map fst (rows d0)) →
  foreign_rows userId d = foreign_rows userId d0 →
  In b (map row_bean (managed_rows userId d0)) →
  In row (rows d) → id b = Some row.1 →
  foreign userId row = false.
Proof.
  intros Hnd Hsame Hb Hrow Hid.
  destruct (foreign userId row) eqn:Hf; [| reflexivity]. exfalso.
  assert (Hin0 : In row (rows d0)).
  { assert (H : In row (foreign_rows userId d)) by (apply filter_In; by split).
    rewrite Hsame in H. by apply filter_In in H as [H _]. }
  apply managed_rows_beans in Hb as (row0 & -> & Hrow0 & Hman).
  destruct row as [k p], row0 as [k0 p0]. simpl in Hid. injection Hid as ->.
  rewrite (nodup_fst_eq _ k p0 p Hnd Hrow0 Hin0) in Hman.
  unfold foreign in Hf. cbn [snd] in *. by rewrite Hman in Hf.
Qed.

(** X1.  A cycle leaves every record alone that is not a config-managed
    record of its owner: in a table whose row ids are distinct, the rows that
    are not managed, and the rows of other owners, are after the cycle the
    ones they were before it, in the same order, whatever the document holds
    and whichever call throws. *)
Theorem sync_keeps_foreign_rows (E : Env) (userId : Z) (w : World) :
  wf_db (db w) →
  foreign_rows userId (db (syncConfigMonitors E userId w).2) = foreign_rows userId (db w).
Proof.
  intros Hwf.
  destruct (sync_cases E userId w) as [[(Hdb & _) _] | (config & w1 & items & Hread & Hmon & Hval)].
  { unfold foreign_rows. by rewrite Hdb. }
  pose proof (readConfigFile_only_logged E w) as (Hdb1 & _).
  rewrite Hread in Hdb1. cbn [snd] in Hdb1.
  rewrite (sync_declared E userId w w1 config items Hread Hmon Hval).
  unfold R_find. cbv beta iota zeta.
  set (wa := emit (DbFind userId) (log Info (found_message (VArr items)) w1)).
  change (db (log Info (found_message (VArr items)) w1)) with (db w1).
  rewrite Hdb1.
  assert (Hwfa : wf_db (db wa)) by (change (db wa) with (db w1); by rewrite Hdb1).
  destruct (process_all_foreign E userId items empty_result wa Hwfa) as [Hwfb Hfb].
  change (db wa) with (db w1) in Hfb. rewrite Hdb1 in Hfb.
  destruct (process_all E userId items empty_result wa) as [rb wb]. cbn [snd] in Hwfb, Hfb.
  pose proof (remove_all_foreign E userId (names_of items)
                (map row_bean (managed_rows userId (db w))) rb wb) as Hfc.
  destruct (remove_all E (names_of items) _ rb wb) as [rc wc]. cbn [snd] in *.
  unfold foreign_rows in *. rewrite log_summary_db. rewrite Hfc; [exact Hfb |].
  intros b row Hb Hrow Hid.
  eapply (snapshot_not_foreign userId (db w) (db wb)); eauto. by destruct Hwf.
Qed.

(** ** Tasks the cycle leaves alone *)

Lemma spares_refl k w : spares k w w.
Proof. split; [reflexivity |]. exists []. split; [reflexivity | constructor]. Qed.

Lemma spares_trans k w1 w2 w3 : spares k w1 w2 → spares k w2 w3 → spares k w1 w3.
Proof.
  intros (Hm & n1 & Ht & H1) (Hm' & n2 & Ht' & H2). split; [congruence |].
  exists (n2 ++ n1)%list. split.
  - rewrite Ht', Ht. by rewrite app_assoc.
  - by apply Forall_app.
Qed.

Lemma quietly_spares k w w' : quietly w w' → spares k w w'.
Proof.
  intros (_ & Hm & new & Ht & Hall). split; [by rewrite Hm |].
  exists new. split; [exact Ht |].
  eapply Forall_impl; [exact Hall |]. intros e. by destruct e.
Qed.

Ltac spare_events :=
  repeat (apply Forall_cons;
          split; [first [reflexivity
                        | apply bool_decide_eq_false_2; cbn [id]; congruence] |]);
  apply Forall_nil_2.

Lemma start_if_active_spares E d k bean r w k0 :
  k ≠ k0 → spares k0 w (start_if_active E d k bean r w).2.
Proof.
  intros Hk. unfold start_if_active.
  destruct (truthy (bean_get bean "active")); [| apply spares_refl].
  destruct (monitorList w !! k) as [h|]; unfold stop, start, processing_failed.
  - destruct (stop_error E h).
    + cbn [fst snd]. split; [reflexivity |].
      cbn [trace log emit]. exists_new. spare_events.
    + destruct (start_error E bean); cbn [fst snd]; (split;
        [cbn [monitorList log emit set_monitorList]; by rewrite lookup_insert_ne
        | cbn [trace log emit set_monitorList]; exists_new; spare_events]).
  - destruct (start_error E bean); cbn [fst snd]; (split;
      [cbn [monitorList log emit set_monitorList]; by rewrite lookup_insert_ne
      | cbn [trace log emit set_monitorList]; exists_new; spare_events]).
Qed.

Lemma process_monitor_spares E userId d r w k0 :
  foreign_id userId (db w) k0 →
  spares k0 w (process_monitor E userId d r w).2.
Proof.
  intros [Hlt Hforeign].
  unfold process_monitor, findOrCreateMonitor, R_findOne. cbv beta iota zeta.
  set (w1 := emit (DbFindOne (get_prop d "name") userId) w).
  assert (H1 : spares k0 w w1) by (apply quietly_spares; by apply quietly_emit).
  assert (Hbody : ∀ b0 : Bean,
    id b0 ≠ Some k0 →
    spares k0 w1
      (let isNew := negb (bool_decide (is_Some (id b0))) in
       let bean := import_data (configToMonitorBean d userId) b0 in
       match bean_validate E bean with
       | Some msg => processing_failed d msg r w1
       | None =>
           match R_store E bean w1 with
           | (Throw msg, w2) => processing_failed d msg r w2
           | (Normal (k, bean), w2) =>
               let '(result, w3) :=
                 if isNew then
                   (mkResult (S (added r)) (updated r) (removed r) (result_errors r),
                    log Info ("Added monitor: " +:+ to_string (bean_get bean "name")) w2)
                 else
                   (mkResult (added r) (S (updated r)) (removed r) (result_errors r),
                    log Info ("Updated monitor: " +:+ to_string (bean_get bean "name")) w2) in
               start_if_active E d k bean result w3
           end
       end).2).
  { intros b0 Hid. cbv zeta. unfold processing_failed.
    set (bean := import_data (configToMonitorBean d userId) b0).
    assert (Hidb : id bean = id b0) by reflexivity.
    destruct (bean_validate E bean).
    { cbn [snd]. apply quietly_spares, quietly_log. }
    unfold R_store. destruct (store_error E bean).
    { cbn [snd]. split; [reflexivity |]. cbn [trace log emit]. exists_new.
      spare_events. }
    destruct (id bean) as [k|] eqn:Hk.
    - assert (Hne : k ≠ k0) by congruence.
      destruct (negb _);
        (eapply spares_trans; [| by apply start_if_active_spares]);
        (split; [reflexivity |]); cbn [trace log emit set_db]; exists_new;
        spare_events.
    - assert (Hne : next_id (db w1) ≠ k0).
      { change (db w1) with (db w). lia. }
      destruct (negb _);
        (eapply spares_trans; [| by apply start_if_active_spares]);
        (split; [reflexivity |]); cbn [trace log emit set_db]; exists_new;
        spare_events. }
  eapply spares_trans; [exact H1 |].
  destruct (List.find _ (rows (db w))) as [[k p]|] eqn:Hfind; simpl fmap; cbv beta iota;
    apply Hbody.
  - cbn [row_bean id fst]. intros [= ->].
    apply find_matches in Hfind as [Hin Hm]. apply andb_true_iff in Hm as [_ Hm].
    specialize (Hforeign (k0, p) Hin eq_refl). unfold foreign in Hforeign.
    cbn [snd] in *. by rewrite Hm in Hforeign.
  - discriminate.
Qed.

Lemma process_monitor_foreign_id E userId d r w k0 :
  foreign_id userId (db w) k0 →
  foreign_id userId (db (process_monitor E userId d r w).2) k0.
Proof.
  intros [Hlt Hforeign]. unfold foreign_id.
  destruct (process_monitor_cases E userId d r w)
    as [(-> & _) | [(k & p & Hfound & -> & _) | (_ & _ & -> & _)]]; [by split | |];
    cbn [rows next_id].
  - split; [exact Hlt |]. intros row' Hin Hk0.
    apply in_map_iff in Hin as (row0 & <- & Hin0).
    apply find_matches in Hfound as [Hin Hm]. apply andb_true_iff in Hm as [_ Hm].
    destruct (decide (row0.1 = k)) as [Hk | Hk].
    + exfalso. rewrite update_row_fst in Hk0.
      assert (Heq : k = k0) by congruence.
      specialize (Hforeign (k, p) Hin Heq). unfold foreign in Hforeign.
      cbn [snd] in *. by rewrite Hm in Hforeign.
    + rewrite (update_row_miss _ _ _ Hk) in *. by apply Hforeign.
  - split; [lia |]. intros row Hin Hk0. apply in_app_or in Hin as [Hin | [<- | []]].
    + by apply Hforeign.
    + cbn [fst] in Hk0. lia.
Qed.

Lemma process_all_spares E userId l k0 : ∀ r w,
  foreign_id userId (db w) k0 →
  foreign_id userId (db (process_all E userId l r w).2) k0 ∧
  spares k0 w (process_all E userId l r w).2.
Proof.
  unfold process_all. induction l as [|d l IH]; intros r w Hf.
  - split; [exact Hf | apply spares_refl].
  - simpl. pose proof (process_monitor_foreign_id E userId d r w k0 Hf) as Hf1.
    pose proof (process_monitor_spares E userId d r w k0 Hf) as Hs1.
    destruct (process_monitor E userId d r w) as [r1 w1]. cbn [snd] in *.
    destruct (IH r1 w1 Hf1) as [I1 I2]. split; [exact I1 |].
    by eapply spares_trans.
Qed.

Lemma remove_monitor_spares E names b r w k0 :
  id b ≠ Some k0 → spares k0 w (remove_monitor E names b r w).2.
Proof.
  intros Hid. unfold remove_monitor.
  destruct (has_name names b); [apply spares_refl |].
  assert (Htrash : ∀ w1, spares k0 w w1 →
            spares k0 w
              (match R_trash E b w1 with
               | (Throw msg, w2) => removing_failed b msg r w2
               | (Normal _, w2) =>
                   (mkResult (added r) (updated r) (S (removed r)) (result_errors r),
                    log Info ("Removed monitor: " +:+ to_string (bean_get b "name")) w2)
               end).2).
  { intros w1 H1. eapply spares_trans; [exact H1 |].
    unfold R_trash, removing_failed.
    destruct (trash_error E b); cbn [fst snd]; (split; [reflexivity |]);
      cbn [trace log emit set_db]; exists_new; spare_events. }
  destruct (id b) as [k|] eqn:Hk; [| apply Htrash, spares_refl].
  assert (Hne : k ≠ k0) by congruence.
  destruct (monitorList w !! k) as [h|]; [| apply Htrash, spares_refl].
  unfold stop. destruct (stop_error E h).
  - unfold removing_failed. cbn [fst snd]. split; [reflexivity |].
    cbn [trace log emit]. exists_new. spare_events.
  - apply Htrash. split.
    + cbn [monitorList emit set_monitorList]. by rewrite lookup_delete_ne.
    + cbn [trace emit set_monitorList]. exists_new. spare_events.
Qed.

Lemma remove_all_spares E names existing k0 : ∀ r w,
  (∀ b, In b existing → id b ≠ Some k0) →
  spares k0 w (remove_all E names existing r w).2.
Proof.
  induction existing as [|b rest IH]; intros r w Hex; [apply spares_refl |].
  rewrite remove_all_cons. eapply spares_trans.
  - apply remove_monitor_spares. apply Hex. by left.
  - apply IH. intros b0 Hb0. apply Hex. by right.
Qed.

(** X2.  For an id the table has issued that is not the id of a managed
    record of the owner, a cycle leaves the handle registered under the id as
    it is and makes no call that concerns it: no store or trash of a record
    of that id, no stop and no start of its task. *)
Theorem sync_spares_foreign_ids (E : Env) (userId : Z) (w : World) (k : positive) :
  foreign_id userId (db w) k →
  spares k w (syncConfigMonitors E userId w).2.
Proof.
  intros Hf.
  destruct (sync_cases E userId w) as [[Hq _] | (config & w1 & items & Hread & Hmon & Hval)].
  { by apply quietly_spares. }
  pose proof (only_logged_quietly _ _ (readConfigFile_only_logged E w)) as Hq1.
  rewrite Hread in Hq1. cbn [snd] in Hq1.
  rewrite (sync_declared E userId w w1 config items Hread Hmon Hval).
  unfold R_find. cbv beta iota zeta.
  set (wa := emit (DbFind userId) (log Info (found_message (VArr items)) w1)).
  change (db (log Info (found_message (VArr items)) w1)) with (db w1).
  assert (Hqa : quietly w wa).
  { eapply quietly_trans; [exact Hq1 |].
    eapply quietly_trans; [apply quietly_log | by apply quietly_emit]. }
  destruct Hq1 as (Hdb1 & _). rewrite Hdb1.
  assert (Hfa : foreign_id userId (db wa) k).
  { destruct Hqa as (Hdba & _). by rewrite Hdba. }
  destruct (process_all_spares E userId items k empty_result wa Hfa) as [_ Hsb].
  destruct (process_all E userId items empty_result wa) as [rb wb]. cbn [snd] in Hsb.
  pose proof (remove_all_spares E (names_of items)
                (map row_bean (managed_rows userId (db w))) k rb wb) as Hsc.
  destruct (remove_all E (names_of items) _ rb wb) as [rc wc]. cbn [snd] in *.
  eapply spares_trans; [by apply quietly_spares |].
  eapply spares_trans; [exact Hsb |].
  eapply spares_trans.
  - apply Hsc. intros b Hb Hid.
    apply managed_rows_beans in Hb as (row & -> & Hin & Hman).
    destruct Hf as [_ Hf]. cbn [row_bean id] in Hid. injection Hid as Hid.
    specialize (Hf row Hin Hid). unfold foreign in Hf. by rewrite Hman in Hf.
  - apply quietly_spares. unfold log_summary.
    destruct (Nat.ltb _ _); [eapply quietly_trans |]; apply quietly_log.
Qed.

(** ** What the counts of a cycle account for *)

Lemma start_if_active_counts E d k bean r w :
  let r' := (start_if_active E d k bean r w).1 in
  added r' = added r ∧ updated r' = updated r ∧ removed r' = removed r ∧
  ∃ f, (f ≤ 1)%nat ∧ length (result_errors r') = (length (result_errors r) + f)%nat.
Proof.
  unfold start_if_active, stop, start, processing_failed, push_error.
  destruct (truthy _); [| repeat split; exists 0%nat; simpl; lia].
  destruct (monitorList w !! k) as [h|]; [destruct (stop_error E h) |];
    try destruct (start_error E bean); cbn [fst added updated removed result_errors];
    repeat split;
    first [ exists 0%nat; split; [lia |]; lia
          | exists 1%nat; split; [lia |]; rewrite length_app; simpl; lia ].
Qed.

(** A turn of the processing loop counts its definition once as added or
    updated, or reports an error for it, or both. *)
Lemma process_monitor_counts E userId d r w :
  let r' := (process_monitor E userId d r w).1 in
  ∃ s f, (s ≤ 1 ∧ f ≤ 1 ∧ 1 ≤ s + f)%nat ∧
    (added r' + updated r' = added r + updated r + s)%nat ∧
    length (result_errors r') = (length (result_errors r) + f)%nat.
Proof.
  unfold process_monitor, findOrCreateMonitor, R_findOne. cbv beta iota zeta.
  set (w1 := emit (DbFindOne (get_prop d "name") userId) w).
  assert (Hbody : ∀ b0 : Bean,
    let out :=
      (let isNew := negb (bool_decide (is_Some (id b0))) in
       let bean := import_data (configToMonitorBean d userId) b0 in
       match bean_validate E bean with
       | Some msg => processing_failed d msg r w1
       | None =>
           match R_store E bean w1 with
           | (Throw msg, w2) => processing_failed d msg r w2
           | (Normal (k, bean), w2) =>
               let '(result, w3) :=
                 if isNew then
                   (mkResult (S (added r)) (updated r) (removed r) (result_errors r),
                    log Info ("Added monitor: " +:+ to_string (bean_get bean "name")) w2)
                 else
                   (mkResult (added r) (S (updated r)) (removed r) (result_errors r),
                    log Info ("Updated monitor: " +:+ to_string (bean_get bean "name")) w2) in
               start_if_active E d k bean result w3
           end
       end) in
    ∃ s f, (s ≤ 1 ∧ f ≤ 1 ∧ 1 ≤ s + f)%nat ∧
      (added out.1 + updated out.1 = added r + updated r + s)%nat ∧
      length (result_errors out.1) = (length (result_errors r) + f)%nat).
  { intros b0. cbv zeta. unfold processing_failed, push_error.
    destruct (bean_validate E _).
    { exists 0%nat, 1%nat. cbn [fst added updated result_errors].
      rewrite length_app. simpl. lia. }
    unfold R_store. destruct (store_error E _).
    { exists 0%nat, 1%nat. cbn [fst added updated result_errors].
      rewrite length_app. simpl. lia. }
    destruct (id (import_data _ b0)); destruct (negb _);
      match goal with
      | |- context [start_if_active E d ?k ?b ?r ?w] =>
          destruct (start_if_active_counts E d k b r w) as (Ha & Hu & _ & f & Hf & He)
      end;
      exists 1%nat, f; rewrite Ha, Hu, He; cbn [added updated result_errors]; lia. }
  destruct (List.find _ (rows (db w))) as [row|]; simpl fmap; cbv beta iota; apply Hbody.
Qed.

Lemma process_all_counts E userId l : ∀ r w,
  let r' := (process_all E userId l r w).1 in
  (added r' + updated r' ≤ added r + updated r + length l)%nat ∧
  (added r + updated r + length (result_errors r) + length l
   ≤ added r' + updated r' + length (result_errors r'))%nat ∧
  (length (result_errors r) ≤ length (result_errors r'))%nat.
Proof.
  unfold process_all. induction l as [|d l IH]; intros r w; [simpl; lia |].
  simpl. destruct (process_monitor_counts E userId d r w) as (s & f & Hsf & Hau & He).
  destruct (process_monitor E userId d r w) as [r1 w1]. cbn [fst] in *.
  specialize (IH r1 w1). cbv zeta in IH. lia.
Qed.

(** The processing loop keeps every row id and appends one row per added
    record. *)
Lemma process_monitor_length E userId d r w :
  (length (rows (db (process_monitor E userId d r w).2)) + added r
   = length (rows (db w)) + added (process_monitor E userId d r w).1)%nat ∧
  ∀ k, In k (map fst (rows (db w))) →
       In k (map fst (rows (db (process_monitor E userId d r w).2))).
Proof.
  destruct (process_monitor_cases E userId d r w)
    as [(-> & -> & _) | [(k & p & _ & -> & ->) | (_ & _ & -> & ->)]]; cbn [rows].
  - by split.
  - split; [rewrite length_map; lia |]. intros k0 Hk0.
    rewrite map_map. erewrite map_ext; [exact Hk0 |]. intros row. apply update_row_fst.
  - split; [rewrite length_app; simpl; lia |]. intros k0 Hk0.
    rewrite map_app. apply in_or_app. by left.
Qed.

Lemma process_all_length E userId l : ∀ r w,
  (length (rows (db (process_all E userId l r w).2)) + added r
   = length (rows (db w)) + added (process_all E userId l r w).1)%nat ∧
  ∀ k, In k (map fst (rows (db w))) →
       In k (map fst (rows (db (process_all E userId l r w).2))).
Proof.
  unfold process_all. induction l as [|d l IH]; intros r w; [by split |].
  simpl. destruct (process_monitor_length E userId d r w) as [H1 H2].
  destruct (process_monitor E userId d r w) as [r1 w1]. cbn [fst snd] in *.
  destruct (IH r1 w1) as [I1 I2]. split; [lia | auto].
Qed.

Lemma length_rows_without k (l : list (positive * gmap string value)) :
  NoDup (map fst l) → In k (map fst l) →
  S (length (rows_without k l)) = length l.
Proof.
  unfold rows_without. induction l as [|row l IH]; intros Hnd Hin; [destruct Hin |].
  cbn [map] in Hnd. apply NoDup_cons in Hnd as [Hnotin Hnd].
  cbn [List.filter length].
  destruct (decide (row.1 = k)) as [Hk | Hk].
  - rewrite bool_decide_eq_true_2 by congruence. cbn [negb]. f_equal.
    clear IH Hin. subst k. induction l as [|row' l IH]; [reflexivity |].
    cbn [List.filter map] in *. apply not_elem_of_cons in Hnotin as [Hne Hnotin].
    apply NoDup_cons in Hnd as [_ Hnd].
    rewrite bool_decide_eq_false_2 by congruence. cbn [negb length]. by rewrite IH.
  - rewrite bool_decide_eq_false_2 by congruence. cbn [negb length]. f_equal.
    apply IH; [exact Hnd |]. destruct Hin as [Hin | Hin]; [by destruct Hk | exact Hin].
Qed.

(** A turn of the removal loop deletes one row when it counts one removal. *)
Lemma remove_monitor_length E names b r w :
  NoDup (map fst (rows (db w))) →
  (∃ row, In row (rows (db w)) ∧ id b = Some row.1) →
  let r' := (remove_monitor E names b r w).1 in
  (length (rows (db (remove_monitor E names b r w).2)) + removed r'
   = length (rows (db w)) + removed r)%nat ∧
  (removed r ≤ removed r' ≤ S (removed r))%nat.
Proof.
  intros Hnd (row & Hin & Hid). cbv zeta.
  destruct (has_name names b) eqn:Hl.
  { rewrite remove_monitor_listed by exact Hl. cbn [fst snd]. lia. }
  rewrite (remove_monitor_unlisted E names b row.1 r w Hid Hl).
  destruct (stop_failure E w row.1); [cbn [fst snd db log emit removed push_error]; lia |].
  cbv zeta.
  set (w1 := match monitorList w !! row.1 with Some _ => _ | None => w end).
  assert (Hdb : db w1 = db w) by (subst w1; by destruct (monitorList w !! row.1)).
  destruct (trash_error E b);
    cbn [fst snd db log emit set_db removed push_error rows]; rewrite Hdb; [lia |].
  pose proof (length_rows_without row.1 (rows (db w)) Hnd (in_map fst _ _ Hin)). lia.
Qed.

Lemma remove_monitor_keeps E names b r w row :
  In row (rows (db w)) → id b ≠ Some row.1 →
  In row (rows (db (remove_monitor E names b r w).2)).
Proof.
  intros Hin Hid.
  destruct (remove_monitor_rows E names b r w) as [_ [(-> & _) | (_ & ->)]]; [done |].
  apply filter_In. split; [exact Hin |].
  apply negb_true_iff, bool_decide_eq_false. congruence.
Qed.

Lemma remove_all_length E names existing : ∀ r w,
  wf_db (db w) → NoDup (map id existing) →
  (∀ b, In b existing → ∃ row, In row (rows (db w)) ∧ id b = Some row.1) →
  let r' := (remove_all E names existing r w).1 in
  (length (rows (db (remove_all E names existing r w).2)) + removed r'
   = length (rows (db w)) + removed r)%nat ∧
  (removed r ≤ removed r' ≤ removed r + length existing)%nat.
Proof.
  induction existing as [|b rest IH]; intros r w Hwf Hnd Hex; [simpl; lia |].
  cbv zeta. rewrite remove_all_cons.
  cbn [map] in Hnd. apply NoDup_cons in Hnd as [Hnotin Hnd].
  destruct (remove_monitor_length E names b r w) as [H1 H2];
    [by destruct Hwf | apply Hex; by left |].
  pose proof (remove_monitor_wf E names b r w Hwf) as Hwf1.
  destruct (IH (remove_monitor E names b r w).1 (remove_monitor E names b r w).2 Hwf1 Hnd)
    as [I1 I2].
  { intros b0 Hb0. destruct (Hex b0 (or_intror Hb0)) as (row & Hin & Hid).
    exists row. split; [| exact Hid]. apply remove_monitor_keeps; [exact Hin |].
    intros Hb. apply Hnotin. apply list_elem_of_In. rewrite Hb, <- Hid.
    by apply in_map. }
  cbn [length]. lia.
Qed.

Lemma snapshot_ids userId d :
  NoDup (map fst (rows d)) →
  NoDup (map id (map row_bean (managed_rows userId d))) ∧
  ∀ b, In b (map row_bean (managed_rows userId d)) →
       ∃ row, In row (rows d) ∧ id b = Some row.1.
Proof.
  intros Hnd. split.
  - unfold managed_rows. induction (rows d) as [|row l IH]; [constructor |].
    cbn [map] in Hnd. apply NoDup_cons in Hnd as [Hnotin Hnd].
    cbn [List.filter]. destruct (is_managed_by userId row.2); [| by apply IH].
    cbn [map]. apply NoDup_cons. split; [| by apply IH].
    intros Hin. apply Hnotin. apply list_elem_of_In in Hin.
    apply in_map_iff in Hin as (b & Hb & Hin).
    apply in_map_iff in Hin as (row' & <- & Hin). apply filter_In in Hin as [Hin _].
    cbn [row_bean id] in Hb. injection Hb as Hb. apply list_elem_of_In.
    rewrite <- Hb. by apply in_map.
  - intros b Hb. apply managed_rows_beans in Hb as (row & -> & Hin & _).
    by exists row.
Qed.

Lemma remove_monitor_errors_le E names b r w :
  (length (result_errors r) ≤ length (result_errors (remove_monitor E names b r w).1))%nat.
Proof.
  unfold remove_monitor, R_trash, removing_failed, stop, push_error.
  destruct (has_name names b); [done |].
  destruct (id b) as [k|];
    [destruct (monitorList w !! k) as [h|]; [destruct (stop_error E h) |] |];
    try destruct (trash_error E b); cbn [fst result_errors];
    rewrite ?length_app; simpl; lia.
Qed.

Lemma remove_all_errors_le E names existing : ∀ r w,
  (length (result_errors r) ≤ length (result_errors (remove_all E names existing r w).1))%nat.
Proof.
  induction existing as [|b rest IH]; intros r w; [done |].
  rewrite remove_all_cons. etrans; [apply (remove_monitor_errors_le E names b r w) |].
  apply IH.
Qed.

(** X3.  In a cycle that passes the validation gate, every definition is
    counted as added or updated or has an error reported (possibly both: a
    stored record whose task fails to start), so
    added + updated <= definitions <= added + updated + errors; [removed] is
    at most the number of the owner's managed records; and the table grows
    by one row per added record and shrinks by one per removed record. *)
Theorem sync_accounting (E : Env) (userId : Z) (w w1 : World)
    (config : value) (items : list value) :
  wf_db (db w) →
  readConfigFile E w = (Some config, w1) →
  get_prop config "monitors" = VArr items →
  validate_from items 0 [] = Normal [] →
  ∃ r w',
    syncConfigMonitors E userId w = (Normal r, w') ∧
    (added r + updated r ≤ length items)%nat ∧
    (length items ≤ added r + updated r + length (result_errors r))%nat ∧
    (removed r ≤ length (managed_rows userId (db w)))%nat ∧
    (length (rows (db w')) + removed r = length (rows (db w)) + added r)%nat.
Proof.
  intros Hwf Hread Hmon Hval.
  pose proof (readConfigFile_only_logged E w) as (Hdb1 & _).
  rewrite Hread in Hdb1. cbn [snd] in Hdb1.
  rewrite (sync_declared E userId w w1 config items Hread Hmon Hval).
  unfold R_find. cbv beta iota zeta.
  set (wa := emit (DbFind userId) (log Info (found_message (VArr items)) w1)).
  change (db (log Info (found_message (VArr items)) w1)) with (db w1).
  rewrite Hdb1.
  assert (Hdba : db wa = db w) by exact Hdb1.
  assert (Hwfa : wf_db (db wa)) by (by rewrite Hdba).
  destruct (process_all_counts E userId items empty_result wa) as (C1 & C2 & C3).
  destruct (process_all_length E userId items empty_result wa) as [L1 L2].
  destruct (process_all_foreign E userId items empty_result wa Hwfa) as [Hwfb _].
  pose proof (process_all_removed E userId items empty_result wa) as Hrem.
  rewrite Hdba in L1, L2.
  destruct (process_all E userId items empty_result wa) as [rb wb]. cbn [fst snd] in *.
  destruct (snapshot_ids userId (db w)) as [S1 S2]; [by destruct Hwf |].
  destruct (remove_all_length E (names_of items)
              (map row_bean (managed_rows userId (db w))) rb wb Hwfb S1) as [R1 R2].
  { intros b Hb. destruct (S2 b Hb) as (row & Hin & Hid).
    specialize (L2 row.1 (in_map fst _ _ Hin)).
    apply in_map_iff in L2 as (row' & Heq & Hin'). exists row'. split; [exact Hin' |].
    by rewrite Heq. }
  destruct (remove_all_counts E (names_of items)
              (map row_bean (managed_rows userId (db w))) rb wb) as (A1 & A2 & A3).
  pose proof (remove_all_errors_le E (names_of items)
                (map row_bean (managed_rows userId (db w))) rb wb) as He.
  destruct (remove_all E (names_of items) _ rb wb) as [rc wc]. cbn [fst snd] in *.
  exists rc, (log_summary rc wc). split; [reflexivity |].
  rewrite log_summary_db. rewrite length_map in R2.
  change (added empty_result) with 0%nat in *.
  change (updated empty_result) with 0%nat in *.
  change (removed empty_result) with 0%nat in *.
  change (result_errors empty_result) with (@nil string) in *.
  cbn [length] in *.
  repeat split; lia.
Qed.

(** ** The table after a cycle without errors *)

Lemma sync_clean_validates E userId w w1 config items r w' :
  readConfigFile E w = (Some config, w1) →
  get_prop config "monitors" = VArr items →
  syncConfigMonitors E userId w = (Normal r, w') →
  result_errors r = [] →
  validate_from items 0 [] = Normal [].
Proof.
  intros Hread Hmon Hsync Hnil. unfold syncConfigMonitors in Hsync.
  rewrite Hread, Hmon in Hsync. simpl truthy in Hsync. cbv iota in Hsync.
  rewrite loop_items_array in Hsync. simpl result_errors in Hsync.
  destruct (validate_from items 0 []) as [errs|msg] eqn:Hval; [| discriminate].
  destruct (Nat.ltb 0 (length errs)) eqn:Hlen.
  - injection Hsync as <- _. simpl in Hnil. subst errs. discriminate.
  - apply Nat.ltb_ge in Hlen. destruct errs; [reflexivity | simpl in Hlen; lia].
Qed.

(** X4.  After a cycle that returns without any error, the owner's managed
    records are the declared ones: every definition has a managed record of
    its name, and every managed record of the owner carries a declared
    name. *)
Theorem sync_clean_converges (E : Env) (userId : Z) (w w1 w' : World)
    (config : value) (items : list value) (r : sync_result) :
  wf_db (db w) →
  readConfigFile E w = (Some config, w1) →
  get_prop config "monitors" = VArr items →
  Forall (fun d => is_string (get_prop d "name") = true) items →
  syncConfigMonitors E userId w = (Normal r, w') →
  result_errors r = [] →
  (∀ d, In d items → has_row userId (db w') d) ∧
  (∀ row, In row (rows (db w')) → is_managed_by userId row.2 = true →
          has_name (names_of items) (row_bean row) = true).
Proof.
  intros Hwf Hread Hmon Hstr Hsync Hnil.
  pose proof (sync_clean_validates E userId w w1 config items r w' Hread Hmon Hsync Hnil)
    as Hval.
  pose proof (readConfigFile_only_logged E w) as (Hdb1 & _).
  rewrite Hread in Hdb1. cbn [snd] in Hdb1.
  pose proof (sync_declared E userId w w1 config items Hread Hmon Hval) as Hrun.
  unfold R_find in Hrun. cbv beta iota zeta in Hrun.
  set (wa := emit (DbFind userId) (log Info (found_message (VArr items)) w1)) in Hrun.
  change (db (log Info (found_message (VArr items)) w1)) with (db wa) in Hrun.
  assert (Hwfa : wf_db (db wa)) by (change (db wa) with (db w1); by rewrite Hdb1).
  pose proof (after_clean_cycle E userId items Hstr wa Hwfa) as Hclean.
  cbv zeta in Hclean.
  destruct (process_all E userId items empty_result wa) as [ra wb].
  cbn [fst snd] in Hclean.
  destruct (remove_all E (names_of items) _ ra wb) as [rc wc].
  cbn [fst snd] in Hclean.
  rewrite Hsync in Hrun. injection Hrun as -> ->.
  destruct (Hclean Hnil) as (_ & Hrows & Hlisted).
  rewrite log_summary_db. by split.
Qed.

(** ** The path is fixed by the first call *)

Lemma readConfigFile_path E w :
  configFilePath (readConfigFile E w).2 = configFilePath (getConfigFilePath E w).2.
Proof.
  unfold readConfigFile.
  destruct (getConfigFilePath E w) as [[p|] w0]; [| reflexivity].
  destruct (fs_file E p) as [[msg|doc]|]; try reflexivity.
  by destruct (negb (truthy doc) || negb (truthy (get_prop doc "monitors"))).
Qed.

Lemma log_all_path level prefix msgs : ∀ w,
  configFilePath (log_all level prefix msgs w) = configFilePath w.
Proof.
  unfold log_all. induction msgs as [|m msgs IH]; intros w; [reflexivity |].
  simpl. by rewrite IH.
Qed.

Lemma sync_path E userId w :
  configFilePath (syncConfigMonitors E userId w).2
  = configFilePath (getConfigFilePath E w).2.
Proof.
  rewrite <- readConfigFile_path. unfold syncConfigMonitors.
  destruct (readConfigFile E w) as [[config|] w1]; [| reflexivity].
  set (monitors := if truthy _ then _ else _).
  destruct (validate_from _ _ _) as [errs|msg]; [| reflexivity].
  destruct (Nat.ltb 0 (length errs)).
  { cbn [snd]. by rewrite log_all_path. }
  unfold R_find. cbv beta iota zeta.
  destruct monitors; try reflexivity.
  pose proof (process_all_path E userId items empty_result
                (emit (DbFind userId) (log Info (found_message (VArr items)) w1))) as Hp.
  destruct (process_all E userId items _ _) as [r3 w3]. cbn [snd] in Hp.
  pose proof (remove_all_path E (map (fun m => get_prop m "name") items)
                (map row_bean (managed_rows userId
                   (db (log Info (found_message (VArr items)) w1)))) r3 w3) as Hq.
  destruct (remove_all E _ _ r3 w3) as [r4 w4]. cbn [snd] in *.
  rewrite log_summary_path, Hq, Hp. reflexivity.
Qed.

(** X5.  The environment variable is read once.  The first call that finds
    it set caches the path in the module; from then on [getConfigFilePath]
    returns the cached path and a cycle keeps it, whatever the variable holds
    by then, even when it is unset. *)
Theorem path_fixed_by_first_call (E1 E2 : Env) (userId1 userId2 : Z) (w : World)
    (p : string) :
  configFilePath w = None →
  env_MONITORS_YAML_PATH E1 = Some p → p ≠ EmptyString →
  let w' := (syncConfigMonitors E1 userId1 w).2 in
  configFilePath w' = Some p ∧
  getConfigFilePath E2 w' = (Some p, w') ∧
  configFilePath (syncConfigMonitors E2 userId2 w').2 = Some p.
Proof.
  intros Hnone Henv Hp w'.
  assert (Htruthy : path_truthy (Some p) = true).
  { simpl. apply negb_true_iff. by apply String.eqb_neq. }
  assert (Hw' : configFilePath w' = Some p).
  { subst w'. rewrite sync_path. unfold getConfigFilePath.
    rewrite Hnone, Henv, Htruthy. reflexivity. }
  assert (Hget : getConfigFilePath E2 w' = (Some p, w')).
  { unfold getConfigFilePath. by rewrite Hw', Htruthy. }
  repeat split; [exact Hw' | exact Hget |].
  rewrite sync_path, Hget. exact Hw'.
Qed.

(** * More about the validator *)




(** ** Bound checks of values that are not numbers *)

Lemma drop_blanks_snoc l c :
  is_blank c = false → ∃ l', drop_blanks (l ++ [c]) = (l' ++ [c])%list.
Proof.
  intros Hc. induction l as [|x l IH]; simpl.
  - rewrite Hc. by exists [].
  - destruct (is_blank x); [exact IH |]. by exists (x :: l).
Qed.

Lemma is_lower_facts c :
  is_lower c = true →
  is_blank c = false ∧ Nat.eqb (nat_of_ascii c) 45 = false ∧
  Nat.eqb (nat_of_ascii c) 43 = false ∧ digit_of c = None.
Proof.
  unfold is_lower, is_blank, digit_of. intros H.
  apply andb_true_iff in H as [H1 H2].
  apply Nat.leb_le in H1. apply Nat.leb_le in H2.
  repeat split.
  - repeat (apply orb_false_iff; split); apply Nat.eqb_neq; lia.
  - apply Nat.eqb_neq; lia.
  - apply Nat.eqb_neq; lia.
  - cbv zeta. destruct (Z.leb_spec 48 (Z.of_nat (nat_of_ascii c)));
      destruct (Z.leb_spec (Z.of_nat (nat_of_ascii c)) 57); simpl; try reflexivity.
    lia.
Qed.

(** A string that starts with a lower-case letter is not a number. *)
Lemma string_to_number_word c rest :
  is_lower c = true → string_to_number (String c rest) = None.
Proof.
  intros Hc. destruct (is_lower_facts c Hc) as (Hb & H45 & H43 & Hd).
  unfold string_to_number, trim. cbn [list_ascii_of_string drop_blanks].
  rewrite Hb. cbn [rev].
  destruct (drop_blanks_snoc (rev (list_ascii_of_string rest)) c Hb) as (l' & ->).
  rewrite rev_app_distr. cbn [rev app].
  rewrite H45, H43. cbn [parse_digits]. by rewrite Hd.
Qed.

(** X7.  The bound checks compare after conversion to a number.  An
    [interval] or [retryInterval] that is null (a key left empty in the
    YAML) or a boolean counts as 0 or 1 and gets the lower-bound message,
    once, and no upper-bound message; one that is a string starting with a
    lower-case letter is not a number, so both comparisons are false and it
    gets neither message. *)
Theorem bounds_of_non_numbers (monitorConfig : value) (index : nat) (v : validation)
    (field : string) :
  field = "interval" ∨ field = "retryInterval" →
  validateMonitorConfig monitorConfig index = Normal v →
  ((get_prop monitorConfig field = VNull ∨
    ∃ b, get_prop monitorConfig field = VBool b) →
     count_occ string_dec (errors v) (msg_at_least monitorConfig field) = 1%nat ∧
     count_occ string_dec (errors v) (msg_at_most monitorConfig field) = 0%nat) ∧
  (∀ c rest, get_prop monitorConfig field = VStr (String c rest) →
     is_lower c = true →
     count_occ string_dec (errors v) (msg_at_least monitorConfig field) = 0%nat ∧
     count_occ string_dec (errors v) (msg_at_most monitorConfig field) = 0%nat).
Proof.
  intros Hfield H.
  destruct (count_occ_verdict monitorConfig index v field Hfield H) as [-> ->].
  split.
  - intros [-> | [[] ->]]; by split.
  - intros c rest -> Hc. unfold lt_num, gt_num. cbn [to_number strict_eq].
    by rewrite (string_to_number_word c rest Hc).
Qed.

(** ** Status codes that are neither a list nor a string *)

Lemma default_codes_json : MONITOR_DEFAULTS !! "accepted_statuscodes_json" = None.
Proof. vm_compute. reflexivity. Qed.

(** X8.  Status codes that are neither a list nor a string are dropped
    without a message: when a definition gives [accepted_statuscodes] a
    number, a boolean, null or a mapping, the bean data has no
    [accepted_statuscodes], and its [accepted_statuscodes_json] is whatever
    the definition itself declares under that key, if anything. *)
Theorem accepted_statuscodes_dropped (config : value) (userId : Z) (x : value) :
  own_props config !! "accepted_statuscodes" = Some x →
  is_array x = false → is_string x = false →
  configToMonitorBean config userId !! "accepted_statuscodes" = None ∧
  configToMonitorBean config userId !! "accepted_statuscodes_json"
    = own_props config !! "accepted_statuscodes_json".
Proof.
  intros Hx Harr Hstr. unfold configToMonitorBean.
  set (merged := own_props config ∪ MONITOR_DEFAULTS).
  assert (Hcodes : obj_get merged "accepted_statuscodes" = x).
  { unfold obj_get. subst merged. rewrite declared_or_default_union.
    unfold declared_or_default. by rewrite Hx. }
  rewrite Hcodes, Harr, Hstr.
  assert (Hnot : ∀ k, k = "accepted_statuscodes" ∨ k = "accepted_statuscodes_json" →
                      k ∉ jsonFields).
  { intros k [-> | ->]; unfold jsonFields; not_listed. }
  split; rewrite !lookup_insert_ne by done;
    (rewrite serialize_fields_lookup_ne by (apply Hnot; auto)).
  - apply lookup_delete_eq.
  - rewrite lookup_delete_ne by done. subst merged.
    rewrite declared_or_default_union. unfold declared_or_default.
    destruct (own_props config !! "accepted_statuscodes_json"); [reflexivity |].
    apply default_codes_json.
Qed.

(** ** A [monitors] entry that is not a list *)

(** X9.  A document whose [monitors] is truthy but not a list, and whose
    validation loop finds nothing to reject (a number, [true], a mapping
    without [length]): the cycle throws at [monitors.map] right after the
    [R.find], so its promise rejects; it has only logged and read, the table
    and the registry are as before. *)
Theorem sync_monitors_not_array (E : Env) (userId : Z) (w w1 : World) (config : value) :
  readConfigFile E w = (Some config, w1) →
  is_array (get_prop config "monitors") = false →
  validate_from (loop_items (get_prop config "monitors")) 0 [] = Normal [] →
  ∃ w', syncConfigMonitors E userId w = (Throw "monitors.map is not a function", w') ∧
        quietly w w' ∧ In (DbFind userId) (trace w').
Proof.
  intros Hread Harr Hval.
  pose proof (only_logged_quietly _ _ (readConfigFile_only_logged E w)) as Hq.
  rewrite Hread in Hq. cbn [snd] in Hq.
  unfold syncConfigMonitors. rewrite Hread.
  rewrite (readConfigFile_monitors E w config w1 Hread).
  change (result_errors empty_result) with (@nil string). rewrite Hval.
  cbn [length Nat.ltb Nat.leb]. unfold R_find. cbv beta iota zeta.
  destruct (get_prop config "monitors"); try discriminate;
    (eexists; split; [reflexivity |]; split;
     [ eapply quietly_trans; [exact Hq |];
       eapply quietly_trans; [apply quietly_log | by apply quietly_emit]
     | by left ]).
Qed.

(** ** Definitions on which the validator throws *)

Lemma prototype_key_not_own key :
  key ∈ Object_prototype_keys → REQUIRED_FIELDS_BY_TYPE !! key = None.
Proof.
  unfold Object_prototype_keys. intros H.
  repeat (apply elem_of_cons in H as [-> | H]; [vm_compute; reflexivity |]).
  by apply elem_of_nil in H.
Qed.

Lemma validateMonitorConfig_throws_iff monitorConfig index :
  (∃ msg, validateMonitorConfig monitorConfig index = Throw msg) ↔ throws_on monitorConfig.
Proof.
  unfold throws_on. split.
  - intros [msg H].
    assert (Hc : monitorConfig = VUndef ∨ monitorConfig = VNull ∨
                 ∃ errs, check_type monitorConfig index errs = Throw msg).
    { unfold validateMonitorConfig in H.
      destruct monitorConfig; [by left | by right; left | ..];
        right; right;
        (destruct (check_type _ index _) eqn:Hc; [discriminate |];
         injection H as <-; by eexists). }
    destruct Hc as [-> | [-> | [errs Hc]]]; [by left | by right; left |].
    right; right. unfold check_type, read_REQUIRED_FIELDS_BY_TYPE in Hc.
    destruct (truthy (get_prop monitorConfig "type")); [| discriminate]. cbn [negb] in Hc.
    destruct (REQUIRED_FIELDS_BY_TYPE !! _); [discriminate |].
    destruct (bool_decide _) eqn:Hb; [| discriminate].
    split; [reflexivity | by apply bool_decide_eq_true in Hb].
  - intros [-> | [-> | (Ht & Hk)]]; [by eexists | by eexists |].
    assert (Hc : ∀ errs, check_type monitorConfig index errs
                         = Throw "requiredFields is not iterable").
    { intros errs. unfold check_type, read_REQUIRED_FIELDS_BY_TYPE.
      rewrite Ht. cbn [negb]. rewrite (prototype_key_not_own _ Hk).
      by rewrite bool_decide_eq_true_2. }
    unfold validateMonitorConfig.
    destruct monitorConfig; try (simpl in Ht; discriminate).
    rewrite Hc. by eexists.
Qed.

Lemma validate_from_throws items : ∀ i errs,
  Exists throws_on items → ∃ msg, validate_from items i errs = Throw msg.
Proof.
  induction items as [|d items IH]; intros i errs H.
  - by apply Exists_nil in H.
  - cbn [validate_from].
    destruct (validateMonitorConfig d i) as [v|msg] eqn:Hv; [| by eexists].
    apply Exists_cons in H as [H | H]; [| by apply IH].
    apply (validateMonitorConfig_throws_iff d i) in H as [msg H]. congruence.
Qed.

(** X10.  When the list holds a definition on which the validator throws (a
    null item, or a type that names a member of [Object.prototype]), the
    cycle throws out of the validation loop: it returns no result, and it
    has only logged. *)
Theorem sync_validator_throws (E : Env) (userId : Z) (w w1 : World)
    (config : value) (items : list value) :
  readConfigFile E w = (Some config, w1) →
  get_prop config "monitors" = VArr items →
  Exists throws_on items →
  ∃ msg w', syncConfigMonitors E userId w = (Throw msg, w') ∧ only_logged w w'.
Proof.
  intros Hread Hmon Hex.
  destruct (validate_from_throws items 0 [] Hex) as [msg Hval].
  pose proof (sync_gate_closed E userId w w1 config items Hread Hmon) as Hgate.
  rewrite Hval in Hgate. specialize (Hgate ltac:(discriminate)).
  unfold syncConfigMonitors in *. rewrite Hread in *. rewrite Hmon in *.
  simpl truthy in *. cbv iota in *. rewrite loop_items_array in *.
  change (result_errors empty_result) with (@nil string) in *. rewrite Hval in *.
  by exists msg, (log Info (found_message (VArr items)) w1).
Qed.

(** ** The columns a stored record carries *)

Lemma import_data_lookup data b0 key :
  key ≠ "id" →
  props (import_data data b0) !! key
  = match data !! key with Some v => Some v | None => props b0 !! key end.
Proof.
  intros Hk. unfold import_data. cbn [props]. rewrite lookup_union.
  rewrite lookup_delete_ne by done.
  destruct (data !! key), (props b0 !! key); reflexivity.
Qed.

(** X11.  What a successful turn of the processing loop stores for a
    definition with a string name: a managed record of that name, under the
    id of the record found for the name when there is one; a column other
    than [id] holds the value the bean data has for it, and a column the
    bean data does not mention keeps the value of the record found, so a
    field dropped from the definition is not cleared unless it has a
    default. *)
Theorem process_monitor_columns (E : Env) (userId : Z) (d : value) (r : sync_result)
    (w : World) (s : string) :
  get_prop d "name" = VStr s →
  let old := lookup_bean userId (db w) d in
  stores E (import_data (configToMonitorBean d userId) old) = true →
  ∃ row,
    In row (rows (db (process_monitor E userId d r w).2)) ∧
    matches (VStr s) userId row = true ∧
    (∀ k, id old = Some k → row.1 = k) ∧
    ∀ key, key ≠ "id" →
      row.2 !! key = match configToMonitorBean d userId !! key with
                     | Some v => Some v
                     | None => props old !! key
                     end.
Proof.
  intros Hs old Hst.
  destruct (process_monitor_db E userId d r w) as [_ Hdb]. cbv zeta in Hdb.
  fold old in Hdb. rewrite Hst in Hdb.
  pose proof (find_lookup_bean userId d w) as Hfind. fold old in Hfind.
  destruct (List.find _ (rows (db w))) as [[k p]|].
  - destruct Hfind as [Hin Hold]. rewrite Hold in Hdb.
    cbn [id import_data row_bean fst] in Hdb. destruct Hdb as [-> _].
    set (p' := props (import_data (configToMonitorBean d userId) (row_bean (k, p)))).
    exists (k, p'). split; [| split; [| split]].
    + cbn [rows]. rewrite <- (update_row_hit k p' p). by apply in_map.
    + by apply import_data_matches.
    + rewrite Hold. cbn [row_bean id fst]. by intros k0 [= ->].
    + intros key Hkey. cbn [snd]. subst p'. rewrite Hold. by apply import_data_lookup.
  - rewrite Hfind in Hdb. cbn [id import_data R_dispense] in Hdb.
    destruct Hdb as [-> _]. eexists. split; [| split; [| split]].
    + cbn [rows]. apply in_or_app. right. left. reflexivity.
    + by apply import_data_matches.
    + rewrite Hfind. discriminate.
    + intros key Hkey. cbn [snd]. rewrite Hfind.
      change (delete "id" (configToMonitorBean d userId) ∪ ∅)
        with (props (import_data (configToMonitorBean d userId) R_dispense)).
      by apply import_data_lookup.
Qed.

(** * The socket handlers *)

Lemma get_ok b rest : get_prop (VObj (("ok", VBool b) :: rest)) "ok" = VBool b.
Proof. unfold get_prop. cbn [list_to_map foldr]. by rewrite lookup_insert_eq. Qed.

(** X12.  What the manual sync answers.  When [checkLogin] throws, nothing
    is run and the world is untouched.  Once it has passed, the handler
    leaves the world exactly as the cycle left it, whatever it answers: an
    error answer rolls nothing back.  The answer has [ok: true] exactly when
    the cycle returned a result without errors and the monitor list could be
    sent. *)
Theorem manual_sync_reply (E : Env) (srv : Server) (socket : Socket) (w : World) :
  (∀ msg, checkLogin srv socket = Some msg →
     on_syncConfigMonitors E srv socket w = (reply_error msg, w)) ∧
  (checkLogin srv socket = None →
     (on_syncConfigMonitors E srv socket w).2
       = (syncConfigMonitors E (userID socket) w).2) ∧
  (get_prop (on_syncConfigMonitors E srv socket w).1 "ok" = VBool true ↔
     checkLogin srv socket = None ∧ sendMonitorList srv socket = None ∧
     ∃ r, (syncConfigMonitors E (userID socket) w).1 = Normal r ∧
          result_errors r = []).
Proof.
  unfold on_syncConfigMonitors. split; [| split].
  - by intros msg ->.
  - intros ->. destruct (syncConfigMonitors E (userID socket) w) as [[r|msg] w'];
      [destruct (sendMonitorList srv socket) |]; reflexivity.
  - destruct (checkLogin srv socket) as [msg|].
    { split; [discriminate | intros (? & _); discriminate]. }
    destruct (syncConfigMonitors E (userID socket) w) as [[r|msg] w']; cbn [fst].
    2:{ split; [discriminate | intros (_ & _ & r & ? & _); discriminate]. }
    destruct (sendMonitorList srv socket) as [msg|].
    { split; [discriminate | intros (_ & ? & _); discriminate]. }
    cbn [fst]. unfold sync_reply. rewrite get_ok. split.
    + intros [= Hlen]. apply Nat.eqb_eq in Hlen. repeat split. exists r.
      split; [reflexivity |]. by destruct (result_errors r).
    + intros (_ & _ & r' & [= <-] & ->). reflexivity.
Qed.

(** X13.  A manual sync cannot tell an unreadable file from nothing to do.
    When the configured file is missing, or reading or parsing it throws (or
    no path is configured at all), the handler answers [ok: true] with
    [Sync complete: Added 0, Updated 0, Removed 0] and an empty error list;
    the diagnostic goes to the log only. *)
Theorem manual_sync_unreadable (E : Env) (srv : Server) (socket : Socket) (w : World) :
  checkLogin srv socket = None →
  sendMonitorList srv socket = None →
  match (getConfigFilePath E w).1 with
  | None => True
  | Some filePath =>
      fs_file E filePath = None ∨ ∃ msg, fs_file E filePath = Some (LoadError msg)
  end →
  (on_syncConfigMonitors E srv socket w).1
    = VObj [("ok", VBool true); ("added", VNum 0); ("updated", VNum 0);
            ("removed", VNum 0); ("errors", VArr []);
            ("msg", VStr "Sync complete: Added 0, Updated 0, Removed 0")] ∧
  only_logged w (on_syncConfigMonitors E srv socket w).2.
Proof.
  intros Hlogin Hsend Hfile.
  assert (Hnone : (readConfigFile E w).1 = None).
  { unfold readConfigFile. destruct (getConfigFilePath E w) as [[p|] w0]; [| reflexivity].
    cbn [fst] in Hfile. destruct Hfile as [-> | [msg ->]]; reflexivity. }
  pose proof (readConfigFile_only_logged E w) as Hread.
  unfold on_syncConfigMonitors. rewrite Hlogin. unfold syncConfigMonitors.
  destruct (readConfigFile E w) as [[config|] w1]; [discriminate |].
  rewrite Hsend. cbn [fst snd]. split; [reflexivity |].
  eapply only_logged_trans; [exact Hread | apply only_logged_log].
Qed.

(** X14.  What the status handler answers once [checkLogin] has passed:
    either no path is configured, and both [exists] and [path] are null
    ([exists] is not [false] then); or [path] is the configured path, which
    the module has cached by then, and [exists] is the boolean that says
    whether a file is there.  The handler touches neither the table nor the
    registry. *)
Theorem config_file_status (E : Env) (srv : Server) (socket : Socket) (w : World) :
  checkLogin srv socket = None →
  ∃ e p w',
    on_getConfigFileStatus E srv socket w
      = (VObj [("ok", VBool true); ("exists", e); ("path", p)], w') ∧
    only_logged w w' ∧
    ((e = VNull ∧ p = VNull ∧ (getConfigFilePath E w).1 = None) ∨
     ∃ filePath, e = VBool (existsSync E filePath) ∧ p = VStr filePath ∧
                 configFilePath w' = Some filePath).
Proof.
  intros Hlogin. unfold on_getConfigFileStatus, configFileExists. rewrite Hlogin.
  pose proof (getConfigFilePath_only_logged E w) as H1.
  unfold getConfigFilePath in *.
  destruct (path_truthy (configFilePath w)) eqn:Hc.
  - destruct (configFilePath w) as [p|] eqn:Hp; [| discriminate].
    cbn [fst snd]. rewrite Hp, Hc. cbn [path_value].
    eexists _, _, _. split; [reflexivity |]. split; [apply only_logged_refl |].
    right. by exists p.
  - destruct (path_truthy (env_MONITORS_YAML_PATH E)) eqn:He.
    + destruct (env_MONITORS_YAML_PATH E) as [p|] eqn:Hp; [| discriminate].
      cbn [fst snd configFilePath set_configFilePath]. rewrite He.
      cbn [path_value].
      eexists _, _, _. split; [reflexivity |]. split; [exact H1 |].
      right. by exists p.
    + cbn [fst snd]. rewrite ?Hc, ?He. cbn [path_value].
      eexists _, _, _. split; [reflexivity |]. split; [apply only_logged_refl |].
      by left.
Qed.

(** * The file watcher *)

Ltac splits := repeat lazymatch goal with |- _ ∧ _ => split end.

Ltac logged H :=
  repeat (eapply only_logged_trans; [| apply only_logged_log]); exact H.

Ltac hsimpl :=
  cbn [world fileWatcher debounceTimer watchers timers next_handle written
       with_world note set_fileWatcher set_debounceTimer watch close
       setTimeout clearTimeout fired writeFileSync fst snd] in *.

(** ** One timer, one file watcher *)

(** The host after [if (fileWatcher) { fileWatcher.close(); fileWatcher = null; }]. *)
Lemma tidy_closed h :
  tidy h →
  let h1 := match fileWatcher h with
            | Some k => set_fileWatcher None (close k h)
            | None => h
            end in
  tidy h1 ∧ fileWatcher h1 = None ∧
  (∀ k filePath userId, watchers h1 !! k ≠ Some (FileWatcher filePath userId)) ∧
  (∀ k, dir_watcher_open h k → watchers h1 !! k = watchers h !! k) ∧
  timers h1 = timers h ∧ debounceTimer h1 = debounceTimer h ∧
  next_handle h1 = next_handle h ∧ world h1 = world h ∧ written h1 = written h.
Proof.
  intros Ht. pose proof Ht as (T1 & T2 & T3 & T4). cbv zeta.
  destruct (fileWatcher h) as [k0|] eqn:Hfw.
  - splits; try reflexivity.
    + unfold tidy. hsimpl. splits.
      * exact T1.
      * intros k f u Hk. apply lookup_delete_Some in Hk as [Hne Hk].
        specialize (T2 k f u Hk). congruence.
      * discriminate.
      * intros k Hk. split; [| by apply T4].
        rewrite lookup_delete_None. right. by apply T4.
    + intros k f u Hk. hsimpl. apply lookup_delete_Some in Hk as [Hne Hk].
      specialize (T2 k f u Hk). congruence.
    + intros k Hdir. hsimpl. apply lookup_delete_ne. intros <-.
      by apply (T3 k0 eq_refl).
  - splits; try reflexivity.
    + exact Ht.
    + exact Hfw.
    + intros k f u Hk. specialize (T2 k f u Hk). congruence.
Qed.

Lemma startFileWatcher_tidy E N userId h :
  tidy h →
  tidy (startFileWatcher E N userId h) ∧
  (∀ k, dir_watcher_open h k →
        watchers (startFileWatcher E N userId h) !! k = watchers h !! k) ∧
  timers (startFileWatcher E N userId h) = timers h ∧
  debounceTimer (startFileWatcher E N userId h) = debounceTimer h ∧
  written (startFileWatcher E N userId h) = written h ∧
  only_logged (world h) (world (startFileWatcher E N userId h)).
Proof.
  intros Ht. unfold startFileWatcher.
  pose proof (getConfigFilePath_only_logged E (world h)) as Hlog.
  destruct (getConfigFilePath E (world h)) as [[p|] w]; cbn [snd] in Hlog;
    [| splits; try reflexivity; [exact Ht | exact Hlog]].
  assert (Ht0 : tidy (with_world w h)) by exact Ht.
  destruct (tidy_closed (with_world w h) Ht0)
    as (Ht1 & Hfw1 & Hnofile & Hdir & Htm & Hdt & Hnh & Hw & Hwr).
  cbv zeta in Ht1, Hfw1, Hnofile, Hdir, Htm, Hdt, Hnh, Hw, Hwr.
  set (h1 := match fileWatcher (with_world w h) with
             | Some k => set_fileWatcher None (close k (with_world w h))
             | None => with_world w h
             end) in *.
  pose proof Ht1 as (T1 & T2 & T3 & T4).
  assert (Hlog1 : only_logged (world h) (world h1)) by (by rewrite Hw).
  assert (Hfresh : ∀ k, dir_watcher_open h k → next_handle h1 ≠ k).
  { intros k Hopen <-. pose proof (Hdir _ Hopen) as Heq.
    destruct Hopen as (d & f & u & Hk). cbn [watchers with_world] in Heq.
    rewrite Hk in Heq.
    destruct (T4 (next_handle h1)) as [Hn _]; [lia |]. congruence. }
  destruct (negb (existsSync E p)).
  - destruct (watch_error N (dirname N p)).
    { hsimpl. splits; try assumption. logged Hlog1. }
    hsimpl. splits; try assumption; try (logged Hlog1).
    + unfold tidy. hsimpl. splits.
      * exact T1.
      * intros k f u Hk.
        apply lookup_insert_Some in Hk as [[_ ?] | [_ Hk]]; [discriminate |].
        by destruct (Hnofile k f u).
      * intros k Hk. congruence.
      * intros k Hk. split; [| apply T4; lia].
        apply lookup_insert_None. split; [apply T4; lia | lia].
    + intros k Hk. rewrite lookup_insert_ne by (by apply Hfresh). by apply Hdir.
  - destruct (watch_error N p).
    { hsimpl. splits; try assumption. logged Hlog1. }
    hsimpl. splits; try assumption; try (logged Hlog1).
    + unfold tidy. hsimpl. splits.
      * exact T1.
      * intros k f u Hk.
        apply lookup_insert_Some in Hk as [[-> _] | [_ Hk]]; [reflexivity |].
        by destruct (Hnofile k f u).
      * intros k [= <-] (d & f & u & Hk). unfold dir_watcher_open in *. hsimpl.
        rewrite lookup_insert_eq in Hk. discriminate.
      * intros k Hk. split; [| apply T4; lia].
        apply lookup_insert_None. split; [apply T4; lia | lia].
    + intros k Hk. rewrite lookup_insert_ne by (by apply Hfresh). by apply Hdir.
Qed.

Lemma keeps_dirs_trans h1 h2 h3 :
  keeps_dirs h1 h2 → keeps_dirs h2 h3 → keeps_dirs h1 h3.
Proof.
  intros H12 H23 k Hk. pose proof (H12 k Hk) as Heq. rewrite <- Heq. apply H23.
  destruct Hk as (d & f & u & Hk). exists d, f, u. by rewrite Heq.
Qed.

Lemma startFileWatcher_inv E N userId h :
  tidy h → tidy (startFileWatcher E N userId h) ∧ keeps_dirs h (startFileWatcher E N userId h).
Proof. intros Ht. destruct (startFileWatcher_tidy E N userId h Ht) as (H1 & H2 & _). by split. Qed.

(** What the debounce leaves: the one timer it has just set. *)
Lemma on_file_event_spec filePath userId eventType h :
  tidy h →
  let h' := on_file_event filePath userId eventType h in
  tidy h' ∧
  timers h' = {[ next_handle h := mkPending eventType filePath userId ]} ∧
  debounceTimer h' = Some (next_handle h) ∧
  watchers h' = watchers h ∧ fileWatcher h' = fileWatcher h ∧
  world h' = world h ∧ written h' = written h.
Proof.
  intros Ht. pose proof Ht as (T1 & T2 & T3 & T4). cbv zeta. unfold on_file_event.
  assert (Hcleared : ∃ h1, h1 = match debounceTimer h with
                                | Some t0 => clearTimeout t0 h
                                | None => h
                                end ∧
            timers h1 = ∅ ∧ watchers h1 = watchers h ∧ fileWatcher h1 = fileWatcher h ∧
            next_handle h1 = next_handle h ∧ world h1 = world h ∧ written h1 = written h).
  { eexists. split; [reflexivity |]. split; [| by destruct (debounceTimer h)].
    apply map_eq. intros t. rewrite lookup_empty.
    destruct (debounceTimer h) as [t0|] eqn:Hd; hsimpl.
    - apply lookup_delete_None. destruct (decide (t0 = t)) as [-> | Hne]; [by left | right].
      destruct (timers h !! t) as [c|] eqn:Hc; [| reflexivity].
      specialize (T1 t c Hc). congruence.
    - destruct (timers h !! t) as [c|] eqn:Hc; [| reflexivity].
      specialize (T1 t c Hc). congruence. }
  destruct Hcleared as (h1 & Heq & Htm & Hw & Hf & Hn & Hwo & Hwr).
  rewrite <- Heq. clear Heq.
  hsimpl. splits; try congruence.
  - unfold tidy, dir_watcher_open. hsimpl. rewrite Htm, Hw, Hf, Hn. splits.
    + intros t c Hc. apply lookup_insert_Some in Hc as [[-> _] | [_ Hc]]; [reflexivity |].
      by rewrite lookup_empty in Hc.
    + exact T2.
    + exact T3.
    + intros k Hk. split; [apply T4; lia |].
      apply lookup_insert_None. split; [apply lookup_empty | lia].
  - rewrite Htm, Hn. apply insert_empty.
Qed.

Lemma stopFileWatcher_spec h :
  tidy h →
  let h' := stopFileWatcher h in
  tidy h' ∧ keeps_dirs h h' ∧
  fileWatcher h' = None ∧ debounceTimer h' = None ∧ timers h' = ∅ ∧
  (∀ k filePath userId, watchers h' !! k ≠ Some (FileWatcher filePath userId)) ∧
  only_logged (world h) (world h') ∧ written h' = written h.
Proof.
  intros Ht. cbv zeta. unfold stopFileWatcher.
  destruct (tidy_closed h Ht) as (Ht1 & Hfw1 & Hnofile & Hdir & Htm & Hdt & Hnh & Hw & Hwr).
  cbv zeta in Ht1, Hfw1, Hnofile, Hdir, Htm, Hdt, Hnh, Hw, Hwr.
  assert (Hh1 : ∃ h1, h1 = match fileWatcher h with
                           | Some k => note Info "File watcher stopped"
                                         (set_fileWatcher None (close k h))
                           | None => h
                           end ∧
            tidy h1 ∧ fileWatcher h1 = None ∧
            (∀ k f u, watchers h1 !! k ≠ Some (FileWatcher f u)) ∧
            keeps_dirs h h1 ∧ only_logged (world h) (world h1) ∧
            written h1 = written h).
  { eexists. split; [reflexivity |]. destruct (fileWatcher h) as [k|]; hsimpl.
    - splits; try assumption; try reflexivity. apply only_logged_log.
    - splits; try assumption; try reflexivity. apply only_logged_refl. }
  destruct Hh1 as (h1 & Heq & Ht2 & Hfw2 & Hnofile2 & Hdir2 & Hlog2 & Hwr2).
  rewrite <- Heq. clear Heq.
  pose proof Ht2 as (T1 & T2 & T3 & T4).
  destruct (debounceTimer h1) as [t|] eqn:Hd.
  - hsimpl. splits; try assumption; try reflexivity.
    + unfold tidy. hsimpl. splits.
      * intros t0 c Hc. apply lookup_delete_Some in Hc as [Hne Hc].
        specialize (T1 t0 c Hc). congruence.
      * exact T2.
      * exact T3.
      * intros k Hk. split; [by apply T4 |].
        apply lookup_delete_None. right. by apply T4.
    + apply map_eq. intros t0. rewrite lookup_empty. apply lookup_delete_None.
      destruct (decide (t = t0)) as [-> | Hne]; [by left | right].
      destruct (timers h1 !! t0) as [c|] eqn:Hc; [| reflexivity].
      specialize (T1 t0 c Hc). congruence.
  - splits; try assumption.
    apply map_eq. intros t0. rewrite lookup_empty.
    destruct (timers h1 !! t0) as [c|] eqn:Hc; [| reflexivity].
    specialize (T1 t0 c Hc). congruence.
Qed.

Lemma keeps_dirs_refl h : keeps_dirs h h.
Proof. by intros k _. Qed.

Lemma on_dir_event_inv E N filePath userId eventType filename h :
  tidy h →
  tidy (on_dir_event E N filePath userId eventType filename h) ∧
  keeps_dirs h (on_dir_event E N filePath userId eventType filename h).
Proof.
  intros Ht. unfold on_dir_event.
  destruct (_ && _); [| split; [exact Ht | (intros ? _; reflexivity)]].
  destruct (existsSync E filePath); [| split; [exact Ht | (intros ? _; reflexivity)]].
  destruct (syncConfigMonitors E userId _) as [[r|msg] w];
    [| split; [exact Ht | (intros ? _; reflexivity)]].
  destruct (startFileWatcher_inv E N userId
              (with_world w (note Info "Config file created, starting sync and file watcher" h))
              Ht) as [H1 H2].
  split; [exact H1 | exact H2].
Qed.

Lemma on_timer_inv E N t c h :
  tidy h → tidy (on_timer E N t c h).2 ∧ keeps_dirs h (on_timer E N t c h).2.
Proof.
  intros Ht. unfold on_timer.
  assert (Ht1 : tidy (fired t h)).
  { destruct Ht as (T1 & T2 & T3 & T4). unfold tidy. hsimpl. splits.
    - intros t0 c0 Hc. apply lookup_delete_Some in Hc as [_ Hc]. by eapply T1.
    - exact T2.
    - exact T3.
    - intros k Hk. split; [by apply T4 |]. apply lookup_delete_None. right. by apply T4. }
  set (h1 := note Info _ (fired t h)).
  assert (Ht2 : tidy h1) by exact Ht1.
  assert (Hd1 : keeps_dirs h h1) by (by intros k _).
  destruct (negb (existsSync E (p_filePath c))).
  - unfold R_find. cbv beta iota zeta.
    set (h2 := with_world _ _).
    assert (Ht3 : tidy h2) by exact Ht1.
    destruct (tidy_closed h2 Ht3) as (Ht4 & _ & _ & Hdir & _).
    cbv zeta in Ht4, Hdir.
    destruct (fileWatcher h2) as [k|]; [| split; [assumption | intros ? _; reflexivity]].
    cbn [snd].
    destruct (startFileWatcher_inv E N (p_userId c) _ Ht4) as [Ht5 Hd5].
    split; [exact Ht5 |]. eapply keeps_dirs_trans; [| exact Hd5]. exact Hdir.
  - destruct (syncConfigMonitors E (p_userId c) (world h1)) as [[r|msg] w]; (split; [assumption | intros ? _; reflexivity]).
Qed.

Lemma createSampleConfigFile_spec E N h :
  let h' := createSampleConfigFile E N h in
  watchers h' = watchers h ∧ timers h' = timers h ∧
  fileWatcher h' = fileWatcher h ∧ debounceTimer h' = debounceTimer h ∧
  next_handle h' = next_handle h ∧
  only_logged (world h) (world h').
Proof.
  cbv zeta. unfold createSampleConfigFile.
  pose proof (getConfigFilePath_only_logged E (world h)) as Hlog.
  destruct (getConfigFilePath E (world h)) as [[p|] w]; cbn [snd] in Hlog;
    [| by splits].
  destruct (existsSync E _); [by splits |].
  destruct (write_error N _); hsimpl; splits; try reflexivity; logged Hlog.
Qed.

Lemma createSampleConfigFile_inv E N h :
  tidy h → tidy (createSampleConfigFile E N h) ∧ keeps_dirs h (createSampleConfigFile E N h).
Proof.
  intros Ht. destruct (createSampleConfigFile_spec E N h) as (Hw & Ht' & Hf & Hd & Hn & _).
  cbv zeta in *. split.
  - unfold tidy, dir_watcher_open in *. by rewrite Hw, Ht', Hf, Hd, Hn.
  - intros k _. by rewrite Hw.
Qed.

Lemma initConfigFileMonitors_inv E N userId h :
  tidy h →
  tidy (initConfigFileMonitors E N userId h).2 ∧
  keeps_dirs h (initConfigFileMonitors E N userId h).2.
Proof.
  intros Ht. unfold initConfigFileMonitors.
  destruct (createSampleConfigFile_inv E N
              (note Info "Initializing config file monitors" h) Ht) as [Ht1 Hd1].
  set (h1 := createSampleConfigFile E N _) in *.
  destruct (syncConfigMonitors E userId (world h1)) as [[r|msg] w];
    [| split; [exact Ht1 | exact Hd1]].
  cbn [snd]. destruct (startFileWatcher_inv E N userId (with_world w h1) Ht1) as [Ht2 Hd2].
  split; [exact Ht2 |]. eapply keeps_dirs_trans; [exact Hd1 | exact Hd2].
Qed.

Lemma step_inv h h' : step h h' → tidy h → tidy h' ∧ keeps_dirs h h'.
Proof.
  intros Hstep Ht. destruct Hstep.
  - by apply initConfigFileMonitors_inv.
  - destruct (stopFileWatcher_spec h Ht) as (H1 & H2 & _). by split.
  - split; [exact Ht | (intros ? _; reflexivity)].
  - by apply on_dir_event_inv.
  - destruct (on_file_event_spec filePath userId eventType h Ht) as (H1 & _ & _ & Hw & _).
    split; [exact H1 |]. intros k0 _. cbv zeta in Hw. by rewrite Hw.
  - split; [exact Ht | (intros ? _; reflexivity)].
  - by apply on_timer_inv.
Qed.

Lemma rtc_inv h1 h2 : rtc step h1 h2 → tidy h1 → tidy h2 ∧ keeps_dirs h1 h2.
Proof.
  induction 1 as [|x y z Hxy _ IH]; [intros; split; [done | (intros ? _; reflexivity)] |].
  intros Ht. destruct (step_inv x y Hxy Ht) as [Hy Hd]. destruct (IH Hy) as [Hz Hd'].
  split; [exact Hz |]. by eapply keeps_dirs_trans.
Qed.

Lemma host0_tidy w : tidy (host0 w).
Proof.
  unfold tidy, dir_watcher_open. cbn [host0 timers watchers fileWatcher debounceTimer].
  splits.
  - intros t c Hc. by rewrite lookup_empty in Hc.
  - intros k f u Hk. by rewrite lookup_empty in Hk.
  - discriminate.
  - intros k _. by rewrite !lookup_empty.
Qed.


(** X16.  No step of the module closes a directory watcher: one that
    [startFileWatcher] opened when the file was missing stays open, with the
    same callback, through every later call and callback, [stopFileWatcher]
    included. *)
Theorem dir_watchers_stay_open (w : World) (h h' : Host) (k : nat) :
  rtc step (host0 w) h → rtc step h h' →
  dir_watcher_open h k →
  watchers h' !! k = watchers h !! k ∧
  watchers (stopFileWatcher h') !! k = watchers h !! k.
Proof.
  intros Hreach Hmore Hopen.
  destruct (rtc_inv _ _ Hreach (host0_tidy w)) as [Ht _].
  destruct (rtc_inv _ _ Hmore Ht) as [Ht' Hd]. split; [by apply Hd |].
  destruct (stopFileWatcher_spec h' Ht') as (_ & Hd' & _).
  by apply (keeps_dirs_trans h h' _ Hd Hd').
Qed.

(** ** The debounce *)

Lemma on_file_events_spec filePath userId (events : list string) : ∀ h,
  tidy h →
  let h' := foldl (fun h eventType => on_file_event filePath userId eventType h) h events in
  tidy h' ∧ watchers h' = watchers h ∧ fileWatcher h' = fileWatcher h ∧
  world h' = world h.
Proof.
  induction events as [|e events IH]; intros h Ht; [by splits |].
  cbn [foldl]. destruct (on_file_event_spec filePath userId e h Ht)
    as (Ht1 & _ & _ & Hw & Hf & Hwo & _).
  cbv zeta in *. destruct (IH _ Ht1) as (I1 & I2 & I3 & I4).
  splits; [exact I1 | congruence | congruence | congruence].
Qed.

(** X17.  The debounce.  However many change events the file watcher
    delivers in a burst, what is left is one pending timer, the one of the
    last event, and the world is as it was: no cycle has run yet.  When that
    timer fires and the file is there, the cycle runs once, for the owner of
    the watcher, and no timer is pending after it. *)
Theorem debounce_burst (E : Env) (N : Node) (filePath : string) (userId : Z)
    (earlier : list string) (last : string) (h : Host) :
  tidy h →
  let h' := foldl (fun h eventType => on_file_event filePath userId eventType h)
                  h (earlier ++ [last]) in
  ∃ t,
    timers h' = {[ t := mkPending last filePath userId ]} ∧
    debounceTimer h' = Some t ∧
    world h' = world h ∧
    (existsSync E filePath = true →
     let h'' := (on_timer E N t (mkPending last filePath userId) h').2 in
     world h'' =
       (syncConfigMonitors E userId
          (log Info ("Config file changed (" +:+ last +:+ "), re-syncing monitors...")
               (world h))).2 ∧
     timers h'' = ∅).
Proof.
  intros Ht. cbv zeta. rewrite foldl_app. cbn [foldl].
  destruct (on_file_events_spec filePath userId earlier h Ht) as (Ht1 & _ & _ & Hwo).
  cbv zeta in Ht1, Hwo.
  set (h1 := foldl _ h earlier) in *.
  destruct (on_file_event_spec filePath userId last h1 Ht1)
    as (Ht2 & Htm & Hdt & _ & _ & Hwo2 & _).
  cbv zeta in Ht2, Htm, Hdt, Hwo2.
  set (h2 := on_file_event filePath userId last h1) in *.
  exists (next_handle h1). splits; [exact Htm | exact Hdt | congruence |].
  intros Hex. unfold on_timer. cbn [p_filePath p_userId p_eventType].
  rewrite Hex. cbn [negb]. hsimpl. rewrite Hwo2, Hwo.
  destruct (syncConfigMonitors E userId _) as [[r|msg] w]; hsimpl;
    (split; [reflexivity |]); rewrite Htm; apply delete_singleton_eq.
Qed.

(** ** Stopping the watcher *)


(** ** The sweep when the file is gone *)

(** A turn of the sweep does to the table and to the registry what a turn of
    the removal loop does when no name is declared. *)
Lemma sweep_monitor_state E b r w1 w2 :
  db w1 = db w2 → monitorList w1 = monitorList w2 →
  db (sweep_monitor E b w1) = db (remove_monitor E [] b r w2).2 ∧
  monitorList (sweep_monitor E b w1) = monitorList (remove_monitor E [] b r w2).2.
Proof.
  intros Hdb Hml. unfold sweep_monitor, remove_monitor. cbn [has_name existsb].
  assert (Htrash : ∀ v1 v2, db v1 = db v2 → monitorList v1 = monitorList v2 →
    db (match R_trash E b v1 with
        | (Throw msg, w) => log Error ("Error removing monitor: " +:+ msg) w
        | (Normal _, w) =>
            log Info ("Removed monitor: " +:+ to_string (bean_get b "name")) w
        end)
    = db (match R_trash E b v2 with
          | (Throw msg, w) => removing_failed b msg r w
          | (Normal _, w) =>
              (mkResult (added r) (updated r) (S (removed r)) (result_errors r),
               log Info ("Removed monitor: " +:+ to_string (bean_get b "name")) w)
          end).2 ∧
    monitorList (match R_trash E b v1 with
        | (Throw msg, w) => log Error ("Error removing monitor: " +:+ msg) w
        | (Normal _, w) =>
            log Info ("Removed monitor: " +:+ to_string (bean_get b "name")) w
        end)
    = monitorList (match R_trash E b v2 with
          | (Throw msg, w) => removing_failed b msg r w
          | (Normal _, w) =>
              (mkResult (added r) (updated r) (S (removed r)) (result_errors r),
               log Info ("Removed monitor: " +:+ to_string (bean_get b "name")) w)
          end).2).
  { intros v1 v2 H1 H2. unfold R_trash, removing_failed.
    destruct (trash_error E b); cbn [fst snd db monitorList log emit set_db];
      rewrite ?H1, ?H2; by split. }
  destruct (id b) as [k|]; [| by apply Htrash].
  rewrite Hml. destruct (monitorList w2 !! k) as [handle|]; [| by apply Htrash].
  unfold stop. destruct (stop_error E handle).
  - unfold removing_failed. cbn [fst snd db monitorList log emit]. by split.
  - apply Htrash; cbn [db monitorList emit set_monitorList]; congruence.
Qed.

Lemma sweep_state E existing : ∀ r w1 w2,
  db w1 = db w2 → monitorList w1 = monitorList w2 →
  db (sweep E existing w1) = db (remove_all E [] existing r w2).2 ∧
  monitorList (sweep E existing w1) = monitorList (remove_all E [] existing r w2).2.
Proof.
  induction existing as [|b rest IH]; intros r w1 w2 Hdb Hml; [by split |].
  rewrite remove_all_cons. unfold sweep. cbn [foldl].
  destruct (sweep_monitor_state E b r w1 w2 Hdb Hml) as [H1 H2].
  by apply IH.
Qed.

Lemma startFileWatcher_tidy_free E N userId h :
  only_logged (world h) (world (startFileWatcher E N userId h)).
Proof.
  unfold startFileWatcher.
  pose proof (getConfigFilePath_only_logged E (world h)) as Hlog.
  destruct (getConfigFilePath E (world h)) as [[p|] w]; cbn [snd] in Hlog; [| exact Hlog].
  assert (Hw : world (match fileWatcher (with_world w h) with
                      | Some k => set_fileWatcher None (close k (with_world w h))
                      | None => with_world w h
                      end) = w) by (by destruct (fileWatcher (with_world w h))).
  set (h1 := match fileWatcher (with_world w h) with Some k => _ | None => _ end) in *.
  assert (Hlog1 : only_logged (world h) (world h1)) by (by rewrite Hw).
  destruct (negb (existsSync E p)).
  - destruct (watch_error N (dirname N p)); hsimpl; logged Hlog1.
  - destruct (watch_error N p); hsimpl; logged Hlog1.
Qed.


(** ** Initialisation *)

Lemma getConfigFilePath_cached E w w2 p :
  (getConfigFilePath E w).1 = Some p →
  configFilePath w2 = configFilePath (getConfigFilePath E w).2 →
  getConfigFilePath E w2 = (Some p, w2).
Proof.
  unfold getConfigFilePath. intros Hp Hc.
  destruct (path_truthy (configFilePath w)) eqn:Ht.
  - cbn [fst snd] in *. rewrite Hc, Ht. by rewrite Hp.
  - destruct (path_truthy (env_MONITORS_YAML_PATH E)) eqn:He; [| discriminate].
    cbn [fst snd configFilePath set_configFilePath] in *. rewrite Hc, He.
    by rewrite Hp.
Qed.

Lemma createSampleConfigFile_path E N h :
  configFilePath (world (createSampleConfigFile E N h))
  = configFilePath (getConfigFilePath E (world h)).2.
Proof.
  unfold createSampleConfigFile.
  destruct (getConfigFilePath E (world h)) as [[p|] w]; [| reflexivity].
  destruct (existsSync E _); [reflexivity |].
  destruct (write_error N _); reflexivity.
Qed.

Lemma createSampleConfigFile_written E N h :
  (getConfigFilePath E (world h)).1 = None →
  createSampleConfigFile E N h = h.
Proof.
  unfold createSampleConfigFile, getConfigFilePath.
  destruct (path_truthy (configFilePath (world h))) eqn:Hc.
  - cbn [fst]. intros Hnone. rewrite Hnone in Hc. discriminate.
  - destruct (path_truthy (env_MONITORS_YAML_PATH E)) eqn:He.
    + cbn [fst]. intros Hnone. rewrite Hnone in He. discriminate.
    + intros _. by destruct h.
Qed.

(** X20.  With the environment variable unset and no path cached,
    [initConfigFileMonitors] returns having done nothing but log: no sample
    file is written, no watcher is opened, no timer is set, and the table
    and the registry are untouched. *)
Theorem init_without_path (E : Env) (N : Node) (userId : Z) (h : Host) :
  env_MONITORS_YAML_PATH E = None →
  configFilePath (world h) = None →
  ∃ h', initConfigFileMonitors E N userId h = (Normal tt, h') ∧
        written h' = written h ∧ watchers h' = watchers h ∧ timers h' = timers h ∧
        fileWatcher h' = fileWatcher h ∧ debounceTimer h' = debounceTimer h ∧
        only_logged (world h) (world h').
Proof.
  intros Henv Hpath.
  assert (Hget : ∀ w, configFilePath w = None → getConfigFilePath E w = (None, w)).
  { intros w Hw. unfold getConfigFilePath. by rewrite Hw, Henv. }
  unfold initConfigFileMonitors.
  set (h1 := note Info "Initializing config file monitors" h).
  assert (Hp1 : configFilePath (world h1) = None) by exact Hpath.
  rewrite (createSampleConfigFile_written E N h1) by (by rewrite (Hget _ Hp1)).
  unfold syncConfigMonitors, readConfigFile. rewrite (Hget _ Hp1).
  unfold startFileWatcher. hsimpl.
  rewrite (Hget (log Info "No config file found or config file is invalid, skipping sync"
                     (world h1)) Hp1).
  eexists. split; [reflexivity |]. hsimpl. splits; try reflexivity.
  eapply only_logged_trans; apply only_logged_log.
Qed.

(** X21.  When the file declares a definition on which the validator throws,
    [initConfigFileMonitors] throws out of its first cycle and never reaches
    [startFileWatcher]: no watcher is opened and no timer set, so a later
    correction of the file is not noticed; the table and the registry are
    untouched. *)
Theorem init_sync_throws (E : Env) (N : Node) (userId : Z) (h : Host)
    (filePath : string) (doc : value) (items : list value) :
  (getConfigFilePath E (world h)).1 = Some filePath →
  fs_file E filePath = Some (Loaded doc) →
  get_prop doc "monitors" = VArr items →
  Exists throws_on items →
  ∃ msg h', initConfigFileMonitors E N userId h = (Throw msg, h') ∧
            watchers h' = watchers h ∧ timers h' = timers h ∧
            fileWatcher h' = fileWatcher h ∧ debounceTimer h' = debounceTimer h ∧
            only_logged (world h) (world h').
Proof.
  intros Hpath Hfile Hmon Hex.
  unfold initConfigFileMonitors.
  set (h0 := note Info "Initializing config file monitors" h).
  destruct (createSampleConfigFile_spec E N h0) as (Hw & Ht & Hf & Hd & _ & Hlog).
  cbv zeta in Hw, Ht, Hf, Hd, Hlog.
  pose proof (createSampleConfigFile_path E N h0) as Hcp.
  set (h1 := createSampleConfigFile E N h0) in *.
  assert (Hpath0 : (getConfigFilePath E (world h0)).1 = Some filePath).
  { rewrite <- Hpath. unfold getConfigFilePath. subst h0. hsimpl.
    cbn [configFilePath log].
    destruct (path_truthy (configFilePath (world h))); [reflexivity |].
    by destruct (path_truthy (env_MONITORS_YAML_PATH E)). }
  assert (Hget : getConfigFilePath E (world h1) = (Some filePath, world h1)).
  { apply (getConfigFilePath_cached E (world h0)); [exact Hpath0 | exact Hcp]. }
  assert (Hread : readConfigFile E (world h1) = (Some doc, world h1)).
  { unfold readConfigFile. rewrite Hget, Hfile.
    assert (Hdoc : truthy doc = true)
      by (destruct doc; try (simpl in Hmon; discriminate Hmon); reflexivity).
    by rewrite Hdoc, Hmon. }
  assert (Hthrows : ∃ msg w', syncConfigMonitors E userId (world h1) = (Throw msg, w') ∧
                              only_logged (world h1) w').
  { destruct (validate_from_throws items 0 [] Hex) as [msg Hval].
    pose proof (sync_gate_closed E userId (world h1) (world h1) doc items Hread Hmon)
      as Hgate.
    rewrite Hval in Hgate. specialize (Hgate ltac:(discriminate)).
    unfold syncConfigMonitors in *. rewrite Hread in *. rewrite Hmon in *.
    simpl truthy in *. cbv iota in *. rewrite loop_items_array in *.
    change (result_errors empty_result) with (@nil string) in *. rewrite Hval in *.
    by exists msg, (log Info (found_message (VArr items)) (world h1)). }
  destruct Hthrows as (msg & w' & Hsync & Hlog').
  rewrite Hsync. exists msg. eexists. split; [reflexivity |]. hsimpl.
  splits; try assumption.
  eapply only_logged_trans; [| exact Hlog'].
  eapply only_logged_trans; [apply only_logged_log | exact Hlog].
Qed.

(** ** A deleted file and an emptied file *)

Lemma remove_monitor_env E1 E2 names b r w :
  stop_error E1 = stop_error E2 → trash_error E1 = trash_error E2 →
  remove_monitor E1 names b r w = remove_monitor E2 names b r w.
Proof.
  intros Hs Ht. unfold remove_monitor, stop, R_trash. by rewrite Hs, Ht.
Qed.

Lemma remove_all_env E1 E2 names existing :
  stop_error E1 = stop_error E2 → trash_error E1 = trash_error E2 →
  ∀ r w, remove_all E1 names existing r w = remove_all E2 names existing r w.
Proof.
  intros Hs Ht. induction existing as [|b rest IH]; intros r w; [reflexivity |].
  rewrite !remove_all_cons. rewrite (remove_monitor_env E1 E2 names b r w Hs Ht).
  apply IH.
Qed.

(** X26.  For the table and the registry, deleting the watched file is the
    same as emptying it: the timer callback that finds the file gone leaves
    the table and [server.monitorList] exactly as a cycle over a document
    with an empty [monitors] list would have, the collaborators behaving
    alike. *)
Theorem deleted_file_like_empty_list (E E0 : Env) (N : Node) (t : nat) (c : Pending)
    (h : Host) (config : value) (w1 : World) :
  existsSync E (p_filePath c) = false →
  stop_error E0 = stop_error E →
  trash_error E0 = trash_error E →
  readConfigFile E0 (world h) = (Some config, w1) →
  get_prop config "monitors" = VArr [] →
  let w' := world (on_timer E N t c h).2 in
  let w0 := (syncConfigMonitors E0 (p_userId c) (world h)).2 in
  db w' = db w0 ∧ monitorList w' = monitorList w0.
Proof.
  intros Hgone Hs Ht Hread Hmon. cbv zeta.
  pose proof (readConfigFile_only_logged E0 (world h)) as (Hdb1 & Hml1 & _).
  rewrite Hread in Hdb1, Hml1. cbn [snd] in Hdb1, Hml1.
  rewrite (sync_declared E0 (p_userId c) (world h) w1 config [] Hread Hmon eq_refl).
  unfold R_find, process_all. cbv beta iota zeta. cbn [foldl names_of map db log emit].
  rewrite (remove_all_env E0 E [] _ Hs Ht). rewrite Hdb1.
  set (existing := map row_bean (managed_rows (p_userId c) (db (world h)))).
  set (wb := emit (DbFind (p_userId c)) (log Info (found_message (VArr [])) w1)).
  unfold on_timer. rewrite Hgone. cbn [negb].
  unfold R_find. cbv beta iota zeta. hsimpl. cbn [db log emit].
  fold existing.
  set (wa := emit (DbFind (p_userId c)) _).
  assert (Hdb : db wa = db wb) by (change (db (world h) = db w1); by rewrite Hdb1).
  assert (Hml : monitorList wa = monitorList wb)
    by (change (monitorList (world h) = monitorList w1); by rewrite Hml1).
  destruct (sweep_state E existing empty_result wa wb Hdb Hml) as [Sdb Sml].
  destruct (remove_all E [] existing empty_result wb) as [rc wc]. cbn [snd] in *.
  rewrite log_summary_db, log_summary_monitorList.
  destruct (fileWatcher h) as [k|]; [| by split]. cbn [snd].
  match goal with
  | |- db (world (startFileWatcher E N ?u ?h1)) = _ ∧ _ =>
      destruct (startFileWatcher_tidy_free E N u h1) as (Hd & Hm & _)
  end.
  hsimpl. rewrite Hd, Hm. by split.
Qed.

(** ** The directory watcher *)

(** X27.  The directory watcher answers to one file name only.  Events
    whose file name is not [monitors.yaml] change nothing, however many
    there are and whatever the configured path is: when the configured file
    has another name, its creation starts neither a cycle nor a file
    watcher. *)
Theorem creation_noticed_by_name_only (E : Env) (N : Node) (filePath : string)
    (userId : Z) (events : list (string * option string)) (h : Host) :
  Forall (fun ev => ev.2 ≠ Some "monitors.yaml") events →
  foldl (fun h ev => on_dir_event E N filePath userId ev.1 ev.2 h) h events = h.
Proof.
  intros Hall. induction Hall as [|[eventType filename] events Hne _ IH];
    [reflexivity |].
  cbn [foldl fst snd] in *. unfold on_dir_event at 2.
  rewrite bool_decide_eq_false_2 by exact Hne. exact IH.
Qed.

(** X28.  Directory watchers pile up.  Every call of [startFileWatcher]
    that finds the file missing (and whose [fs.watch] returns) opens a
    directory watcher under a handle that was free, keeps every directory
    watcher that was open, and leaves [fileWatcher] null, so the new watcher
    is out of reach of [stopFileWatcher] as well. *)
Theorem dir_watchers_pile_up (E : Env) (N : Node) (userId : Z) (h : Host)
    (filePath : string) :
  tidy h →
  (getConfigFilePath E (world h)).1 = Some filePath →
  existsSync E filePath = false →
  watch_error N (dirname N filePath) = None →
  let h' := startFileWatcher E N userId h in
  watchers h !! next_handle h = None ∧
  watchers h' !! next_handle h
    = Some (DirWatcher (dirname N filePath) filePath userId) ∧
  (∀ k, dir_watcher_open h k → watchers h' !! k = watchers h !! k) ∧
  fileWatcher h' = None ∧
  watchers (stopFileWatcher h') !! next_handle h
    = Some (DirWatcher (dirname N filePath) filePath userId).
Proof.
  intros Ht Hpath Hgone Hwatch. cbv zeta.
  pose proof Ht as (_ & _ & _ & T4).
  destruct (startFileWatcher_tidy E N userId h Ht) as (Ht' & Hkeep & _).
  assert (Hnew : watchers (startFileWatcher E N userId h) !! next_handle h
                 = Some (DirWatcher (dirname N filePath) filePath userId) ∧
                 fileWatcher (startFileWatcher E N userId h) = None).
  { unfold startFileWatcher.
    destruct (getConfigFilePath E (world h)) as [p w]. cbn [fst] in Hpath. subst p.
    rewrite Hgone, Hwatch. cbn [negb].
    destruct (tidy_closed (with_world w h)) as (_ & Hfw & _ & _ & _ & _ & Hn & _).
    { exact Ht. }
    cbv zeta in Hfw, Hn.
    set (h1 := match fileWatcher (with_world w h) with Some k => _ | None => _ end) in *.
    hsimpl. split; [| exact Hfw].
    rewrite Hn. apply lookup_insert_eq. }
  destruct Hnew as [Hnew Hfw].
  splits.
  - by apply T4.
  - exact Hnew.
  - exact Hkeep.
  - exact Hfw.
  - destruct (stopFileWatcher_spec _ Ht') as (_ & Hdirs & _).
    rewrite (Hdirs (next_handle h)); [exact Hnew |]. by eexists _, _, _.
Qed.

(** * More about the two loops *)

(** ** Tasks after a cycle without errors *)

Lemma start_if_active_registers E d k bean r w :
  truthy (bean_get bean "active") = true →
  result_errors r = [] →
  result_errors (start_if_active E d k bean r w).1 = [] →
  monitorList (start_if_active E d k bean r w).2 !! k = Some bean.
Proof.
  intros Hact Hr. unfold start_if_active, stop, start, processing_failed. rewrite Hact.
  destruct (monitorList w !! k) as [h|]; [destruct (stop_error E h) |];
    try destruct (start_error E bean); cbn [fst snd];
    try (intros Hnil; by destruct (push_error_nonempty _ _ Hnil));
    intros _; cbn [monitorList set_monitorList emit]; apply lookup_insert_eq.
Qed.

(** A turn that reports no error, for a definition that wants a task, leaves
    a handle registered under the id of the record it stored. *)
Lemma process_monitor_registers E userId d r w s :
  get_prop d "name" = VStr s →
  wants_task userId d = true →
  result_errors (process_monitor E userId d r w).1 = [] →
  running userId (process_monitor E userId d r w).2 d.
Proof.
  intros Hs Hact Hnil.
  assert (Hr : result_errors r = []).
  { destruct (result_errors r) eqn:He; [reflexivity |]. exfalso.
    apply (proj1 (process_monitor_errors E userId d r w)); [by rewrite He | exact Hnil]. }
  assert (Hst : stores E (import_data (configToMonitorBean d userId)
                            (lookup_bean userId (db w) d)) = true).
  { destruct (stores E _) eqn:Hst; [reflexivity |]. exfalso.
    by apply (proj2 (process_monitor_errors E userId d r w)). }
  destruct (process_monitor_db E userId d r w) as [_ Hdb]. cbv zeta in Hdb.
  rewrite Hst in Hdb.
  assert (Hreg : ∃ k, (id (lookup_bean userId (db w) d) = Some k ∨
                       (id (lookup_bean userId (db w) d) = None ∧ k = next_id (db w))) ∧
                      is_Some (monitorList (process_monitor E userId d r w).2 !! k)).
  { revert Hnil. unfold process_monitor, findOrCreateMonitor, R_findOne, lookup_bean.
    cbv beta iota zeta.
    set (w1 := emit (DbFindOne (get_prop d "name") userId) w).
    assert (Hbody : ∀ b0 : Bean,
      let out :=
        (let isNew := negb (bool_decide (is_Some (id b0))) in
         let bean := import_data (configToMonitorBean d userId) b0 in
         match bean_validate E bean with
         | Some msg => processing_failed d msg r w1
         | None =>
             match R_store E bean w1 with
             | (Throw msg, w2) => processing_failed d msg r w2
             | (Normal (k, bean), w2) =>
                 let '(result, w3) :=
                   if isNew then
                     (mkResult (S (added r)) (updated r) (removed r) (result_errors r),
                      log Info ("Added monitor: " +:+ to_string (bean_get bean "name")) w2)
                   else
                     (mkResult (added r) (S (updated r)) (removed r) (result_errors r),
                      log Info ("Updated monitor: " +:+ to_string (bean_get bean "name")) w2) in
                 start_if_active E d k bean result w3
             end
         end) in
      result_errors out.1 = [] →
      ∃ k, (id b0 = Some k ∨ (id b0 = None ∧ k = next_id (db w))) ∧
           is_Some (monitorList out.2 !! k)).
    { intros b0. cbv zeta. unfold processing_failed.
      destruct (bean_validate E _).
      { intros Hn. by destruct (push_error_nonempty _ _ Hn). }
      unfold R_store. destruct (store_error E _).
      { intros Hn. by destruct (push_error_nonempty _ _ Hn). }
      pose proof (import_active d userId b0) as Hia.
      unfold wants_task in Hact. rewrite <- Hia in Hact.
      destruct (id (import_data _ b0)) as [k|] eqn:Hid; destruct (negb _);
        intros Hn;
        (eexists; split;
         [ first [ left; exact Hid | right; split; [exact Hid | reflexivity] ]
         | erewrite start_if_active_registers; [by eexists | exact Hact | exact Hr | exact Hn] ]). }
    destruct (List.find _ (rows (db w))) as [row|]; simpl fmap; cbv beta iota; apply Hbody. }
  destruct Hreg as (k & Hk & Hsome).
  pose proof (find_lookup_bean userId d w) as Hfind.
  destruct (List.find _ (rows (db w))) as [[k0 p]|].
  - destruct Hfind as [Hin Hold]. rewrite Hold in Hdb, Hk.
    cbn [id import_data row_bean fst] in Hdb, Hk. destruct Hdb as [Hdb _].
    destruct Hk as [[= <-] | [? _]]; [| discriminate].
    set (p' := props (import_data (configToMonitorBean d userId) (row_bean (k0, p)))) in *.
    exists (k0, p'). rewrite Hdb. split; [| split].
    + cbn [rows]. rewrite <- (update_row_hit k0 p' p). by apply in_map.
    + rewrite Hs. by apply import_data_matches.
    + exact Hsome.
  - rewrite Hfind in Hdb, Hk. cbn [id import_data R_dispense] in Hdb, Hk.
    destruct Hdb as [Hdb _]. destruct Hk as [? | [_ ->]]; [discriminate |].
    eexists (next_id (db w), _). rewrite Hdb. split; [| split].
    + cbn [rows]. apply in_or_app. right. left. reflexivity.
    + rewrite Hs. by apply import_data_matches.
    + exact Hsome.
Qed.

Lemma process_monitor_keeps_handle E userId d r w k :
  is_Some (monitorList w !! k) →
  is_Some (monitorList (process_monitor E userId d r w).2 !! k).
Proof.
  intros Hk. destruct (process_monitor_tasks E userId d r w) as (new & _ & Hd).
  assert (Hins : ∀ k' b, is_Some (<[k' := b]> (monitorList w) !! k)).
  { intros k' b. destruct (decide (k' = k)) as [-> | Hne].
    - rewrite lookup_insert_eq. by eexists.
    - by rewrite lookup_insert_ne. }
  destruct (truthy _).
  - destruct Hd as [[_ ->] | (k' & bean & _ & Hd)]; [exact Hk |].
    destruct (monitorList w !! k').
    + destruct Hd as [(ok & _ & ->) | [_ ->]]; [apply Hins | exact Hk].
    + destruct Hd as (ok & _ & ->). apply Hins.
  - destruct Hd as [_ ->]. exact Hk.
Qed.

Section Running.

Variable E : Env.
Variable userId : Z.
Variable items : list value.
Hypothesis string_names :
  Forall (fun d => is_string (get_prop d "name") = true) items.

Lemma process_monitor_running d r w d0 :
  wf_db (db w) → In d items → In d0 items →
  running userId w d0 → running userId (process_monitor E userId d r w).2 d0.
Proof.
  intros [Hnd _] Hd Hd0 (row0 & Hin0 & Hm0 & Hh0).
  destruct (declared_name items string_names d Hd) as [s Hs].
  destruct (declared_name items string_names d0 Hd0) as [s0 Hs0].
  rewrite Hs0 in Hm0. unfold running. rewrite Hs0.
  pose proof (process_monitor_keeps_handle E userId d r w row0.1 Hh0) as Hh1.
  destruct (process_monitor_cases E userId d r w)
    as [(Hdb & _) | [(k & p & Hfound & Hdb & _) | (_ & _ & Hdb & _)]];
    rewrite Hdb; clear Hdb.
  - by exists row0.
  - rewrite Hs in Hfound. apply find_matches in Hfound as [Hin Hm].
    set (p' := props (import_data (configToMonitorBean d userId) (row_bean (k, p)))).
    assert (Hm' : matches (VStr s) userId (k, p') = true)
      by (by apply import_data_matches).
    cbn [rows]. destruct (decide (row0.1 = k)) as [Hk | Hk].
    + exists (k, p'). split; [| split].
      * rewrite <- (update_row_hit k p' p). by apply in_map.
      * destruct row0 as [k0 p0]. simpl in Hk. subst k0.
        assert (p0 = p) by (eapply nodup_fst_eq; eauto). subst p0.
        apply matches_string in Hm as [Hn Hman].
        apply matches_string in Hm0 as [Hn0 _].
        cbn [snd] in Hn, Hn0. assert (s0 = s) by congruence. by subst s0.
      * cbn [fst]. by rewrite <- Hk.
    + exists row0. split; [| by split].
      rewrite <- (update_row_miss k p' row0 Hk). by apply in_map.
  - exists row0. split; [| by split]. cbn [rows]. apply in_or_app. by left.
Qed.

Lemma process_all_running l : ∀ r w,
  wf_db (db w) → incl l items →
  result_errors (process_all E userId l r w).1 = [] →
  (∀ d0, In d0 items → running userId w d0 →
         running userId (process_all E userId l r w).2 d0) ∧
  (∀ d, In d l → wants_task userId d = true →
        running userId (process_all E userId l r w).2 d).
Proof.
  unfold process_all.
  induction l as [|d l IH]; intros r w Hwf Hincl Hnil; simpl in *.
  - split; [auto | intros d []].
  - assert (Hd : In d items) by (apply Hincl; by left).
    assert (Hl : incl l items) by (intros x Hx; apply Hincl; by right).
    pose proof (process_monitor_wf E userId d r w Hwf) as Hwf1.
    pose proof (fun d0 => process_monitor_running d r w d0 Hwf Hd) as Hkeep.
    destruct (declared_name items string_names d Hd) as [s Hs].
    pose proof (process_monitor_registers E userId d r w s Hs) as Hreg.
    pose proof (process_all_errors E userId l (process_monitor E userId d r w).1
                  (process_monitor E userId d r w).2) as Hmono.
    unfold process_all in Hmono.
    destruct (process_monitor E userId d r w) as [r1 w1]. cbn [fst snd] in *.
    destruct (IH r1 w1 Hwf1 Hl Hnil) as [I1 I2].
    assert (Hr1 : result_errors r1 = []).
    { destruct (result_errors r1) eqn:He; [reflexivity |].
      exfalso. apply Hmono; [discriminate | exact Hnil]. }
    split.
    + intros d0 Hd0 H0. apply I1; [exact Hd0 |]. by apply Hkeep.
    + intros d' [<- | Hd'] Hact; [| by apply I2].
      apply I1; [exact Hd |]. by apply Hreg.
Qed.

Lemma remove_monitor_running b r w d0 :
  (unlisted (names_of items) b = true →
   ∀ row, In row (rows (db w)) →
          has_name (names_of items) (row_bean row) = true → id b ≠ Some row.1) →
  In d0 items →
  running userId w d0 →
  running userId (remove_monitor E (names_of items) b r w).2 d0.
Proof.
  intros Hb Hd0 (row & Hin & Hm & Hh).
  destruct (has_name (names_of items) b) eqn:Hl.
  { rewrite remove_monitor_listed by exact Hl. by exists row. }
  destruct (declared_name items string_names d0 Hd0) as [s0 Hs0].
  assert (Hne : id b ≠ Some row.1).
  { apply Hb; [unfold unlisted; by rewrite Hl | exact Hin |].
    rewrite Hs0 in Hm. by apply (matched_row_listed userId items d0 s0 row). }
  exists row. split; [| split; [exact Hm |]].
  - by apply remove_monitor_keeps.
  - destruct (remove_monitor_spares E (names_of items) b r w row.1 Hne) as [-> _].
    exact Hh.
Qed.

Lemma remove_all_running existing : ∀ r w,
  (∀ b, In b existing → unlisted (names_of items) b = true →
        ∀ row, In row (rows (db w)) →
               has_name (names_of items) (row_bean row) = true → id b ≠ Some row.1) →
  ∀ d0, In d0 items → running userId w d0 →
        running userId (remove_all E (names_of items) existing r w).2 d0.
Proof.
  induction existing as [|b rest IH]; intros r w Hex d0 Hd0 Hrun; [exact Hrun |].
  rewrite remove_all_cons. apply IH; [| exact Hd0 |].
  - intros b0 Hb0 Hun row Hrow. apply (Hex b0 (or_intror Hb0) Hun).
    by eapply remove_monitor_subset.
  - apply remove_monitor_running; [| exact Hd0 | exact Hrun].
    intros Hun. by apply (Hex b (or_introl eq_refl)).
Qed.

End Running.

(** X24.  After a cycle that returns without any error (names being
    strings, row ids distinct), every declared definition whose merged
    [active] is truthy has a managed record of its name with a handle
    registered under the record's id in [server.monitorList]. *)
Theorem clean_cycle_runs_active (E : Env) (userId : Z) (w w1 w' : World)
    (config : value) (items : list value) (r : sync_result) :
  wf_db (db w) →
  readConfigFile E w = (Some config, w1) →
  get_prop config "monitors" = VArr items →
  Forall (fun d => is_string (get_prop d "name") = true) items →
  syncConfigMonitors E userId w = (Normal r, w') →
  result_errors r = [] →
  ∀ d, In d items → wants_task userId d = true → running userId w' d.
Proof.
  intros Hwf Hread Hmon Hstr Hsync Hnil d Hd Hact.
  pose proof (sync_clean_validates E userId w w1 config items r w' Hread Hmon Hsync Hnil)
    as Hval.
  pose proof (readConfigFile_only_logged E w) as (Hdb1 & _).
  rewrite Hread in Hdb1. cbn [snd] in Hdb1.
  pose proof (sync_declared E userId w w1 config items Hread Hmon Hval) as Hrun.
  unfold R_find in Hrun. cbv beta iota zeta in Hrun.
  set (wa := emit (DbFind userId) (log Info (found_message (VArr items)) w1)) in Hrun.
  change (db (log Info (found_message (VArr items)) w1)) with (db wa) in Hrun.
  assert (Hwfa : wf_db (db wa)) by (change (db wa) with (db w1); by rewrite Hdb1).
  pose proof (process_all_running E userId items Hstr items empty_result wa Hwfa
                (incl_refl items)) as Hproc.
  destruct (process_all_inv E userId items Hstr items empty_result wa Hwfa (incl_refl items))
    as (P1 & _ & _ & P4 & _).
  pose proof (remove_all_errors E items (map row_bean (managed_rows userId (db wa)))
                (process_all E userId items empty_result wa).1
                (process_all E userId items empty_result wa).2) as Hmono.
  pose proof (remove_all_running E userId items Hstr
                (map row_bean (managed_rows userId (db wa)))
                (process_all E userId items empty_result wa).1
                (process_all E userId items empty_result wa).2) as Hrem.
  destruct (process_all E userId items empty_result wa) as [ra wb].
  cbn [fst snd] in *.
  destruct (remove_all E (names_of items) _ ra wb) as [rc wc] eqn:Hra.
  cbn [fst snd] in *.
  rewrite Hsync in Hrun. injection Hrun as -> ->.
  assert (Hra0 : result_errors ra = []).
  { destruct (result_errors ra) eqn:He; [reflexivity |].
    exfalso. apply Hmono; [discriminate | exact Hnil]. }
  destruct (Hproc Hra0) as [_ Hreg].
  assert (Hfinal : running userId wc d).
  { apply Hrem; [| exact Hd | by apply Hreg].
    intros b Hb Hun row Hrow Hlisted Hid.
    apply managed_rows_beans in Hb as (row0 & -> & Hin0 & _).
    unfold unlisted in Hun. apply negb_true_iff in Hun.
    pose proof (P4 row0 Hin0 Hun) as Hin1.
    destruct row as [k p], row0 as [k0 p0]. cbn [row_bean id fst] in Hid.
    injection Hid as ->.
    assert (p0 = p) by (destruct P1 as [Hnd _]; eapply nodup_fst_eq; eauto). subst p0.
    congruence. }
  destruct Hfinal as (row & Hin & Hm & Hh). exists row.
  rewrite log_summary_db, log_summary_monitorList. by splits.
Qed.

(** ** The record of a definition after a cycle without errors *)

Lemma find_map_same {A} (f : A → bool) (g : A → A) (l : list A) :
  (∀ x, In x l → f (g x) = f x) →
  (∀ x, In x l → f x = true → g x = x) →
  List.find f (map g l) = List.find f l.
Proof.
  induction l as [|a l IH]; intros H1 H2; [reflexivity |]. simpl.
  rewrite (H1 a) by (by left). destruct (f a) eqn:Ha.
  - f_equal. apply H2; [by left | exact Ha].
  - apply IH; intros x Hx; [apply H1 | apply H2]; by right.
Qed.

Lemma find_app_l {A} (f : A → bool) (l l' : list A) x :
  List.find f l = Some x → List.find f (l ++ l') = Some x.
Proof.
  induction l as [|a l IH]; simpl; [discriminate |].
  destruct (f a); [done | exact IH].
Qed.

Lemma find_app_r {A} (f : A → bool) (l l' : list A) :
  List.find f l = None → List.find f (l ++ l') = List.find f l'.
Proof.
  induction l as [|a l IH]; simpl; [done |].
  destruct (f a); [discriminate | exact IH].
Qed.

Lemma find_filter_keep {A} (f g : A → bool) (l : list A) x :
  List.find f l = Some x → g x = true → List.find f (List.filter g l) = Some x.
Proof.
  induction l as [|a l IH]; simpl; [discriminate |].
  destruct (f a) eqn:Ha.
  - intros [= ->] Hg. rewrite Hg. simpl. by rewrite Ha.
  - intros Hf Hg. destruct (g a); [simpl; rewrite Ha |]; by apply IH.
Qed.

Lemma find_update_hit (f : positive * gmap string value → bool) l k p p' :
  NoDup (map fst l) → List.find f l = Some (k, p) → f (k, p') = true →
  List.find f (map (update_row k p') l) = Some (k, p').
Proof.
  induction l as [|[k0 p0] l IH]; simpl; [discriminate |].
  intros Hnd Hf Hp'. apply NoDup_cons in Hnd as [Hk0 Hnd].
  destruct (f (k0, p0)) eqn:H0.
  - injection Hf as -> ->. rewrite update_row_hit. by rewrite Hp'.
  - assert (Hne : k0 ≠ k).
    { intros ->. apply Hk0. apply find_some in Hf as [Hin _].
      apply (in_map fst) in Hin. apply list_elem_of_In. exact Hin. }
    rewrite update_row_miss by exact Hne. rewrite H0. by apply IH.
Qed.

Lemma map_update_same (l : list (positive * gmap string value)) k p :
  NoDup (map fst l) → In (k, p) l → map (update_row k p) l = l.
Proof.
  intros Hnd Hin. rewrite <- (map_id l) at 2. apply map_ext_in.
  intros [k0 p0] H0. destruct (decide (k0 = k)) as [-> | Hne].
  - rewrite update_row_hit. f_equal. eapply nodup_fst_eq; eauto.
  - by apply update_row_miss.
Qed.

Lemma matches_one_name s s' userId row :
  matches (VStr s) userId row = true → matches (VStr s') userId row = true → s = s'.
Proof.
  intros H1 H2. apply matches_string in H1 as [H1 _].
  apply matches_string in H2 as [H2 _]. congruence.
Qed.

Lemma clean_turn_stores E userId d r w :
  result_errors (process_monitor E userId d r w).1 = [] →
  stores E (import_data (configToMonitorBean d userId) (lookup_bean userId (db w) d)) = true.
Proof.
  intros Hnil. destruct (stores E _) eqn:Hst; [reflexivity |]. exfalso.
  by apply (proj2 (process_monitor_errors E userId d r w)).
Qed.

Lemma import_data_includes data b0 :
  delete "id" data ⊆ props (import_data data b0).
Proof. apply map_union_subseteq_l. Qed.

(** An error-free turn leaves the definition's columns in its record. *)
Lemma process_monitor_carries E userId d r w s :
  wf_db (db w) → get_prop d "name" = VStr s →
  result_errors (process_monitor E userId d r w).1 = [] →
  carries userId (db (process_monitor E userId d r w).2) d.
Proof.
  intros [Hnd _] Hs Hnil. pose proof (clean_turn_stores E userId d r w Hnil) as Hst.
  destruct (process_monitor_db E userId d r w) as [_ Hdb]. cbv zeta in Hdb.
  rewrite Hst in Hdb. unfold carries. revert Hdb Hst. unfold lookup_bean. rewrite Hs.
  destruct (List.find _ (rows (db w))) as [[k p]|] eqn:Hfound.
  - cbn [import_data id row_bean]. intros [-> _] _. cbn [rows].
    eexists k, _. split; [| apply (import_data_includes _ (row_bean (k, p)))].
    apply (find_update_hit _ _ k p); [exact Hnd | exact Hfound |].
    by apply (import_data_matches d userId s (row_bean (k, p)) k).
  - cbn [import_data id R_dispense]. intros [-> _] _. cbn [rows].
    eexists (next_id (db w)), _. split; [| apply (import_data_includes _ R_dispense)].
    rewrite find_app_r by exact Hfound. cbn [List.find].
    by rewrite (import_data_matches d userId s R_dispense (next_id (db w)) Hs).
Qed.

(** The record found for a name is found again after a turn for another
    name. *)
Lemma process_monitor_find_other E userId d r w s s0 row0 :
  wf_db (db w) → get_prop d "name" = VStr s → s ≠ s0 →
  List.find (matches (VStr s0) userId) (rows (db w)) = Some row0 →
  List.find (matches (VStr s0) userId) (rows (db (process_monitor E userId d r w).2))
  = Some row0.
Proof.
  intros [Hnd _] Hs Hne Hf0.
  destruct (process_monitor_cases E userId d r w)
    as [(Hdb & _) | [(k & p & Hfound & Hdb & _) | (_ & _ & Hdb & _)]];
    rewrite Hdb; clear Hdb; cbn [rows].
  - exact Hf0.
  - rewrite Hs in Hfound. apply find_matches in Hfound as [Hin Hm].
    set (p' := props (import_data (configToMonitorBean d userId) (row_bean (k, p)))).
    assert (Hm' : matches (VStr s) userId (k, p') = true)
      by (by apply import_data_matches).
    rewrite find_map_same; [exact Hf0 | |].
    + intros [k1 p1] H1. destruct (decide (k1 = k)) as [-> | Hk].
      * rewrite update_row_hit.
        assert (p1 = p) by (eapply nodup_fst_eq; eauto). subst p1.
        destruct (matches (VStr s0) userId (k, p')) eqn:Ha.
        { destruct Hne. by apply (matches_one_name s s0 userId (k, p')). }
        destruct (matches (VStr s0) userId (k, p)) eqn:Hb; [| reflexivity].
        destruct Hne. by apply (matches_one_name s s0 userId (k, p)).
      * by rewrite update_row_miss.
    + intros [k1 p1] H1 Hm1. apply update_row_miss. cbn [fst]. intros ->.
      assert (p1 = p) by (eapply nodup_fst_eq; eauto). subst p1.
      destruct Hne. by apply (matches_one_name s s0 userId (k, p)).
  - by apply find_app_l.
Qed.

(** A turn for a definition of another name leaves the record alone. *)
Lemma process_monitor_carries_other E userId d r w s d0 s0 :
  wf_db (db w) → get_prop d "name" = VStr s → get_prop d0 "name" = VStr s0 →
  s ≠ s0 →
  carries userId (db w) d0 → carries userId (db (process_monitor E userId d r w).2) d0.
Proof.
  intros Hwf Hs Hs0 Hne (k0 & p0 & Hf0 & Hsub). unfold carries. rewrite Hs0 in *.
  exists k0, p0. split; [| exact Hsub].
  by apply (process_monitor_find_other E userId d r w s s0 (k0, p0)).
Qed.

(** A turn for a definition whose columns its record already has leaves the
    table as it is. *)
Lemma process_monitor_fixed E userId d r w :
  wf_db (db w) → carries userId (db w) d →
  db (process_monitor E userId d r w).2 = db w.
Proof.
  intros [Hnd _] (k & p & Hf & Hsub).
  destruct (process_monitor_cases E userId d r w)
    as [(Hdb & _) | [(k' & p' & Hfound & Hdb & _) | (Hnone & _)]].
  - exact Hdb.
  - rewrite Hf in Hfound. injection Hfound as <- <-. rewrite Hdb.
    cbn [import_data props row_bean]. rewrite (map_subseteq_union _ _ Hsub).
    rewrite map_update_same; [by destruct (db w) | exact Hnd |].
    by apply find_some in Hf as [Hin _].
  - rewrite Hf in Hnone. discriminate.
Qed.

Lemma process_all_fixed E userId l : ∀ r w,
  wf_db (db w) → Forall (carries userId (db w)) l →
  db (process_all E userId l r w).2 = db w.
Proof.
  unfold process_all. induction l as [|d l IH]; intros r w Hwf Hall; [reflexivity |].
  apply Forall_cons in Hall as [Hd Hl]. simpl.
  pose proof (process_monitor_fixed E userId d r w Hwf Hd) as Hdb.
  destruct (process_monitor E userId d r w) as [r1 w1]. cbn [snd] in Hdb.
  rewrite <- Hdb. apply IH; by rewrite Hdb.
Qed.

Lemma remove_all_listed E names existing : ∀ r w,
  Forall (fun b => has_name names b = true) existing →
  remove_all E names existing r w = (r, w).
Proof.
  induction existing as [|b rest IH]; intros r w Hall; [reflexivity |].
  apply Forall_cons in Hall as [Hb Hrest]. rewrite remove_all_cons.
  rewrite remove_monitor_listed by exact Hb. by apply IH.
Qed.

Section Carried.

Variable E : Env.
Variable userId : Z.
Variable items : list value.
Hypothesis string_names :
  Forall (fun d => is_string (get_prop d "name") = true) items.

Lemma process_all_carries post : ∀ r w d s,
  wf_db (db w) → incl post items → In d items →
  get_prop d "name" = VStr s →
  Forall (fun d' => get_prop d' "name" ≠ VStr s) post →
  carries userId (db w) d →
  carries userId (db (process_all E userId post r w).2) d.
Proof.
  unfold process_all.
  induction post as [|d' post IH]; intros r w d s Hwf Hincl Hd Hs Hpost Hc; [exact Hc |].
  apply Forall_cons in Hpost as [Hd' Hpost]. simpl.
  assert (Hin' : In d' items) by (apply Hincl; by left).
  destruct (declared_name items string_names d' Hin') as [s' Hs'].
  pose proof (process_monitor_wf E userId d' r w Hwf) as Hwf1.
  assert (Hne : s' ≠ s) by (intros ->; by apply Hd').
  pose proof (process_monitor_carries_other E userId d' r w s' d s Hwf Hs' Hs Hne Hc) as Hc1.
  destruct (process_monitor E userId d' r w) as [r1 w1]. cbn [snd] in *.
  apply (IH r1 w1 d s); try assumption. intros x Hx. apply Hincl. by right.
Qed.

Lemma process_all_last pre d post r w s :
  wf_db (db w) → items = (pre ++ d :: post)%list →
  get_prop d "name" = VStr s →
  Forall (fun d' => get_prop d' "name" ≠ VStr s) post →
  result_errors (process_all E userId items r w).1 = [] →
  carries userId (db (process_all E userId items r w).2) d.
Proof.
  intros Hwf Hitems Hs Hpost Hnil.
  assert (Hd : In d items) by (rewrite Hitems; apply in_elt).
  assert (Hpre : incl pre items) by (rewrite Hitems; apply incl_appl, incl_refl).
  assert (Hinpost : incl post items)
    by (rewrite Hitems; apply incl_appr, incl_tl, incl_refl).
  revert Hnil. rewrite Hitems. unfold process_all. rewrite foldl_app. simpl.
  fold (process_all E userId pre r w).
  destruct (process_all_inv E userId items string_names pre r w Hwf Hpre) as (Hwf1 & _).
  destruct (process_all E userId pre r w) as [r1 w1]. cbn [fst snd] in Hwf1.
  pose proof (process_monitor_wf E userId d r1 w1 Hwf1) as Hwf2.
  pose proof (process_monitor_carries E userId d r1 w1 s Hwf1 Hs) as Hc.
  pose proof (process_all_errors E userId post (process_monitor E userId d r1 w1).1
                (process_monitor E userId d r1 w1).2) as Hmono.
  destruct (process_monitor E userId d r1 w1) as [r2 w2]. cbn [fst snd] in *.
  fold (process_all E userId post r2 w2). intros Hnil.
  apply (process_all_carries post r2 w2 d s); try assumption.
  apply Hc. destruct (result_errors r2) eqn:He; [reflexivity |].
  exfalso. apply Hmono; [discriminate | exact Hnil].
Qed.

Lemma remove_monitor_carries b r w d0 :
  (unlisted (names_of items) b = true →
   ∀ row, In row (rows (db w)) →
          has_name (names_of items) (row_bean row) = true → id b ≠ Some row.1) →
  In d0 items →
  carries userId (db w) d0 →
  carries userId (db (remove_monitor E (names_of items) b r w).2) d0.
Proof.
  intros Hb Hd0 (k & p & Hf & Hsub).
  destruct (declared_name items string_names d0 Hd0) as [s0 Hs0].
  exists k, p. split; [| exact Hsub].
  destruct (remove_monitor_rows E (names_of items) b r w)
    as (_ & [(-> & _) | (Hun & ->)]); [exact Hf |].
  apply find_filter_keep; [exact Hf |].
  apply negb_true_iff, bool_decide_eq_false_2. cbn [fst]. intros Heq.
  pose proof Hf as Hf'. rewrite Hs0 in Hf'. apply find_matches in Hf' as [Hin Hm].
  apply (Hb Hun (k, p) Hin); [| by symmetry].
  by apply (matched_row_listed userId items d0 s0 (k, p)).
Qed.

Lemma remove_all_carries existing : ∀ r w,
  (∀ b, In b existing → unlisted (names_of items) b = true →
        ∀ row, In row (rows (db w)) →
               has_name (names_of items) (row_bean row) = true → id b ≠ Some row.1) →
  ∀ d0, In d0 items → carries userId (db w) d0 →
        carries userId (db (remove_all E (names_of items) existing r w).2) d0.
Proof.
  induction existing as [|b rest IH]; intros r w Hex d0 Hd0 Hc; [exact Hc |].
  rewrite remove_all_cons. apply IH; [| exact Hd0 |].
  - intros b0 Hb0 Hun row Hrow. apply (Hex b0 (or_intror Hb0) Hun).
    by eapply remove_monitor_subset.
  - apply remove_monitor_carries; [| exact Hd0 | exact Hc].
    intros Hun. by apply (Hex b (or_introl eq_refl)).
Qed.

(** The two loops of an error-free cycle, for the last definition of a
    name. *)
Lemma loops_carry_last pre d post w s :
  wf_db (db w) → items = (pre ++ d :: post)%list →
  get_prop d "name" = VStr s →
  Forall (fun d' => get_prop d' "name" ≠ VStr s) post →
  let existing := map row_bean (managed_rows userId (db w)) in
  let r1 := (process_all E userId items empty_result w).1 in
  let w1 := (process_all E userId items empty_result w).2 in
  result_errors (remove_all E (names_of items) existing r1 w1).1 = [] →
  carries userId (db (remove_all E (names_of items) existing r1 w1).2) d.
Proof.
  intros Hwf Hitems Hs Hpost existing r1 w1 Hnil.
  assert (Hd : In d items) by (rewrite Hitems; apply in_elt).
  pose proof (process_all_last pre d post empty_result w s Hwf Hitems Hs Hpost) as Hlast.
  destruct (process_all_inv E userId items string_names items empty_result w Hwf
              (incl_refl items)) as (P1 & _ & _ & P4 & _).
  pose proof (remove_all_errors E items existing r1 w1) as Hmono.
  fold r1 w1 in Hlast, P1, P4.
  apply remove_all_carries; [| exact Hd |].
  - intros b Hb Hun row Hrow Hlisted Hid.
    apply managed_rows_beans in Hb as (row0 & -> & Hin0 & _).
    unfold unlisted in Hun. apply negb_true_iff in Hun.
    pose proof (P4 row0 Hin0 Hun) as Hin1.
    destruct row as [k p], row0 as [k0 p0]. cbn [row_bean id fst] in Hid.
    injection Hid as ->.
    assert (p0 = p) by (destruct P1 as [Hnd _]; eapply nodup_fst_eq; eauto). subst p0.
    congruence.
  - apply Hlast. destruct (result_errors r1) eqn:He; [reflexivity |].
    exfalso. apply Hmono; [discriminate | exact Hnil].
Qed.

End Carried.

Lemma sync_carries_last (E : Env) (userId : Z) (w w1 w' : World)
    (config : value) (pre post : list value) (d : value) (s : string)
    (r : sync_result) :
  wf_db (db w) →
  readConfigFile E w = (Some config, w1) →
  get_prop config "monitors" = VArr (pre ++ d :: post)%list →
  Forall (fun d => is_string (get_prop d "name") = true) (pre ++ d :: post)%list →
  get_prop d "name" = VStr s →
  Forall (fun d' => get_prop d' "name" ≠ VStr s) post →
  syncConfigMonitors E userId w = (Normal r, w') →
  result_errors r = [] →
  carries userId (db w') d.
Proof.
  intros Hwf Hread Hmon Hstr Hs Hpost Hsync Hnil.
  set (items := (pre ++ d :: post)%list) in *.
  pose proof (sync_clean_validates E userId w w1 config items r w' Hread Hmon Hsync Hnil)
    as Hval.
  pose proof (readConfigFile_only_logged E w) as (Hdb1 & _).
  rewrite Hread in Hdb1. cbn [snd] in Hdb1.
  pose proof (sync_declared E userId w w1 config items Hread Hmon Hval) as Hrun.
  unfold R_find in Hrun. cbv beta iota zeta in Hrun.
  set (wa := emit (DbFind userId) (log Info (found_message (VArr items)) w1)) in Hrun.
  change (db (log Info (found_message (VArr items)) w1)) with (db wa) in Hrun.
  assert (Hwfa : wf_db (db wa)) by (change (db wa) with (db w1); by rewrite Hdb1).
  pose proof (loops_carry_last E userId items Hstr pre d post wa s Hwfa eq_refl Hs Hpost)
    as Hc. cbv zeta in Hc.
  destruct (process_all E userId items empty_result wa) as [ra wb].
  cbn [fst snd] in *.
  destruct (remove_all E (names_of items) _ ra wb) as [rc wc].
  cbn [fst snd] in *.
  rewrite Hsync in Hrun. injection Hrun as -> ->.
  destruct (Hc Hnil) as (k & p & Hf & Hsub). exists k, p.
  rewrite log_summary_db. by split.
Qed.

(** X23.  Of several definitions with one name the last one wins: after a
    cycle that returns without any error, the record [findOrCreateMonitor]
    finds for that name holds, for every column the last definition of the
    name gives, that definition's value. *)
Theorem last_definition_wins (E : Env) (userId : Z) (w w1 w' : World)
    (config : value) (pre post : list value) (d : value) (s : string)
    (r : sync_result) :
  wf_db (db w) →
  readConfigFile E w = (Some config, w1) →
  get_prop config "monitors" = VArr (pre ++ d :: post)%list →
  Forall (fun d => is_string (get_prop d "name") = true) (pre ++ d :: post)%list →
  get_prop d "name" = VStr s →
  Forall (fun d' => get_prop d' "name" ≠ VStr s) post →
  syncConfigMonitors E userId w = (Normal r, w') →
  result_errors r = [] →
  is_Some (id (lookup_bean userId (db w') d)) ∧
  ∀ key, key ≠ "id" → is_Some (configToMonitorBean d userId !! key) →
         bean_get (lookup_bean userId (db w') d) key
         = obj_get (configToMonitorBean d userId) key.
Proof.
  intros Hwf Hread Hmon Hstr Hs Hpost Hsync Hnil.
  destruct (sync_carries_last E userId w w1 w' config pre post d s r
              Hwf Hread Hmon Hstr Hs Hpost Hsync Hnil) as (k & p & Hf & Hsub).
  unfold lookup_bean. rewrite Hf. split; [by eexists |].
  intros key Hkey [x Hx]. unfold bean_get, obj_get. cbn [row_bean props].
  rewrite Hx. erewrite (lookup_weaken _ p key x); [reflexivity | | exact Hsub].
  by rewrite lookup_delete_ne.
Qed.

Lemma nodup_names_last (items : list value) d :
  NoDup (names_of items) → In d items →
  ∃ pre post, items = (pre ++ d :: post)%list ∧
              Forall (fun d' => get_prop d' "name" ≠ get_prop d "name") post.
Proof.
  intros Hnd Hd. apply in_split in Hd as (pre & post & ->).
  exists pre, post. split; [reflexivity |].
  unfold names_of in Hnd. rewrite map_app in Hnd. simpl in Hnd.
  apply NoDup_app in Hnd as (_ & _ & Hnd). apply NoDup_cons in Hnd as [Hnd _].
  apply Forall_forall. intros d' Hd' Heq.
  apply Hnd. rewrite <- Heq. apply list_elem_of_In. apply list_elem_of_In in Hd'.
  by apply (in_map (fun m => get_prop m "name")).
Qed.

Lemma sync_clean_converges_aux (E : Env) (userId : Z) (w w1 w' : World)
    (config : value) (items : list value) (r : sync_result) :
  wf_db (db w) →
  readConfigFile E w = (Some config, w1) →
  get_prop config "monitors" = VArr items →
  Forall (fun d => is_string (get_prop d "name") = true) items →
  syncConfigMonitors E userId w = (Normal r, w') →
  result_errors r = [] →
  wf_db (db w') ∧
  (∀ row, In row (rows (db w')) → is_managed_by userId row.2 = true →
          has_name (names_of items) (row_bean row) = true).
Proof.
  intros Hwf Hread Hmon Hstr Hsync Hnil.
  pose proof (sync_clean_validates E userId w w1 config items r w' Hread Hmon Hsync Hnil)
    as Hval.
  pose proof (readConfigFile_only_logged E w) as (Hdb1 & _).
  rewrite Hread in Hdb1. cbn [snd] in Hdb1.
  pose proof (sync_declared E userId w w1 config items Hread Hmon Hval) as Hrun.
  unfold R_find in Hrun. cbv beta iota zeta in Hrun.
  set (wa := emit (DbFind userId) (log Info (found_message (VArr items)) w1)) in Hrun.
  change (db (log Info (found_message (VArr items)) w1)) with (db wa) in Hrun.
  assert (Hwfa : wf_db (db wa)) by (change (db wa) with (db w1); by rewrite Hdb1).
  pose proof (after_clean_cycle E userId items Hstr wa Hwfa) as Hclean.
  cbv zeta in Hclean.
  destruct (process_all E userId items empty_result wa) as [ra wb].
  cbn [fst snd] in Hclean.
  destruct (remove_all E (names_of items) _ ra wb) as [rc wc].
  cbn [fst snd] in Hclean.
  rewrite Hsync in Hrun. injection Hrun as -> ->.
  destruct (Hclean Hnil) as (Hwf' & _ & Hlisted).
  rewrite log_summary_db. by split.
Qed.

(** X22.  Definitions with pairwise distinct names: after a cycle that
    returns without any error, a further cycle over the same declared array
    leaves the table of records exactly as it is, whatever the validator,
    the store and the tasks do in it. *)
Theorem second_cycle_keeps_table (E1 E2 : Env) (userId : Z) (w w1 w' wr : World)
    (config config2 : value) (items : list value) (r1 : sync_result) :
  wf_db (db w) →
  readConfigFile E1 w = (Some config, w1) →
  get_prop config "monitors" = VArr items →
  Forall (fun d => is_string (get_prop d "name") = true) items →
  NoDup (names_of items) →
  syncConfigMonitors E1 userId w = (Normal r1, w') →
  result_errors r1 = [] →
  readConfigFile E2 w' = (Some config2, wr) →
  get_prop config2 "monitors" = VArr items →
  ∃ r2 w'',
    syncConfigMonitors E2 userId w' = (Normal r2, w'') ∧ db w'' = db w'.
Proof.
  intros Hwf Hread Hmon Hstr Hnd Hsync Hnil Hread2 Hmon2.
  pose proof (sync_clean_validates E1 userId w w1 config items r1 w' Hread Hmon Hsync Hnil)
    as Hval.
  assert (Hall : Forall (carries userId (db w')) items).
  { apply Forall_forall. intros d Hd. apply list_elem_of_In in Hd.
    destruct (nodup_names_last items d Hnd Hd) as (pre & post & Hitems & Hpost).
    destruct (declared_name items Hstr d Hd) as [s Hs]. rewrite Hs in Hpost.
    subst items.
    by apply (sync_carries_last E1 userId w w1 w' config pre post d s r1). }
  destruct (sync_clean_converges_aux E1 userId w w1 w' config items r1
              Hwf Hread Hmon Hstr Hsync Hnil) as (Hwf' & Hlisted).
  pose proof (readConfigFile_only_logged E2 w') as (Hdb2 & _).
  rewrite Hread2 in Hdb2. cbn [snd] in Hdb2.
  pose proof (sync_declared E2 userId w' wr config2 items Hread2 Hmon2 Hval) as Hrun.
  unfold R_find in Hrun. cbv beta iota zeta in Hrun.
  set (wd := emit (DbFind userId) (log Info (found_message (VArr items)) wr)) in Hrun.
  change (db (log Info (found_message (VArr items)) wr)) with (db wd) in Hrun.
  assert (Hdbd : db wd = db w') by (change (db wd) with (db wr); exact Hdb2).
  pose proof (process_all_fixed E2 userId items empty_result wd) as Hfix.
  rewrite Hdbd in Hfix. specialize (Hfix Hwf' Hall).
  destruct (process_all E2 userId items empty_result wd) as [rd we].
  cbn [fst snd] in *.
  rewrite (remove_all_listed E2 (names_of items)) in Hrun.
  - eexists _, _. split; [exact Hrun |]. by rewrite log_summary_db.
  - apply Forall_forall. intros b Hb. apply list_elem_of_In in Hb. rewrite Hdbd in Hb.
    apply managed_rows_beans in Hb as (row & -> & Hin & Hman). by apply Hlisted.
Qed.

(** ** A definition that is switched off *)

Lemma task_kept_refl k w : task_kept k w w.
Proof. split; [reflexivity |]. exists []. split; [reflexivity | constructor]. Qed.

Lemma task_kept_trans k w1 w2 w3 :
  task_kept k w1 w2 → task_kept k w2 w3 → task_kept k w1 w3.
Proof.
  intros (Hm & n1 & Ht & H1) (Hm' & n2 & Ht' & H2). split; [congruence |].
  exists (n2 ++ n1)%list. split.
  - rewrite Ht', Ht. by rewrite app_assoc.
  - by apply Forall_app.
Qed.

Lemma spares_task_kept k w w' : spares k w w' → task_kept k w w'.
Proof.
  intros (Hm & new & Ht & Hall). split; [exact Hm |].
  exists new. split; [exact Ht |].
  eapply Forall_impl; [exact Hall |]. intros e. by destruct e.
Qed.

Lemma no_task_calls new :
  task_calls new = [] → Forall (fun e => is_task_event e = false) new.
Proof.
  unfold task_calls. intros H.
  assert (Hf : List.filter is_task_event new = []).
  { rewrite <- (rev_involutive (List.filter is_task_event new)). by rewrite H. }
  clear H. induction new as [|e new IH]; [constructor |].
  simpl in Hf. destruct (is_task_event e) eqn:He; [discriminate |].
  constructor; [exact He | by apply IH].
Qed.

(** A turn for a definition that is switched off calls no task at all. *)
Lemma process_monitor_inactive E userId d r w k :
  wants_task userId d = false → task_kept k w (process_monitor E userId d r w).2.
Proof.
  intros Hact. destruct (process_monitor_tasks E userId d r w) as (new & Ht & Hd).
  unfold wants_task in Hact. rewrite Hact in Hd. destruct Hd as [Hcalls Hm].
  split; [by rewrite Hm |]. exists new. split; [exact Ht |].
  eapply Forall_impl; [exact (no_task_calls new Hcalls) |].
  intros e He. by destruct e.
Qed.

(** A turn that finds no record of the id [k0] leaves that id alone. *)
Lemma process_monitor_spares_id E userId d r w k0 :
  (k0 < next_id (db w))%positive →
  id (lookup_bean userId (db w) d) ≠ Some k0 →
  spares k0 w (process_monitor E userId d r w).2.
Proof.
  intros Hlt Hother.
  unfold process_monitor, findOrCreateMonitor, R_findOne. cbv beta iota zeta.
  set (w1 := emit (DbFindOne (get_prop d "name") userId) w).
  assert (H1 : spares k0 w w1) by (apply quietly_spares; by apply quietly_emit).
  assert (Hbody : ∀ b0 : Bean,
    id b0 ≠ Some k0 →
    spares k0 w1
      (let isNew := negb (bool_decide (is_Some (id b0))) in
       let bean := import_data (configToMonitorBean d userId) b0 in
       match bean_validate E bean with
       | Some msg => processing_failed d msg r w1
       | None =>
           match R_store E bean w1 with
           | (Throw msg, w2) => processing_failed d msg r w2
           | (Normal (k, bean), w2) =>
               let '(result, w3) :=
                 if isNew then
                   (mkResult (S (added r)) (updated r) (removed r) (result_errors r),
                    log Info ("Added monitor: " +:+ to_string (bean_get bean "name")) w2)
                 else
                   (mkResult (added r) (S (updated r)) (removed r) (result_errors r),
                    log Info ("Updated monitor: " +:+ to_string (bean_get bean "name")) w2) in
               start_if_active E d k bean result w3
           end
       end).2).
  { intros b0 Hid. cbv zeta. unfold processing_failed.
    set (bean := import_data (configToMonitorBean d userId) b0).
    assert (Hidb : id bean = id b0) by reflexivity.
    destruct (bean_validate E bean).
    { cbn [snd]. apply quietly_spares, quietly_log. }
    unfold R_store. destruct (store_error E bean).
    { cbn [snd]. split; [reflexivity |]. cbn [trace log emit]. exists_new.
      spare_events. }
    destruct (id bean) as [k|] eqn:Hk.
    - assert (Hne : k ≠ k0) by congruence.
      destruct (negb _);
        (eapply spares_trans; [| by apply start_if_active_spares]);
        (split; [reflexivity |]); cbn [trace log emit set_db]; exists_new;
        spare_events.
    - assert (Hne : next_id (db w1) ≠ k0).
      { change (db w1) with (db w). lia. }
      destruct (negb _);
        (eapply spares_trans; [| by apply start_if_active_spares]);
        (split; [reflexivity |]); cbn [trace log emit set_db]; exists_new;
        spare_events. }
  eapply spares_trans; [exact H1 |].
  unfold lookup_bean in Hother.
  destruct (List.find _ (rows (db w))) as [[k p]|] eqn:Hfind; simpl fmap; cbv beta iota;
    apply Hbody.
  - exact Hother.
  - discriminate.
Qed.

Lemma lookup_bean_id userId d monitorConfig k :
  id (lookup_bean userId d monitorConfig) = Some k ↔
  ∃ p, List.find (matches (get_prop monitorConfig "name") userId) (rows d) = Some (k, p).
Proof.
  unfold lookup_bean. destruct (List.find _ (rows d)) as [[k' p']|]; cbn [row_bean id R_dispense].
  - split; [intros [= ->]; by exists p' | intros (p & [= -> _]); reflexivity].
  - split; [discriminate | intros (p & Hp); discriminate].
Qed.

(** The record found for a name is found again after a turn for that name. *)
Lemma process_monitor_find_same E userId d r w s k :
  wf_db (db w) → get_prop d "name" = VStr s →
  id (lookup_bean userId (db w) d) = Some k →
  id (lookup_bean userId (db (process_monitor E userId d r w).2) d) = Some k.
Proof.
  intros [Hnd _] Hs Hid. apply lookup_bean_id in Hid as (p & Hf).
  apply lookup_bean_id.
  destruct (process_monitor_cases E userId d r w)
    as [(Hdb & _) | [(k' & p' & Hfound & Hdb & _) | (Hnone & _)]].
  - rewrite Hdb. by exists p.
  - rewrite Hf in Hfound. injection Hfound as <- <-. rewrite Hdb. cbn [rows].
    eexists. rewrite Hs in *. apply (find_update_hit _ _ k p); [exact Hnd | exact Hf |].
    by apply (import_data_matches d userId s (row_bean (k, p)) k).
  - rewrite Hf in Hnone. discriminate.
Qed.

Lemma remove_all_spares_unlisted E names existing k0 : ∀ r w,
  (∀ b, In b existing → unlisted names b = true → id b ≠ Some k0) →
  spares k0 w (remove_all E names existing r w).2.
Proof.
  induction existing as [|b rest IH]; intros r w Hex; [apply spares_refl |].
  rewrite remove_all_cons.
  assert (Hrest : ∀ b0, In b0 rest → unlisted names b0 = true → id b0 ≠ Some k0)
    by (intros b0 Hb0; apply Hex; by right).
  destruct (has_name names b) eqn:Hl.
  - rewrite remove_monitor_listed by exact Hl. by apply IH.
  - eapply spares_trans; [| by apply IH].
    apply remove_monitor_spares. apply Hex; [by left |].
    unfold unlisted. by rewrite Hl.
Qed.

Section Paused.

Variable E : Env.
Variable userId : Z.
Variable items : list value.
Variable s : string.
Variable k : positive.
Hypothesis string_names :
  Forall (fun d => is_string (get_prop d "name") = true) items.
Hypothesis paused :
  ∀ d, In d items → get_prop d "name" = VStr s → wants_task userId d = false.

Lemma process_monitor_paused d r w :
  wf_db (db w) → In d items →
  (∃ p, List.find (matches (VStr s) userId) (rows (db w)) = Some (k, p)) →
  (∃ p, List.find (matches (VStr s) userId)
                  (rows (db (process_monitor E userId d r w).2)) = Some (k, p)) ∧
  task_kept k w (process_monitor E userId d r w).2.
Proof.
  intros Hwf Hd (p & Hf).
  destruct (declared_name items string_names d Hd) as [s' Hs'].
  destruct (decide (s' = s)) as [-> | Hne].
  - split; [| apply process_monitor_inactive; by apply paused].
    pose proof (process_monitor_find_same E userId d r w s k Hwf Hs') as Hsame.
    rewrite !lookup_bean_id in Hsame. rewrite Hs' in Hsame. apply Hsame. by exists p.
  - split.
    + exists p. by apply (process_monitor_find_other E userId d r w s' s (k, p)).
    + apply spares_task_kept, process_monitor_spares_id.
      * destruct Hwf as [_ Hlt]. rewrite Forall_forall in Hlt.
        apply find_matches in Hf as [Hin _]. apply list_elem_of_In in Hin.
        apply (Hlt (k, p) Hin).
      * intros Hid. apply lookup_bean_id in Hid as (p' & Hf'). rewrite Hs' in Hf'.
        apply find_matches in Hf as [Hin Hm]. apply find_matches in Hf' as [Hin' Hm'].
        assert (p' = p) by (destruct Hwf as [Hnd _]; eapply nodup_fst_eq; eauto).
        subst p'. apply Hne. by apply (matches_one_name s' s userId (k, p)).
Qed.

Lemma process_all_paused l : ∀ r w,
  wf_db (db w) → incl l items →
  (∃ p, List.find (matches (VStr s) userId) (rows (db w)) = Some (k, p)) →
  task_kept k w (process_all E userId l r w).2.
Proof.
  unfold process_all.
  induction l as [|d l IH]; intros r w Hwf Hincl Hf; [apply task_kept_refl |].
  simpl.
  assert (Hd : In d items) by (apply Hincl; by left).
  pose proof (process_monitor_wf E userId d r w Hwf) as Hwf1.
  destruct (process_monitor_paused d r w Hwf Hd Hf) as [Hf1 Hk1].
  destruct (process_monitor E userId d r w) as [r1 w1]. cbn [snd] in *.
  eapply task_kept_trans; [exact Hk1 |].
  apply IH; [exact Hwf1 | | exact Hf1]. intros x Hx. apply Hincl. by right.
Qed.

End Paused.

(** X25.  Switching a definition off does not stop its task.  When every
    definition of a name has a falsy merged [active] and the record
    [findOrCreateMonitor] finds for the name has the id [k], a cycle that
    passes the validation gate leaves the handle registered under [k] in
    [server.monitorList] as it is and calls neither [stop()] nor [start()]
    for [k]. *)
Theorem paused_definition_keeps_task (E : Env) (userId : Z) (w w1 : World)
    (config : value) (items : list value) (d : value) (s : string) (k : positive) :
  wf_db (db w) →
  readConfigFile E w = (Some config, w1) →
  get_prop config "monitors" = VArr items →
  Forall (fun d => is_string (get_prop d "name") = true) items →
  validate_from items 0 [] = Normal [] →
  In d items → get_prop d "name" = VStr s →
  (∀ d', In d' items → get_prop d' "name" = VStr s → wants_task userId d' = false) →
  id (lookup_bean userId (db w) d) = Some k →
  task_kept k w (syncConfigMonitors E userId w).2.
Proof.
  intros Hwf Hread Hmon Hstr Hval Hd Hs Hpaused Hid.
  apply lookup_bean_id in Hid as (p & Hf). rewrite Hs in Hf.
  pose proof (only_logged_quietly _ _ (readConfigFile_only_logged E w)) as Hq1.
  rewrite Hread in Hq1. cbn [snd] in Hq1.
  rewrite (sync_declared E userId w w1 config items Hread Hmon Hval).
  unfold R_find. cbv beta iota zeta.
  set (wa := emit (DbFind userId) (log Info (found_message (VArr items)) w1)).
  change (db (log Info (found_message (VArr items)) w1)) with (db w1).
  assert (Hqa : quietly w wa).
  { eapply quietly_trans; [exact Hq1 |].
    eapply quietly_trans; [apply quietly_log | by apply quietly_emit]. }
  destruct Hq1 as (Hdb1 & _). rewrite Hdb1.
  assert (Hdba : db wa = db w) by (by destruct Hqa as (Hdba & _)).
  pose proof (process_all_paused E userId items s k Hstr Hpaused items empty_result wa)
    as Hsb.
  rewrite Hdba in Hsb. specialize (Hsb Hwf (incl_refl items) (ex_intro _ p Hf)).
  destruct (process_all E userId items empty_result wa) as [rb wb]. cbn [snd] in Hsb.
  pose proof (remove_all_spares_unlisted E (names_of items)
                (map row_bean (managed_rows userId (db w))) k rb wb) as Hsc.
  destruct (remove_all E (names_of items) _ rb wb) as [rc wc]. cbn [snd] in *.
  eapply task_kept_trans; [by apply spares_task_kept, quietly_spares |].
  eapply task_kept_trans; [exact Hsb |].
  eapply task_kept_trans.
  - apply spares_task_kept, Hsc. intros b Hb Hun Hidb.
    apply managed_rows_beans in Hb as (row & -> & Hin & Hman).
    destruct row as [k0 p0]. cbn [row_bean id fst] in Hidb. injection Hidb as ->.
    apply find_matches in Hf as [Hin' Hm].
    assert (p0 = p) by (destruct Hwf as [Hnd _]; eapply nodup_fst_eq; eauto). subst p0.
    unfold unlisted in Hun. apply negb_true_iff in Hun.
    rewrite (matched_row_listed userId items d s (k, p) Hd Hs Hm) in Hun. discriminate.
  - apply spares_task_kept, quietly_spares. unfold log_summary.
    destruct (Nat.ltb _ _); [eapply quietly_trans; apply quietly_log | apply quietly_log].
Qed.

(** ** The theorems of this part at sample inputs *)

Lemma wf_ui_world : wf_db (db ui_world).
Proof.
  split; cbn [ui_world db rows map fst next_id].
  - apply NoDup_singleton.
  - constructor; [reflexivity | constructor].
Defined.

Lemma sync_keeps_foreign_rows_witness :
  foreign_rows 1 (db (syncConfigMonitors sample_env 1 ui_world).2)
  = foreign_rows 1 (db ui_world).
Proof. apply sync_keeps_foreign_rows. apply wf_ui_world. Defined.

Lemma sync_spares_foreign_ids_witness :
  spares 1 ui_world (syncConfigMonitors sample_env 1 ui_world).2.
Proof.
  apply sync_spares_foreign_ids. split; [reflexivity |].
  intros row [<- | []] _. vm_compute. reflexivity.
Defined.

Lemma sync_accounting_witness :
  ∃ r w',
    syncConfigMonitors sample_env 1 ui_world = (Normal r, w') ∧
    (added r + updated r ≤ length sample_items)%nat ∧
    (length sample_items ≤ added r + updated r + length (result_errors r))%nat ∧
    (removed r ≤ length (managed_rows 1 (db ui_world)))%nat ∧
    (length (rows (db w')) + removed r = length (rows (db ui_world)) + added r)%nat.
Proof.
  apply (sync_accounting sample_env 1 ui_world
           (set_configFilePath (Some sample_path) ui_world)
           (sample_doc sample_items) sample_items).
  - apply wf_ui_world.
  - vm_compute. reflexivity.
  - vm_compute. reflexivity.
  - vm_compute. reflexivity.
Defined.

Lemma sync_clean_converges_witness :
  (∀ d, In d sample_items →
        has_row 1 (db (syncConfigMonitors sample_env 1 ui_world).2) d) ∧
  (∀ row, In row (rows (db (syncConfigMonitors sample_env 1 ui_world).2)) →
          is_managed_by 1 row.2 = true →
          has_name (names_of sample_items) (row_bean row) = true).
Proof.
  apply (sync_clean_converges sample_env 1 ui_world
           (set_configFilePath (Some sample_path) ui_world)
           (syncConfigMonitors sample_env 1 ui_world).2
           (sample_doc sample_items) sample_items (mkResult 2 0 0 [])).
  - apply wf_ui_world.
  - vm_compute. reflexivity.
  - vm_compute. reflexivity.
  - repeat (apply Forall_cons_2; [vm_compute; reflexivity |]). apply Forall_nil_2.
  - vm_compute. reflexivity.
  - reflexivity.
Defined.

Lemma path_fixed_by_first_call_witness :
  let w' := (syncConfigMonitors sample_env 1 fresh_world).2 in
  configFilePath w' = Some sample_path ∧
  getConfigFilePath env_without_path w' = (Some sample_path, w') ∧
  configFilePath (syncConfigMonitors env_without_path 2 w').2 = Some sample_path.
Proof.
  apply (path_fixed_by_first_call sample_env env_without_path 1 2 fresh_world sample_path).
  - reflexivity.
  - reflexivity.
  - discriminate.
Defined.

(** ** The theorems of this part at sample inputs *)


Lemma bounds_of_non_numbers_witness :
  count_occ string_dec
    [msg_at_least sample_null_interval "interval"]
    (msg_at_least sample_null_interval "interval") = 1%nat ∧
  count_occ string_dec
    [msg_at_least sample_null_interval "interval"]
    (msg_at_most sample_null_interval "interval") = 0%nat.
Proof.
  apply (proj1 (bounds_of_non_numbers sample_null_interval 0
                  (mkValidation false [msg_at_least sample_null_interval "interval"])
                  "interval" (or_introl eq_refl) ltac:(vm_compute; reflexivity))).
  left. vm_compute. reflexivity.
Defined.

Lemma accepted_statuscodes_dropped_witness :
  configToMonitorBean sample_numeric_codes 1 !! "accepted_statuscodes" = None ∧
  configToMonitorBean sample_numeric_codes 1 !! "accepted_statuscodes_json"
    = own_props sample_numeric_codes !! "accepted_statuscodes_json".
Proof.
  apply (accepted_statuscodes_dropped sample_numeric_codes 1 (VNum 200)).
  - vm_compute. reflexivity.
  - reflexivity.
  - reflexivity.
Defined.

Lemma sync_monitors_not_array_witness :
  ∃ w', syncConfigMonitors (env_with (Some (Loaded sample_scalar_doc))) 1 fresh_world
          = (Throw "monitors.map is not a function", w') ∧
        quietly fresh_world w' ∧ In (DbFind 1) (trace w').
Proof.
  apply (sync_monitors_not_array (env_with (Some (Loaded sample_scalar_doc))) 1
           fresh_world (set_configFilePath (Some sample_path) fresh_world)
           sample_scalar_doc).
  - vm_compute. reflexivity.
  - reflexivity.
  - vm_compute. reflexivity.
Defined.

Lemma sync_validator_throws_witness :
  ∃ msg w', syncConfigMonitors (env_with (Some (Loaded (sample_doc [VNull])))) 1 fresh_world
              = (Throw msg, w') ∧ only_logged fresh_world w'.
Proof.
  apply (sync_validator_throws (env_with (Some (Loaded (sample_doc [VNull])))) 1
           fresh_world (set_configFilePath (Some sample_path) fresh_world)
           (sample_doc [VNull]) [VNull]).
  - vm_compute. reflexivity.
  - vm_compute. reflexivity.
  - apply Exists_cons_hd. right. left. reflexivity.
Defined.

Lemma process_monitor_columns_witness :
  ∃ row,
    In row (rows (db (process_monitor env_without_path 1 sample_push_definition
                        empty_result fresh_world).2)) ∧
    matches (VStr "Backup Job") 1 row = true ∧
    (∀ k, id (lookup_bean 1 (db fresh_world) sample_push_definition) = Some k →
          row.1 = k) ∧
    ∀ key, key ≠ "id" →
      row.2 !! key = match configToMonitorBean sample_push_definition 1 !! key with
                     | Some v => Some v
                     | None => props (lookup_bean 1 (db fresh_world) sample_push_definition)
                                 !! key
                     end.
Proof.
  apply (process_monitor_columns env_without_path 1 sample_push_definition
           empty_result fresh_world "Backup Job").
  - vm_compute. reflexivity.
  - reflexivity.
Defined.

(** ** The theorems of this part at sample inputs *)

Lemma manual_sync_reply_witness :
  (on_syncConfigMonitors sample_env open_server (mkSocket 1) fresh_world).2
  = (syncConfigMonitors sample_env 1 fresh_world).2.
Proof.
  apply (proj1 (proj2 (manual_sync_reply sample_env open_server (mkSocket 1) fresh_world))).
  reflexivity.
Defined.

Lemma manual_sync_unreadable_witness :
  (on_syncConfigMonitors (env_with (Some (LoadError "bad indentation"))) open_server
     (mkSocket 1) fresh_world).1
    = VObj [("ok", VBool true); ("added", VNum 0); ("updated", VNum 0);
            ("removed", VNum 0); ("errors", VArr []);
            ("msg", VStr "Sync complete: Added 0, Updated 0, Removed 0")] ∧
  only_logged fresh_world
    (on_syncConfigMonitors (env_with (Some (LoadError "bad indentation"))) open_server
       (mkSocket 1) fresh_world).2.
Proof.
  apply manual_sync_unreadable.
  - reflexivity.
  - reflexivity.
  - right. exists "bad indentation". reflexivity.
Defined.

Lemma config_file_status_witness :
  ∃ e p w',
    on_getConfigFileStatus env_without_path open_server (mkSocket 1) fresh_world
      = (VObj [("ok", VBool true); ("exists", e); ("path", p)], w') ∧
    only_logged fresh_world w' ∧
    ((e = VNull ∧ p = VNull ∧ (getConfigFilePath env_without_path fresh_world).1 = None) ∨
     ∃ filePath, e = VBool (existsSync env_without_path filePath) ∧ p = VStr filePath ∧
                 configFilePath w' = Some filePath).
Proof. apply config_file_status. reflexivity. Defined.


Lemma dir_watchers_stay_open_witness :
  watchers (stopFileWatcher waiting_host) !! 0%nat = watchers waiting_host !! 0%nat ∧
  watchers (stopFileWatcher (stopFileWatcher waiting_host)) !! 0%nat
    = watchers waiting_host !! 0%nat.
Proof.
  apply (dir_watchers_stay_open fresh_world waiting_host (stopFileWatcher waiting_host) 0).
  - apply rtc_once. apply step_init.
  - apply rtc_once. apply step_stop.
  - exists "config", sample_path, 1. vm_compute. reflexivity.
Defined.

Lemma host0_tidy_sample : tidy (host0 fresh_world).
Proof.
  unfold tidy, dir_watcher_open. cbn [host0 timers watchers fileWatcher debounceTimer].
  repeat lazymatch goal with |- _ ∧ _ => split end.
  - intros t c Hc. rewrite lookup_empty in Hc. discriminate.
  - intros k f u Hk. rewrite lookup_empty in Hk. discriminate.
  - discriminate.
  - intros k _. rewrite !lookup_empty. split; reflexivity.
Defined.

Lemma debounce_burst_witness :
  let h' := foldl (fun h eventType => on_file_event sample_path 1 eventType h)
                  (host0 fresh_world) (["change"; "change"] ++ ["rename"]) in
  ∃ t,
    timers h' = {[ t := mkPending "rename" sample_path 1 ]} ∧
    debounceTimer h' = Some t ∧
    world h' = world (host0 fresh_world) ∧
    (existsSync sample_env sample_path = true →
     let h'' := (on_timer sample_env sample_node t
                   (mkPending "rename" sample_path 1) h').2 in
     world h'' =
       (syncConfigMonitors sample_env 1
          (log Info ("Config file changed (" +:+ "rename" +:+ "), re-syncing monitors...")
               (world (host0 fresh_world)))).2 ∧
     timers h'' = ∅).
Proof.
  apply (debounce_burst sample_env sample_node sample_path 1 ["change"; "change"]
           "rename" (host0 fresh_world)).
  apply host0_tidy_sample.
Defined.



Lemma init_without_path_witness :
  ∃ h', initConfigFileMonitors env_without_path sample_node 1 (host0 fresh_world)
          = (Normal tt, h') ∧
        written h' = written (host0 fresh_world) ∧
        watchers h' = watchers (host0 fresh_world) ∧
        timers h' = timers (host0 fresh_world) ∧
        fileWatcher h' = fileWatcher (host0 fresh_world) ∧
        debounceTimer h' = debounceTimer (host0 fresh_world) ∧
        only_logged (world (host0 fresh_world)) (world h').
Proof.
  apply init_without_path.
  - reflexivity.
  - reflexivity.
Defined.

Lemma init_sync_throws_witness :
  ∃ msg h', initConfigFileMonitors (env_with (Some (Loaded (sample_doc [VNull]))))
              sample_node 1 (host0 fresh_world) = (Throw msg, h') ∧
            watchers h' = watchers (host0 fresh_world) ∧
            timers h' = timers (host0 fresh_world) ∧
            fileWatcher h' = fileWatcher (host0 fresh_world) ∧
            debounceTimer h' = debounceTimer (host0 fresh_world) ∧
            only_logged (world (host0 fresh_world)) (world h').
Proof.
  apply (init_sync_throws (env_with (Some (Loaded (sample_doc [VNull])))) sample_node 1
           (host0 fresh_world) sample_path (sample_doc [VNull]) [VNull]).
  - reflexivity.
  - reflexivity.
  - reflexivity.
  - apply Exists_cons_hd. right. left. reflexivity.
Defined.


Lemma deleted_file_like_empty_list_witness :
  let c := mkPending "rename" sample_path 1 in
  let w' := world (on_timer (env_with None) sample_node 0 c (host0 running_world)).2 in
  let w0 := (syncConfigMonitors (env_with (Some (Loaded (sample_doc [])))) 1
               (world (host0 running_world))).2 in
  db w' = db w0 ∧ monitorList w' = monitorList w0.
Proof.
  apply (deleted_file_like_empty_list (env_with None)
           (env_with (Some (Loaded (sample_doc [])))) sample_node 0
           (mkPending "rename" sample_path 1) (host0 running_world) (sample_doc [])
           (set_configFilePath (Some sample_path) running_world)).
  - reflexivity.
  - reflexivity.
  - reflexivity.
  - reflexivity.
  - reflexivity.
Defined.

Lemma creation_noticed_by_name_only_witness :
  foldl (fun h ev => on_dir_event sample_env sample_node "config/my-monitors.yaml" 1
                       ev.1 ev.2 h)
        waiting_host [("rename", Some "my-monitors.yaml"); ("change", None)]
  = waiting_host.
Proof.
  apply creation_noticed_by_name_only.
  repeat (apply Forall_cons_2; [cbn [snd]; discriminate |]). apply Forall_nil_2.
Defined.

Lemma tidy_waiting_host : tidy waiting_host.
Proof.
  apply (initConfigFileMonitors_inv (env_with None) sample_node 1 (host0 fresh_world)).
  apply host0_tidy_sample.
Defined.

Lemma dir_watchers_pile_up_witness :
  let h' := startFileWatcher (env_with None) sample_node 1 waiting_host in
  watchers waiting_host !! next_handle waiting_host = None ∧
  watchers h' !! next_handle waiting_host
    = Some (DirWatcher (dirname sample_node sample_path) sample_path 1) ∧
  (∀ k, dir_watcher_open waiting_host k → watchers h' !! k = watchers waiting_host !! k) ∧
  fileWatcher h' = None ∧
  watchers (stopFileWatcher h') !! next_handle waiting_host
    = Some (DirWatcher (dirname sample_node sample_path) sample_path 1).
Proof.
  apply (dir_watchers_pile_up (env_with None) sample_node 1 waiting_host sample_path).
  - apply tidy_waiting_host.
  - reflexivity.
  - reflexivity.
  - reflexivity.
Defined.

Lemma clean_cycle_runs_active_witness :
  running 1 (syncConfigMonitors sample_env 1 ui_world).2
    (VObj [("name", VStr "A"); ("type", VStr "http"); ("url", VStr "https://test1.com")]).
Proof.
  apply (clean_cycle_runs_active sample_env 1 ui_world
           (set_configFilePath (Some sample_path) ui_world)
           (syncConfigMonitors sample_env 1 ui_world).2
           (sample_doc sample_items) sample_items (mkResult 2 0 0 [])).
  - apply wf_ui_world.
  - vm_compute. reflexivity.
  - vm_compute. reflexivity.
  - repeat (apply Forall_cons_2; [vm_compute; reflexivity |]). apply Forall_nil_2.
  - vm_compute. reflexivity.
  - reflexivity.
  - left. reflexivity.
  - vm_compute. reflexivity.
Defined.

Lemma last_definition_wins_witness :
  let E := env_with (Some (Loaded (sample_doc sample_twins))) in
  let d := VObj [("name", VStr "A"); ("type", VStr "http");
                 ("url", VStr "https://two.test"); ("active", VBool false)] in
  let w' := (syncConfigMonitors E 1 fresh_world).2 in
  is_Some (id (lookup_bean 1 (db w') d)) ∧
  ∀ key, key ≠ "id" → is_Some (configToMonitorBean d 1 !! key) →
         bean_get (lookup_bean 1 (db w') d) key = obj_get (configToMonitorBean d 1) key.
Proof.
  intros E d w'.
  apply (last_definition_wins E 1 fresh_world
           (set_configFilePath (Some sample_path) fresh_world) w'
           (sample_doc sample_twins)
           [VObj [("name", VStr "A"); ("type", VStr "http");
                  ("url", VStr "https://one.test")]]
           [] d "A" (mkResult 1 1 0 [])).
  - split; [apply NoDup_nil_2 | apply Forall_nil_2].
  - vm_compute. reflexivity.
  - vm_compute. reflexivity.
  - repeat (apply Forall_cons_2; [vm_compute; reflexivity |]). apply Forall_nil_2.
  - vm_compute. reflexivity.
  - apply Forall_nil_2.
  - vm_compute. reflexivity.
  - reflexivity.
Defined.

Lemma second_cycle_keeps_table_witness :
  let w' := (syncConfigMonitors sample_env 1 ui_world).2 in
  ∃ r2 w'',
    syncConfigMonitors (store_down sample_env) 1 w' = (Normal r2, w'') ∧ db w'' = db w'.
Proof.
  intros w'.
  apply (second_cycle_keeps_table sample_env (store_down sample_env) 1 ui_world
           (set_configFilePath (Some sample_path) ui_world) w' w'
           (sample_doc sample_items) (sample_doc sample_items) sample_items
           (mkResult 2 0 0 [])).
  - apply wf_ui_world.
  - vm_compute. reflexivity.
  - vm_compute. reflexivity.
  - repeat (apply Forall_cons_2; [vm_compute; reflexivity |]). apply Forall_nil_2.
  - vm_compute. apply NoDup_cons. split; [| apply NoDup_singleton].
    intros H. apply list_elem_of_In in H. destruct H as [H | []]. discriminate H.
  - vm_compute. reflexivity.
  - reflexivity.
  - vm_compute. reflexivity.
  - vm_compute. reflexivity.
Defined.

Lemma paused_definition_keeps_task_witness :
  task_kept 1 running_world
    (syncConfigMonitors (env_with (Some (Loaded (sample_doc sample_items_paused))))
                        1 running_world).2.
Proof.
  apply (paused_definition_keeps_task
           (env_with (Some (Loaded (sample_doc sample_items_paused)))) 1 running_world
           (set_configFilePath (Some sample_path) running_world)
           (sample_doc sample_items_paused) sample_items_paused
           (VObj [("name", VStr "A"); ("type", VStr "http");
                  ("url", VStr "https://test1.com"); ("active", VBool false)]) "A").
  - split; cbn [running_world db rows map fst next_id].
    + apply NoDup_singleton.
    + constructor; [reflexivity | constructor].
  - vm_compute. reflexivity.
  - vm_compute. reflexivity.
  - repeat (apply Forall_cons_2; [vm_compute; reflexivity |]). apply Forall_nil_2.
  - vm_compute. reflexivity.
  - left. reflexivity.
  - reflexivity.
  - intros d' [<- | [<- | []]] Hn; [vm_compute; reflexivity | vm_compute in Hn; discriminate Hn].
  - vm_compute. reflexivity.
Defined.
